(** * MultiAgentBlogBuilder: a shallow embedding of the blog pipeline

    The development follows the layout of the repository:
    - [Py]          the fragment of Python's [str] and [re] the code relies on;
    - [Utils]       [utils.py]: word counting, keyword density, keyword
                    extraction, chunk splitting;
    - [Json]        the values [json.loads] returns;
    - [Runtime]     the effects of the program: the hosted model, HTTP, the
                    clock, [random], [time.sleep], exceptions and the session;
    - [Retry]       [utils.py]: the retry decorator;
    - [WebScraper]  [web_scraper.py];
    - [Config]      [config.py];
    - [Research], [Planning], [Review], [Seo]   the agents;
    - [Main]        [main.py], the [/generate] route;
    - [Stubs]       deterministic collaborators for concrete runs;
    - [Claims]      the notions the properties are stated with.
    The properties follow, one module of facts for each module of code.

    Text is modelled as [string] over ASCII: the character classes [\w], [\s],
    [str.lower], [str.isspace] are those of Python restricted to code points
    below 128; a character above 127 is neither a word character nor a space
    and has no case.  Python [int] is [Z]; a Python [float] that results from
    dividing or scaling integers is the exact rational ([Q]).  Logging is
    left out, except for the expressions of a log message that can raise.

    A loop whose end is not evident ([while True], [while start < len(text)])
    takes a [fuel]: the number of turns it may run.  A run that uses up its
    fuel has no outcome ([None], [Diverge]). *)

From Stdlib Require Import String Ascii List ZArith QArith Bool Lia Arith.
From Stdlib Require Import DecimalString.
Import ListNotations.

Open Scope string_scope.
Open Scope Z_scope.

(* ===================================================================== *)
(** * Python strings and the regular expressions of the code             *)
(* ===================================================================== *)

Module Py.

(** ** Characters *)

Definition code (c : ascii) : nat := nat_of_ascii c.

Definition between (lo hi : nat) (c : ascii) : bool :=
  (Nat.leb lo (code c) && Nat.leb (code c) hi)%bool.

Definition is_upper (c : ascii) : bool := between 65 90 c.
Definition is_lower (c : ascii) : bool := between 97 122 c.
Definition is_digit (c : ascii) : bool := between 48 57 c.
Definition is_alpha (c : ascii) : bool := (is_upper c || is_lower c)%bool.

(** [\w] on a character below 128: letters, digits and the underscore.
    (Python's class also holds the letters and digits above 127.) *)
Definition is_word (c : ascii) : bool :=
  (is_alpha c || is_digit c || Nat.eqb (code c) 95)%bool.

(** [str.isspace] and [\s]: TAB, LF, VT, FF, CR, FS, GS, RS, US and space. *)
Definition is_space (c : ascii) : bool :=
  (between 9 13 c || between 28 32 c)%bool.

Definition lower_char (c : ascii) : ascii :=
  if is_upper c then ascii_of_nat (code c + 32) else c.

Definition upper_char (c : ascii) : ascii :=
  if is_lower c then ascii_of_nat (code c - 32) else c.

(** Equality of characters under [re.IGNORECASE]. *)
Definition eqb_ci (a b : ascii) : bool := Ascii.eqb (lower_char a) (lower_char b).

Definition newline : ascii := ascii_of_nat 10.
Definition nl : string := String newline "".

(** ** [len], slices, [in], [startswith], [endswith] *)

Definition len (s : string) : Z := Z.of_nat (String.length s).

(** Truthiness of a string: [if s:] and [if not s:]. *)
Definition truthy (s : string) : bool :=
  match s with "" => false | _ => true end.

(** The index adjustment Python applies to the bounds of a slice. *)
Definition clamp (n i : Z) : Z :=
  if i <? 0 then Z.max 0 (i + n) else Z.min i n.

(** [s[a:b]]; [None] is an omitted bound. *)
Definition slice (s : string) (a b : option Z) : string :=
  let n := len s in
  let lo := match a with None => 0 | Some i => clamp n i end in
  let hi := match b with None => n | Some j => clamp n j end in
  if hi <=? lo then "" else substring (Z.to_nat lo) (Z.to_nat (hi - lo)) s.

Fixpoint drop (n : nat) (s : string) : string :=
  match n, s with
  | O, _ => s
  | S k, String _ s' => drop k s'
  | S _, "" => ""
  end.

Definition startswith (s p : string) : bool := String.prefix p s.

Fixpoint rev_string (s : string) : string :=
  match s with
  | "" => ""
  | String c s' => rev_string s' ++ String c ""
  end.

Definition endswith (s p : string) : bool :=
  String.prefix (rev_string p) (rev_string s).

(** [p in s]. *)
Fixpoint contains (p s : string) : bool :=
  if String.prefix p s then true
  else match s with
       | "" => false
       | String _ s' => contains p s'
       end.

(** ** [lower], [capitalize], [strip] *)

(** [s.lower()] for a text of characters below 128.  (On other characters
    [str.lower] follows Unicode and may change the length of the text.) *)
Fixpoint lower (s : string) : string :=
  match s with
  | "" => ""
  | String c s' => String (lower_char c) (lower s')
  end.

Definition capitalize (s : string) : string :=
  match s with
  | "" => ""
  | String c s' => String (upper_char c) (lower s')
  end.

Fixpoint lstrip (s : string) : string :=
  match s with
  | String c s' => if is_space c then lstrip s' else s
  | "" => ""
  end.

Definition rstrip (s : string) : string := rev_string (lstrip (rev_string s)).

Definition strip (s : string) : string := rstrip (lstrip s).

(** ** [rfind] *)

(** Scan of [s], whose first character has index [i]: the greatest index
    [j] with [lo <= j], [j + len sub <= hi] and [sub] a prefix at [j]. *)
Fixpoint rfind_scan (sub s : string) (i lo hi acc : Z) : Z :=
  let acc' :=
    if ((lo <=? i) && (i + len sub <=? hi) && String.prefix sub s)%bool
    then i else acc in
  match s with
  | "" => acc'
  | String _ s' => rfind_scan sub s' (i + 1) lo hi acc'
  end.

(** [s.rfind(sub, start, end)], with CPython's adjustment of the bounds:
    [end] is cut to [len s], a negative bound is counted from the end and
    then raised to [0]. *)
Definition rfind (s sub : string) (start stop : Z) : Z :=
  let n := len s in
  let stop1 := if n <? stop then n
               else if stop <? 0 then Z.max 0 (stop + n) else stop in
  let start1 := if start <? 0 then Z.max 0 (start + n) else start in
  rfind_scan sub s 0 start1 stop1 (-1).

(** ** [split], [replace], [join] *)

(** [s.split(sep)] for a non-empty [sep]; [skip] characters of a separator
    just matched remain to be consumed, [cur] is the piece being read,
    reversed. *)
Fixpoint split_scan (sep : string) (skip : nat) (cur : string) (s : string)
  : list string :=
  match s with
  | "" => [rev_string cur]
  | String c s' =>
      match skip with
      | S k => split_scan sep k cur s'
      | O =>
          if String.prefix sep s
          then rev_string cur :: split_scan sep (String.length sep - 1) "" s'
          else split_scan sep O (String c cur) s'
      end
  end.

Definition split (s sep : string) : list string := split_scan sep O "" s.

(** [s.replace(old, new)] for a non-empty [old]. *)
Fixpoint replace_scan (old new : string) (skip : nat) (s : string) : string :=
  match s with
  | "" => ""
  | String c s' =>
      match skip with
      | S k => replace_scan old new k s'
      | O =>
          if String.prefix old s
          then new ++ replace_scan old new (String.length old - 1) s'
          else String c (replace_scan old new O s')
      end
  end.

(** [s.replace("", new)] puts [new] before every character and at the end. *)
Fixpoint interleave (new s : string) : string :=
  match s with
  | "" => new
  | String c s' => new ++ String c (interleave new s')
  end.

Definition replace (s old new : string) : string :=
  match old with
  | "" => interleave new s
  | _ => replace_scan old new O s
  end.

Fixpoint join (sep : string) (l : list string) : string :=
  match l with
  | [] => ""
  | [x] => x
  | x :: tl => x ++ sep ++ join sep tl
  end.

(** ** Regular expressions *)

(** Is the character at a position a word character; [None] is the outside
    of the string. *)
Definition wordy (c : option ascii) : bool :=
  match c with Some a => is_word a | None => false end.

Definition head (s : string) : option ascii :=
  match s with "" => None | String c _ => Some c end.

(** [\b] between the character [prev] and the rest [s]. *)
Definition boundary (prev : option ascii) (s : string) : bool :=
  xorb (wordy prev) (wordy (head s)).

(** The literal [lit] read at the front of [s]: the rest of [s] and the
    last character read ([prev] when [lit] is empty).  [ci] is
    [re.IGNORECASE]. *)
Fixpoint read_literal (ci : bool) (lit s : string) (prev : option ascii)
  : option (string * option ascii) :=
  match lit with
  | "" => Some (s, prev)
  | String a lit' =>
      match s with
      | "" => None
      | String c s' =>
          if (if ci then eqb_ci a c else Ascii.eqb a c)
          then read_literal ci lit' s' (Some c)
          else None
      end
  end.

(** A match of [\b + re.escape(lit) + \b] that starts where [s] starts. *)
Definition match_word (ci : bool) (lit : string) (prev : option ascii)
  (s : string) : bool :=
  (boundary prev s &&
   match read_literal ci lit s prev with
   | Some (rest, last) => boundary last rest
   | None => false
   end)%bool.

(** [len(re.findall(r'\b' + re.escape(lit) + r'\b', s))]: the matches are
    taken from left to right and do not overlap; after an empty match the
    scan moves on by one character. *)
Fixpoint count_word_matches (ci : bool) (lit : string) (skip : nat)
  (prev : option ascii) (s : string) : nat :=
  match s with
  | "" => match skip with
          | O => if match_word ci lit prev "" then 1%nat else 0%nat
          | S _ => 0%nat
          end
  | String c s' =>
      match skip with
      | S k => count_word_matches ci lit k (Some c) s'
      | O =>
          if match_word ci lit prev s
          then S (count_word_matches ci lit (String.length lit - 1) (Some c) s')
          else count_word_matches ci lit O (Some c) s'
      end
  end.

(** [re.sub(r'\b' + re.escape(lit) + r'\b', repl, s, flags=re.IGNORECASE)]
    for a non-empty [lit] and a replacement without backslashes. *)
Fixpoint sub_word (ci : bool) (lit repl : string) (skip : nat)
  (prev : option ascii) (s : string) : string :=
  match s with
  | "" => ""
  | String c s' =>
      match skip with
      | S k => sub_word ci lit repl k (Some c) s'
      | O =>
          if match_word ci lit prev s
          then repl ++ sub_word ci lit repl (String.length lit - 1) (Some c) s'
          else String c (sub_word ci lit repl O (Some c) s')
      end
  end.

(** [re.search(r'\b' + re.escape(lit) + r'\b', s, re.IGNORECASE).span()]
    for a non-empty [lit]; [i] is the index of the first character of [s]. *)
Fixpoint search_word (ci : bool) (lit : string) (i : Z)
  (prev : option ascii) (s : string) : option (Z * Z) :=
  if match_word ci lit prev s then Some (i, i + len lit)
  else match s with
       | "" => None
       | String c s' => search_word ci lit (i + 1) (Some c) s'
       end.

(** [len(re.findall(r'\b\w+\b', s))]: the maximal runs of word characters;
    [inw] tells that the previous character was one. *)
Fixpoint count_runs (inw : bool) (s : string) : nat :=
  match s with
  | "" => 0%nat
  | String c s' =>
      if is_word c
      then (if inw then count_runs true s' else S (count_runs true s'))
      else count_runs false s'
  end.

(** [re.findall(r'\b\w+\b', s)]; [cur] is the run being read, reversed. *)
Fixpoint word_runs (cur : string) (s : string) : list string :=
  match s with
  | "" => match cur with "" => [] | _ => [rev_string cur] end
  | String c s' =>
      if is_word c then word_runs (String c cur) s'
      else match cur with
           | "" => word_runs "" s'
           | _ => rev_string cur :: word_runs "" s'
           end
  end.

(** [re.sub(r' {2,}', ' ', s)]: a space that follows a space is dropped. *)
Fixpoint collapse_spaces (after_space : bool) (s : string) : string :=
  match s with
  | "" => ""
  | String c s' =>
      if Ascii.eqb c " "
      then (if after_space then collapse_spaces true s'
            else String c (collapse_spaces true s'))
      else String c (collapse_spaces false s')
  end.

(** [re.sub(r'\n{3,}', '\n\n', s)]: of a run of line feeds the first two
    are kept; [seen] counts the line feeds of the current run. *)
Fixpoint collapse_newlines (seen : nat) (s : string) : string :=
  match s with
  | "" => ""
  | String c s' =>
      if Ascii.eqb c newline
      then (if Nat.leb 2 seen then collapse_newlines (S seen) s'
            else String c (collapse_newlines (S seen) s'))
      else String c (collapse_newlines O s')
  end.

(** [re.sub(r'\.(?=[A-Za-z])', '. ', s)]. *)
Fixpoint space_after_period (s : string) : string :=
  match s with
  | "" => ""
  | String c s' =>
      if (Ascii.eqb c "." && match s' with
                             | String d _ => is_alpha d
                             | "" => false
                             end)%bool
      then String c (String " " (space_after_period s'))
      else String c (space_after_period s')
  end.

End Py.

(* ===================================================================== *)
(** * Exceptions and results                                             *)
(* ===================================================================== *)

(** The exceptions of the program.  All of them derive from [Exception], so
    an [except Exception] clause catches each one.  [External] is a failure
    raised inside a collaborator (the hosted model, [requests],
    [BeautifulSoup], [trafilatura]). *)
Inductive exn : Type :=
| ZeroDivisionError
| TypeError
| AttributeError
| JSONDecodeError
| UnboundLocalError
| External (msg : string).

Inductive result (A : Type) : Type :=
| Ok (a : A)
| Raise (e : exn).
Arguments Ok {A} a.
Arguments Raise {A} e.

(** [x / y] on Python integers. *)
Definition true_div (x y : Z) : result Q :=
  if y =? 0 then Raise ZeroDivisionError
  else Ok (Qmake x 1 / Qmake y 1)%Q.

(** [l[:n]] on a list. *)
Definition list_prefix {A : Type} (l : list A) (n : Z) : list A :=
  firstn (Z.to_nat (Py.clamp (Z.of_nat (List.length l)) n)) l.

(* ===================================================================== *)
(** * utils.py                                                           *)
(* ===================================================================== *)

Module Utils.

(** [count_words]. *)
Definition count_words (text : string) : Z :=
  Z.of_nat (Py.count_runs false text).

(** The loop of [calculate_keyword_density] over [keywords]. *)
Fixpoint keyword_count (text_lower : string) (keywords : list string) : Z :=
  match keywords with
  | [] => 0
  | keyword :: rest =>
      Z.of_nat (Py.count_word_matches false (Py.lower keyword) O None text_lower)
      + keyword_count text_lower rest
  end.

(** [calculate_keyword_density]. *)
Definition calculate_keyword_density (text : string) (keywords : list string)
  : result Q :=
  match keywords, Py.truthy text with
  | [], _ => Ok 0%Q
  | _, false => Ok 0%Q
  | _ :: _, true =>
      let word_count := count_words text in
      if word_count =? 0 then Ok 0%Q
      else true_div (keyword_count (Py.lower text) keywords) word_count
  end.

(** ** [extract_keywords_from_text] *)

Definition stop_words : list string :=
  [ "a"; "an"; "the"; "and"; "or"; "but"; "is"; "are"; "was"; "were";
    "to"; "of"; "in"; "for"; "with"; "on"; "at"; "by"; "from"; "about";
    "as"; "into"; "like"; "through"; "after"; "over"; "between"; "out";
    "this"; "that"; "these"; "those"; "there"; "here"; "how"; "why";
    "when"; "where"; "who"; "whom"; "which"; "what"; "would"; "could";
    "should"; "will"; "shall"; "may"; "might"; "must"; "can"; "then" ].

Definition mem (w : string) (l : list string) : bool :=
  existsb (String.eqb w) l.

(** A dictionary from words to counts, in insertion order. *)
Definition freq := list (string * Z).

Fixpoint bump (w : string) (d : freq) : freq :=
  match d with
  | [] => [(w, 1)]
  | (k, n) :: d' => if String.eqb k w then (k, n + 1) :: d'
                    else (k, n) :: bump w d'
  end.

(** [sorted(d.items(), key=lambda x: x[1], reverse=True)]: a stable sort,
    the entries of equal count keep their order. *)
Fixpoint insert_desc (x : string * Z) (l : list (string * Z)) : list (string * Z) :=
  match l with
  | [] => [x]
  | y :: l' => if snd y <? snd x then x :: y :: l'
               else y :: insert_desc x l'
  end.

Definition sorted_desc (d : freq) : list (string * Z) :=
  fold_left (fun acc x => insert_desc x acc) d [].

Definition count_frequencies (words : list string) : freq :=
  fold_left
    (fun d word =>
       if ((3 <? Py.len word) && negb (mem word stop_words))%bool
       then bump word d else d)
    words [].

Definition extract_keywords_from_text (text : string) (max_keywords : Z)
  : list string :=
  let words := Py.word_runs "" (Py.lower text) in
  let sorted_words := sorted_desc (count_frequencies words) in
  map fst (list_prefix sorted_words max_keywords).

(** ** [split_text_into_chunks] *)

(** The end of the chunk that starts at [start], when the window
    [start + max_chars] does not reach the end of the text. *)
Definition chunk_end (text : string) (max_chars start : Z) : Z :=
  let end_ := start + max_chars in
  let paragraph_break := Py.rfind text (Py.nl ++ Py.nl) start end_ in
  let sentence_break := Py.rfind text ". " start end_ in
  if start + max_chars / 2 <? paragraph_break then paragraph_break + 2
  else if start + max_chars / 3 <? sentence_break then sentence_break + 2
  else
    let space_position := Py.rfind text " " start end_ in
    if start <? space_position then space_position + 1 else end_.

(** The [while start < len(text)] loop.  [fuel] bounds the number of times
    the loop test is evaluated; [None] is a loop still running when the
    fuel is spent. *)
Fixpoint split_loop (fuel : nat) (text : string) (max_chars overlap : Z)
  (start : Z) (chunks : list string) : option (list string) :=
  match fuel with
  | O => None
  | S fuel' =>
      if start <? Py.len text then
        if Py.len text <=? start + max_chars
        then Some (chunks ++ [Py.slice text (Some start) None])%list
        else
          let end_ := chunk_end text max_chars start in
          split_loop fuel' text max_chars overlap (end_ - overlap)
            (chunks ++ [Py.slice text (Some start) (Some end_)])%list
      else Some chunks
  end.

Definition split_text_into_chunks (fuel : nat) (text : string)
  (max_tokens overlap : Z) : option (list string) :=
  let max_chars := max_tokens * 4 in
  if Py.len text <=? max_chars then Some [text]
  else split_loop fuel text max_chars overlap 0 [].

End Utils.

(* ===================================================================== *)
(** * JSON values, as [json.loads] returns them                          *)
(* ===================================================================== *)

Module Json.

#[warnings="-register-all"]
Inductive json : Type :=
| JNull
| JBool (b : bool)
| JInt (n : Z)
| JFloat (q : Q)
| JStr (s : string)
| JArr (l : list json)
| JObj (l : list (string * json)).

Fixpoint lookup (k : string) (l : list (string * json)) : option json :=
  match l with
  | [] => None
  | (k', v) :: l' => if String.eqb k' k then Some v else lookup k l'
  end.

(** [d[k] = v] on a dictionary: an existing key keeps its place. *)
Fixpoint store (k : string) (v : json) (l : list (string * json))
  : list (string * json) :=
  match l with
  | [] => [(k, v)]
  | (k', v') :: l' => if String.eqb k' k then (k', v) :: l'
                      else (k', v') :: store k v l'
  end.

(** [x.get(k, default)]. *)
Definition get (x : json) (k : string) (default : json) : result json :=
  match x with
  | JObj l => Ok match lookup k l with Some v => v | None => default end
  | _ => Raise AttributeError
  end.

Definition is_str (k : string) (x : json) : bool :=
  match x with JStr s => String.eqb s k | _ => false end.

(** [k in x] for a string [k]. *)
Definition has (k : string) (x : json) : result bool :=
  match x with
  | JObj l => Ok match lookup k l with Some _ => true | None => false end
  | JArr l => Ok (existsb (is_str k) l)
  | JStr s => Ok (Py.contains k s)
  | _ => Raise TypeError
  end.

(** [x[k1][k2] = v] for strings [k1] and [k2], when [k1 in x] holds. *)
Definition store_nested (x : json) (k1 k2 : string) (v : json) : result json :=
  match x with
  | JObj l =>
      match lookup k1 l with
      | Some (JObj inner) => Ok (JObj (store k1 (JObj (store k2 v inner)) l))
      | _ => Raise TypeError
      end
  | _ => Raise TypeError
  end.

(** [len(x)]. *)
Definition length (x : json) : result Z :=
  match x with
  | JStr s => Ok (Py.len s)
  | JArr l => Ok (Z.of_nat (List.length l))
  | JObj l => Ok (Z.of_nat (List.length l))
  | _ => Raise TypeError
  end.

Definition Qltb (a b : Q) : bool := negb (Qle_bool b a).

(** [x > n] for an integer literal [n]. *)
Definition greater (x : json) (n : Z) : result bool :=
  match x with
  | JInt m => Ok (n <? m)
  | JBool b => Ok (n <? (if b then 1 else 0))
  | JFloat q => Ok (Qltb (inject_Z n) q)
  | _ => Raise TypeError
  end.

End Json.

(* ===================================================================== *)
(** * The effects of the program                                         *)
(* ===================================================================== *)

Module Runtime.

(** The [LLMChain] objects of the agents. *)
Inductive chain : Type :=
| trend_analysis_chain
| research_synthesis_chain
| outline_chain
| seo_analysis_chain
| seo_optimization_chain
| content_review_chain
| final_check_chain.

Definition kwargs := list (string * string).

(** A [requests] response. *)
Record response := { status_code : Z; text : string }.

(** One element of [soup.select('div.g')]: the text of its first [h3], the
    [href] of its first [a] (the inner [None]: an [a] without [href]) and
    the text of its first [div.VwiC3b]. *)
Record result_element := {
  title_element : option string;
  link_element : option (option string);
  snippet_element : option string
}.

(** The collaborators.  A collaborator that is asked at different times may
    answer differently: its answer depends on [tick], the number of
    requests the program has made so far.  The parsers are functions of
    their input. *)
Record Env := {
  chain_run : nat -> chain -> kwargs -> result string;
  requests_get : nat -> string -> result response;
  soup_select : string -> result (list result_element);
  fetch_url : nat -> string -> result (option string);
  extract : string -> result (option string);
  random_random : nat -> Q;
  random_below : nat -> nat -> nat;
  strftime : nat -> string -> string;
  json_loads : string -> option Json.json
}.

Inductive event : Type :=
| EvChain (c : chain) (kw : kwargs)
| EvGet (url : string)
| EvFetch (url : string)
| EvRandom
| EvClock
| EvSleep (seconds : Q)
| EvCall.

(** [session['progress']] and [session['blog_result']]. *)
Record progress := {
  status : string; message : string; completion : Z
}.
Record blog_result := {
  br_topic : string; br_content : string; br_timestamp : string
}.

Record state := {
  tick : nat;
  trace : list event;
  session_progress : option progress;
  session_blog_result : option blog_result
}.

Definition initial_state : state :=
  {| tick := O; trace := []; session_progress := None;
     session_blog_result := None |}.

(** The outcome of a computation: a value, an exception, or no outcome
    (the computation is still running when its fuel is spent). *)
Inductive outcome (A : Type) : Type :=
| Ret (a : A) (s : state)
| Exc (e : exn) (s : state)
| Diverge.
Arguments Ret {A} a s.
Arguments Exc {A} e s.
Arguments Diverge {A}.

Definition M (A : Type) : Type := state -> outcome A.

Definition ret {A} (a : A) : M A := fun s => Ret a s.

Definition bind {A B} (m : M A) (k : A -> M B) : M B :=
  fun s => match m s with
           | Ret a s' => k a s'
           | Exc e s' => Exc e s'
           | Diverge => Diverge
           end.

Definition raise {A} (e : exn) : M A := fun s => Exc e s.

Definition diverge {A} : M A := fun _ => Diverge.

(** [try: m  except Exception as e: h e]. *)
Definition try_except {A} (m : M A) (h : exn -> M A) : M A :=
  fun s => match m s with
           | Exc e s' => h e s'
           | o => o
           end.

(** [try: m  except json.JSONDecodeError: h]. *)
Definition try_except_json {A} (m : M A) (h : M A) : M A :=
  fun s => match m s with
           | Exc JSONDecodeError s' => h s'
           | o => o
           end.

Definition lift {A} (r : result A) : M A :=
  match r with Ok a => ret a | Raise e => raise e end.

Definition lift_option {A} (o : option A) : M A :=
  match o with Some a => ret a | None => diverge end.

Definition record (ev : event) (s : state) : state :=
  {| tick := S (tick s); trace := trace s ++ [ev];
     session_progress := session_progress s;
     session_blog_result := session_blog_result s |}.

(** A request to a collaborator: it is recorded, it advances [tick], and
    its answer at this [tick] is returned or raised. *)
Definition request {A} (ev : event) (answer : nat -> result A) : M A :=
  fun s => match answer (tick s) with
           | Ok a => Ret a (record ev s)
           | Raise e => Exc e (record ev s)
           end.

(** The state after a pause, and after an assignment to the session. *)
Definition slept (seconds : Q) (s : state) : state :=
  {| tick := tick s; trace := trace s ++ [EvSleep seconds];
     session_progress := session_progress s;
     session_blog_result := session_blog_result s |}.

Definition with_progress (p : progress) (s : state) : state :=
  {| tick := tick s; trace := trace s;
     session_progress := Some p;
     session_blog_result := session_blog_result s |}.

Definition with_blog_result (b : blog_result) (s : state) : state :=
  {| tick := tick s; trace := trace s;
     session_progress := session_progress s;
     session_blog_result := Some b |}.

(** [time.sleep(seconds)] for a delay it accepts: not negative and not too
    long.  ([time.sleep] raises [ValueError] on a negative delay and
    [OverflowError] on one it cannot convert; the properties that depend on
    a computed delay assume it is accepted.) *)
Definition sleep (seconds : Q) : M unit := fun s => Ret tt (slept seconds s).

Definition set_progress (p : progress) : M unit :=
  fun s => Ret tt (with_progress p s).

Definition set_blog_result (b : blog_result) : M unit :=
  fun s => Ret tt (with_blog_result b s).

Declare Scope monad_scope.
Delimit Scope monad_scope with monad.
Notation "x <- m ;; k" := (bind m (fun x => k))
  (at level 61, m at next level, right associativity) : monad_scope.
Notation "m ;;; k" := (bind m (fun _ => k))
  (at level 61, right associativity) : monad_scope.

Section Collaborators.
Variable env : Env.

Definition run (c : chain) (kw : kwargs) : M string :=
  request (EvChain c kw) (fun t => chain_run env t c kw).

Definition http_get (url : string) : M response :=
  request (EvGet url) (fun t => requests_get env t url).

Definition trafilatura_fetch_url (url : string) : M (option string) :=
  request (EvFetch url) (fun t => fetch_url env t url).

(** [random.random()]. *)
Definition random : M Q :=
  request EvRandom (fun t => Ok (random_random env t)).

(** [random.uniform(a, b)]: [a + (b - a) * random()]. *)
Definition uniform (a b : Q) : M Q :=
  bind random (fun r => ret (a + (b - a) * r)%Q).

(** [random.choice(l)] for a non-empty [l]. *)
Definition choice (l : list string) : M string :=
  request EvRandom
    (fun t => Ok (nth (Nat.modulo (random_below env t (List.length l))
                         (List.length l)) l "")).

(** [time.strftime(format)]. *)
Definition clock (format : string) : M string :=
  request EvClock (fun t => Ok (strftime env t format)).
End Collaborators.

End Runtime.

(* ===================================================================== *)
(** * utils.py: [retry_with_exponential_backoff]                         *)
(* ===================================================================== *)

Module Retry.
Import Runtime.
Local Open Scope monad_scope.

Section Wrapper.
Variable env : Env.
Context {A : Type}.
(** One attempt: the call of the decorated function on the arguments
    of the wrapper. *)
Variable func : M A.
Variable max_retries : Z.
Variables initial_delay exponential_base : Q.
Variable jitter : bool.

Definition next_delay (delay : Q) : M Q :=
  if jitter
  then r <- random env ;; ret (delay * exponential_base * (1 + r))%Q
  else ret (delay * exponential_base)%Q.

(** The [while True] loop of [wrapper]; [fuel] bounds the attempts. *)
Fixpoint retry_loop (fuel : nat) (num_retries : Z) (delay : Q) : M A :=
  match fuel with
  | O => diverge
  | S fuel' =>
      try_except func
        (fun e =>
           let num_retries := num_retries + 1 in
           if max_retries <? num_retries then raise e
           else
             delay <- next_delay delay ;;
             sleep delay ;;;
             retry_loop fuel' num_retries delay)
  end.

Definition wrapper (fuel : nat) : M A := retry_loop fuel 0 initial_delay.
End Wrapper.

(** The decorator with its default arguments. *)
Definition retry_with_exponential_backoff {A} (env : Env) (func : M A)
  (fuel : nat) : M A :=
  wrapper env func 5 1%Q 2%Q true fuel.

End Retry.

(* ===================================================================== *)
(** * web_scraper.py                                                     *)
(* ===================================================================== *)

Module WebScraper.
Import Runtime.
Local Open Scope monad_scope.

Record search_result := { title : string; link : string; snippet : string }.

Definition option_truthy (o : option string) : bool :=
  match o with Some s => Py.truthy s | None => false end.

Definition or_empty (o : option string) : string :=
  match o with Some s => s | None => "" end.

Section WithEnv.
Variable env : Env.

(** [get_website_text_content]. *)
Definition get_website_text_content (url : string) : M string :=
  try_except
    (downloaded <- trafilatura_fetch_url env url ;;
     if negb (option_truthy downloaded) then ret ""
     else
       text <- lift (extract env (or_empty downloaded)) ;;
       if negb (option_truthy text) then ret ""
       else ret (or_empty text))
    (fun _ => ret "").

(** [link.split('/url?q=')[1].split('&')[0]]; a missing element is an
    [IndexError], which cannot arise after [startswith('/url?q=')]. *)
Definition unwrap_link (link : string) : string :=
  nth 0 (Py.split (nth 1 (Py.split link "/url?q=") "") "&") "".

(** The body of the [for result in ...] loop of [search_web]. *)
Definition read_result (result : result_element) : list search_result :=
  match title_element result, link_element result with
  | Some title_text, Some (Some href) =>
      let link := if Py.startswith href "/url?q=" then unwrap_link href
                  else href in
      [ {| title := title_text; link := link;
           snippet := or_empty (snippet_element result) |} ]
  | _, _ => []
  end.

(** [search_web] before decoration. *)
Definition search_web_body (query : string) (num_results : Z)
  : M (list search_result) :=
  try_except
    (let search_url :=
       "https://www.google.com/search?q=" ++ Py.replace query " " "+" in
     response <- http_get env search_url ;;
     if negb (status_code response =? 200) then ret []
     else
       results <- lift (soup_select env (text response)) ;;
       ret (flat_map read_result (list_prefix results num_results)))
    (fun _ => ret []).

(** [search_web], decorated with [@retry_with_exponential_backoff]. *)
Definition search_web (fuel : nat) (query : string) (num_results : Z)
  : M (list search_result) :=
  Retry.retry_with_exponential_backoff env
    (search_web_body query num_results) fuel.

(** The removal of duplicates by URL in [search_latest_hr_trends]. *)
Fixpoint unique_by_link (seen_urls : list string) (l : list search_result)
  : list search_result :=
  match l with
  | [] => []
  | r :: l' =>
      if Utils.mem (link r) seen_urls then unique_by_link seen_urls l'
      else r :: unique_by_link (link r :: seen_urls) l'
  end.

Fixpoint search_all (fuel : nat) (queries : list string)
  : M (list search_result) :=
  match queries with
  | [] => ret []
  | query :: rest =>
      results <- search_web fuel query 3 ;;
      sleep 2%Q ;;;
      more <- search_all fuel rest ;;
      ret (results ++ more)%list
  end.

(** [search_latest_hr_trends]. *)
Definition search_latest_hr_trends (fuel : nat) : M (list search_result) :=
  current_year <- clock env "%Y" ;;
  let queries :=
    [ "latest HR trends " ++ current_year;
      "human resources challenges " ++ current_year;
      "trending topics in HR " ++ current_year;
      "employee engagement strategies";
      "remote work HR challenges";
      "HR technology innovations" ] in
  all_results <- search_all fuel queries ;;
  ret (list_prefix (unique_by_link [] all_results) 10).

(** [scrape_multiple_sources].  The pause follows the [append]; neither
    [random.uniform] nor [time.sleep] raises, so the handler never runs
    after an [append]. *)
Fixpoint scrape_multiple_sources (urls : list string)
  : M (list (string * string)) :=
  match urls with
  | [] => ret []
  | url :: rest =>
      found <- try_except
                 (content <- get_website_text_content url ;;
                  delay <- uniform env 1%Q 3%Q ;;
                  sleep delay ;;;
                  ret (if Py.truthy content then [(url, content)] else []))
                 (fun _ => ret []) ;;
      more <- scrape_multiple_sources rest ;;
      ret (found ++ more)%list
  end.
End WithEnv.

End WebScraper.

(* ===================================================================== *)
(** * config.py                                                          *)
(* ===================================================================== *)

Module Config.

Definition MAX_RESEARCH_SOURCES : Z := 5.

Definition FALLBACK_HR_TOPICS : list string :=
  [ "Employee Retention Strategies";
    "Remote Work Best Practices";
    "Diversity and Inclusion in the Workplace";
    "Performance Management Systems";
    "Employee Wellness Programs";
    "HR Technology Trends";
    "Recruitment Automation";
    "Workplace Culture Development";
    "Employee Engagement Strategies";
    "HR Compliance Updates" ].

End Config.

(* ===================================================================== *)
(** * agents/research_agent.py                                           *)
(* ===================================================================== *)

Module Research.
Import Runtime.
Local Open Scope monad_scope.

(** The dictionaries of [source_metadata].  A key whose presence the code
    tests is an optional field. *)
Record source := {
  url : string;
  content_length : Z;
  extracted_keywords : option (list string)
}.

(** The research data dictionary. *)
Record research_data := {
  topic : string;
  keywords : string;
  synthesized_research : option string;
  source_metadata : option (list source);
  timestamp : string
}.

(** The loop of [research_topic] over the scraped pages. *)
Fixpoint combine_research (scraped_data : list (string * string))
  (combined_research : string) (metadata : list source)
  : string * list source :=
  match scraped_data with
  | [] => (combined_research, metadata)
  | (url, content) :: rest =>
      if Py.truthy content then
        let truncated_content := Py.slice content None (Some 5000) in
        combine_research rest
          (combined_research ++ Py.nl ++ Py.nl ++ "SOURCE: " ++ url ++ Py.nl
             ++ truncated_content ++ Py.nl)
          (metadata ++
             [ {| url := url; content_length := Py.len content;
                  extracted_keywords :=
                    Some (Utils.extract_keywords_from_text content 5) |} ])%list
      else combine_research rest combined_research metadata
  end.

Section WithEnv.
Variable env : Env.

(** The loop of [research_topic] over the chunks. *)
Fixpoint synthesize (topic keywords : string) (research_chunks : list string)
  (synthesized_research : string) : M string :=
  match research_chunks with
  | [] => ret synthesized_research
  | chunk :: rest =>
      chunk_synthesis <-
        run env research_synthesis_chain
          [("topic", topic); ("research_data", chunk); ("keywords", keywords)] ;;
      sleep 1%Q ;;;
      synthesize topic keywords rest
        (synthesized_research ++ chunk_synthesis ++ Py.nl ++ Py.nl)
  end.

(** [research_topic]. *)
Definition research_topic (fuel : nat) (topic keywords : string)
  : M research_data :=
  let search_query :=
    if Py.truthy keywords then topic ++ " " ++ keywords else topic in
  search_results <-
    WebScraper.search_web env fuel search_query Config.MAX_RESEARCH_SOURCES ;;
  let urls := map WebScraper.link search_results in
  scraped_data <- WebScraper.scrape_multiple_sources env urls ;;
  let '(combined_research, metadata) := combine_research scraped_data "" [] in
  research_chunks <-
    lift_option (Utils.split_text_into_chunks fuel combined_research 4000 200) ;;
  synthesized <- synthesize topic keywords research_chunks "" ;;
  stamp <- clock env "%Y-%m-%d %H:%M:%S" ;;
  ret {| topic := topic; keywords := keywords;
         synthesized_research := Some synthesized;
         source_metadata := Some metadata;
         timestamp := stamp |}.

(** The fallback of [find_trending_topic]. *)
Definition research_fallback_topic (fuel : nat) : M (string * research_data) :=
  selected_topic <- choice env Config.FALLBACK_HR_TOPICS ;;
  research <- research_topic fuel selected_topic "" ;;
  ret (selected_topic, research).

Definition label_source (p : string * string) : string :=
  "Source: " ++ fst p ++ Py.nl ++ Py.slice (snd p) None (Some 3000).

(** The body of the [try] of [find_trending_topic]. *)
Definition trend_research (fuel : nat) : M (string * research_data) :=
  trend_results <- WebScraper.search_latest_hr_trends env fuel ;;
  match trend_results with
  | [] => research_fallback_topic fuel
  | _ =>
      let trend_urls :=
        map WebScraper.link (list_prefix trend_results 5) in
      scraped_data <- WebScraper.scrape_multiple_sources env trend_urls ;;
      let combined_trend_data :=
        Py.join (Py.nl ++ Py.nl) (map label_source scraped_data) in
      answer <- run env trend_analysis_chain
                  [("trend_data", combined_trend_data)] ;;
      let selected_topic := Py.strip answer in
      research <- research_topic fuel selected_topic "" ;;
      ret (selected_topic, research)
  end.

(** [find_trending_topic]. *)
Definition find_trending_topic (fuel : nat) : M (string * research_data) :=
  try_except (trend_research fuel) (fun _ => research_fallback_topic fuel).
End WithEnv.

End Research.

(* ===================================================================== *)
(** * agents/planning_agent.py                                           *)
(* ===================================================================== *)

Module Planning.
Import Runtime Json.
Local Open Scope monad_scope.

Definition strs (l : list string) : json := JArr (map JStr l).

Definition section (heading : string) (subheadings : list json)
  (key_points : list string) (target_word_count : Z) : json :=
  JObj [ ("heading", JStr heading);
         ("subheadings", JArr subheadings);
         ("key_points", strs key_points);
         ("target_word_count", JInt target_word_count) ].

Definition subheading (title : string) (key_points : list string)
  (target_word_count : Z) : json :=
  JObj [ ("title", JStr title);
         ("key_points", strs key_points);
         ("target_word_count", JInt target_word_count) ].

(** The sections of the fallback outline of [create_outline]. *)
Definition fallback_sections (topic : string) : list json :=
  [ section "Introduction" []
      ["Introduction to the topic"; "Why it matters"; "What will be covered"] 200;
    section ("Understanding " ++ topic)
      [ subheading "Key Concepts" ["Important definitions"; "Core principles"] 250;
        subheading "Current Trends" ["Recent developments"; "Industry shifts"] 250 ]
      [] 500;
    section "Best Practices"
      [ subheading "Strategies for Implementation"
          ["Practical approaches"; "Step-by-step guidance"] 300;
        subheading "Common Challenges" ["Potential obstacles"; "Solutions"] 300 ]
      [] 600;
    section "Case Studies"
      [ subheading "Success Stories" ["Real-world examples"; "Outcomes"] 300 ]
      [] 300;
    section "Future Directions" []
      ["Emerging trends"; "Predictions"; "Preparation strategies"] 200;
    section "Conclusion" []
      ["Summary of key points"; "Final thoughts"; "Call to action"] 200 ].

Definition fallback_outline (topic keywords : string) : json :=
  JObj [ ("title", JStr (topic ++ ": A Comprehensive Guide"));
         ("target_keywords",
          strs (if Py.truthy keywords then Py.split keywords ", " else []));
         ("estimated_word_count", JInt 2000);
         ("sections", JArr (fallback_sections topic)) ].

(** The keywords of all sources, in order. *)
Definition gather_keywords (sources : list Research.source) : list string :=
  flat_map (fun source =>
              match Research.extracted_keywords source with
              | Some kws => kws
              | None => []
              end) sources.

Definition keyword_frequencies (all_keywords : list string) : Utils.freq :=
  fold_left (fun d keyword => Utils.bump keyword d) all_keywords [].

(** The keywords [create_outline] asks the model to use. *)
Definition effective_keywords (research : Research.research_data)
  (keywords : string) : string :=
  match Py.truthy keywords, Research.source_metadata research with
  | false, Some sources =>
      let sorted_keywords :=
        Utils.sorted_desc (keyword_frequencies (gather_keywords sources)) in
      Py.join ", " (map fst (list_prefix sorted_keywords 5))
  | _, _ => keywords
  end.

(** The removal of a code fence from the answer of the model. *)
Definition clean_json (answer : string) : string :=
  let cleaned_json := Py.strip answer in
  let cleaned_json :=
    if Py.startswith cleaned_json "```json"
    then Py.slice cleaned_json (Some 7) None else cleaned_json in
  let cleaned_json :=
    if Py.endswith cleaned_json "```"
    then Py.slice cleaned_json None (Some (-3)) else cleaned_json in
  Py.strip cleaned_json.

Section WithEnv.
Variable env : Env.

(** [json.loads]. *)
Definition loads (s : string) : M json :=
  match json_loads env s with
  | Some v => ret v
  | None => raise JSONDecodeError
  end.

(** [create_outline]. *)
Definition create_outline (topic : string) (research : Research.research_data)
  (keywords : string) : M json :=
  let synthesized_research :=
    match Research.synthesized_research research with
    | Some s => s
    | None => ""
    end in
  let keywords := effective_keywords research keywords in
  try_except
    (outline_json_str <-
       run env outline_chain
         [("topic", topic); ("research_data", synthesized_research);
          ("keywords", keywords)] ;;
     try_except_json
       (outline <- loads outline_json_str ;;
        (* the log line reads [len(outline.get('sections', []))] *)
        sections <- lift (get outline "sections" (JArr [])) ;;
        _ <- lift (Json.length sections) ;;
        ret outline)
       (try_except_json
          (loads (clean_json outline_json_str))
          (ret (fallback_outline topic keywords))))
    (fun e => raise e).
End WithEnv.

End Planning.

(* ===================================================================== *)
(** * agents/review_agent.py                                             *)
(* ===================================================================== *)

Module Review.
Import Runtime.
Local Open Scope monad_scope.

Definition typos : list (string * string) :=
  [ ("teh ", "the ");
    ("adn ", "and ");
    ("waht ", "what ");
    ("taht ", "that ");
    ("thier ", "their ");
    ("recieve", "receive");
    ("alot ", "a lot ");
    ("its ", "it's ");
    ("occurr", "occur");
    ("managment", "management");
    ("accomodat", "accommodat");
    ("enviroment", "environment") ].

(** [_fix_basic_issues]. *)
Definition _fix_basic_issues (content : string) : string :=
  let fixed_content :=
    fold_left (fun fixed p => Py.sub_word true (fst p) (snd p) O None fixed)
      typos content in
  let fixed_content := Py.collapse_spaces false fixed_content in
  let fixed_content := Py.collapse_newlines O fixed_content in
  Py.space_after_period fixed_content.

(** [final_word_count < initial_word_count * 0.9].  The product is taken in
    the rationals: for word counts below 2^48 the double that Python
    computes compares with an integer as the exact product does. *)
Definition shrunk (final_word_count initial_word_count : Z) : bool :=
  Json.Qltb (inject_Z final_word_count)
            (inject_Z initial_word_count * (9 # 10))%Q.

Section WithEnv.
Variable env : Env.

(** [review_content]. *)
Definition review_content (content : string) : M string :=
  let initial_word_count := Utils.count_words content in
  try_except
    (reviewed_content <- run env content_review_chain [("content", content)] ;;
     final_content <- run env final_check_chain [("content", reviewed_content)] ;;
     let final_word_count := Utils.count_words final_content in
     if shrunk final_word_count initial_word_count
     then ret (_fix_basic_issues content)
     else ret final_content)
    (fun _ => ret (_fix_basic_issues content)).
End WithEnv.

End Review.

(* ===================================================================== *)
(** * agents/seo_agent.py                                                *)
(* ===================================================================== *)

Module Seo.
Import Runtime Json.
Local Open Scope monad_scope.

(** [str(n)] for an integer. *)
Definition str_int (n : Z) : string := NilZero.string_of_int (Z.to_int n).

(** [[kw.strip() for kw in keywords.split(",")] if keywords else []]. *)
Definition keyword_list_of (keywords : string) : list string :=
  if Py.truthy keywords then map Py.strip (Py.split keywords ",") else [].

(** The value bound to [keyword_density] in [analyze_seo]: the density, or
    the integer [0] when there is no keyword. *)
Definition density_value (content : string) (keyword_list : list string)
  : result json :=
  match keyword_list with
  | [] => Ok (JInt 0)
  | _ => match Utils.calculate_keyword_density content keyword_list with
         | Ok q => Ok (JFloat q)
         | Raise e => Raise e
         end
  end.

Definition analysis_record (density : json) (what : string)
  (keyword_suggestions structure_suggestions quality_suggestions : list string)
  (content : string) (overall_score : Z) (priority : list string) : json :=
  JObj [ ("keyword_analysis",
          JObj [ ("primary_keyword_density", density);
                 ("keyword_distribution", JStr what);
                 ("suggestions", Planning.strs keyword_suggestions) ]);
         ("structure_analysis",
          JObj [ ("heading_quality", JStr what);
                 ("content_organization", JStr what);
                 ("suggestions", Planning.strs structure_suggestions) ]);
         ("content_quality",
          JObj [ ("readability_score", JStr what);
                 ("content_depth",
                  JStr ("Content contains "
                          ++ str_int (Utils.count_words content) ++ " words"));
                 ("suggestions", Planning.strs quality_suggestions) ]);
         ("overall_score", JInt overall_score);
         ("priority_improvements", Planning.strs priority) ].

(** The analysis returned when the answer of the model is not JSON. *)
Definition unparsed_analysis (density : json) (content : string) : json :=
  analysis_record density "Unable to assess"
    ["Ensure keywords are distributed throughout the content"]
    ["Review heading structure"; "Ensure logical content flow"]
    ["Ensure content is comprehensive"; "Check for readability"]
    content 50
    ["Optimize keyword usage"; "Review content structure"].

(** The analysis returned when the analysis raised. *)
Definition failed_analysis (density : json) (content : string) : json :=
  analysis_record density "Error in analysis"
    ["Review keyword usage manually"]
    ["Review heading structure manually"]
    ["Review content manually"]
    content 0
    ["Retry SEO analysis"].

(** [if "keyword_analysis" in analysis:
       analysis["keyword_analysis"]["calculated_keyword_density"] = density]. *)
Definition add_density (analysis density : json) : result json :=
  match has "keyword_analysis" analysis with
  | Raise e => Raise e
  | Ok false => Ok analysis
  | Ok true =>
      store_nested analysis "keyword_analysis" "calculated_keyword_density"
        density
  end.

(** ** [_add_internal_linking_suggestions] *)

Definition related_topics : list (string * string) :=
  [ ("Employee Retention", "employee retention strategies");
    ("Remote Work", "remote work best practices");
    ("Diversity and Inclusion", "diversity and inclusion in the workplace");
    ("Performance Management", "effective performance management");
    ("Employee Wellness", "employee wellness programs");
    ("HR Technology", "hr technology trends");
    ("Recruitment", "recruitment best practices");
    ("Employee Engagement", "employee engagement strategies");
    ("Workplace Culture", "building positive workplace culture");
    ("Leadership Development", "leadership development programs") ].

Definition marker : string := "[INTERNAL LINK SUGGESTION".

(** One turn of the loop over [related_topics]: the content with a
    suggestion inserted, or [None] when the turn inserts nothing. *)
Definition link_step (topic : string) (entry : string * string)
  (modified_content : string) : option string :=
  let '(link_text, link_topic) := entry in
  if Py.contains (Py.lower link_text) (Py.lower topic) then None
  else
    match Py.search_word true link_text 0 None modified_content with
    | Some (start, stop) =>
        if negb (Py.contains marker modified_content) then
          let link_suggestion :=
            Py.slice modified_content (Some start) (Some stop)
              ++ " [INTERNAL LINK SUGGESTION: " ++ link_text ++ " | "
              ++ link_topic ++ "]" in
          Some (Py.slice modified_content None (Some start)
                  ++ link_suggestion
                  ++ Py.slice modified_content (Some stop) None)
        else None
    | None => None
    end.

Definition link_turn (topic : string) (modified_content : string)
  (entry : string * string) : string :=
  match link_step topic entry modified_content with
  | Some c => c
  | None => modified_content
  end.

Definition add_links_over (entries : list (string * string))
  (topic content : string) : string :=
  fold_left (link_turn topic) entries content.

Definition _add_internal_linking_suggestions (content topic : string) : string :=
  add_links_over related_topics topic content.

(** The entries of the table at whose turn a suggestion is inserted. *)
Fixpoint insertions_over (entries : list (string * string))
  (topic content : string) : list (string * string) :=
  match entries with
  | [] => []
  | entry :: rest =>
      match link_step topic entry content with
      | Some c => entry :: insertions_over rest topic c
      | None => insertions_over rest topic content
      end
  end.


(** ** [_optimize_headings] *)

Inductive scan_state : Type :=
| Scanning
| InMarkers (markers : string)
| InSpace (markers : string)
| InText (markers : string) (text : string).

Definition hash : ascii := "#"%char.

(** [(m.groups() for m in re.finditer(r'(#+)\s+(.*?)$', s, re.MULTILINE))]:
    a maximal run of [#], then a maximal run of white space, then the rest
    of the line.  [markers] and [text] are kept reversed. *)
Fixpoint headings_scan (st : scan_state) (s : string) : list (string * string) :=
  match s with
  | "" =>
      match st with
      | InSpace m => [(m, "")]
      | InText m t => [(m, Py.rev_string t)]
      | _ => []
      end
  | String c s' =>
      match st with
      | Scanning =>
          if Ascii.eqb c hash then headings_scan (InMarkers (String c "")) s'
          else headings_scan Scanning s'
      | InMarkers m =>
          if Ascii.eqb c hash then headings_scan (InMarkers (String c m)) s'
          else if Py.is_space c then headings_scan (InSpace m) s'
          else headings_scan Scanning s'
      | InSpace m =>
          if Py.is_space c then headings_scan (InSpace m) s'
          else headings_scan (InText m (String c "")) s'
      | InText m t =>
          if Ascii.eqb c Py.newline
          then (m, Py.rev_string t) :: headings_scan Scanning s'
          else headings_scan (InText m (String c t)) s'
      end
  end.

Definition headings (content : string) : list (string * string) :=
  headings_scan Scanning content.

Definition any_keyword_in (keyword_list : list string) (heading_text : string)
  : bool :=
  existsb (fun keyword => Py.contains (Py.lower keyword) (Py.lower heading_text))
    keyword_list.

(** The keyword chosen for a heading: the first one found in the heading,
    else the first of the list. *)
Definition most_relevant (keyword_list : list string) (heading_text : string)
  : string :=
  match find (fun keyword =>
                Py.contains (Py.lower keyword) (Py.lower heading_text))
             keyword_list with
  | Some keyword => keyword
  | None => nth 0 keyword_list ""
  end.

(** One turn of the loop over the headings. *)
Definition heading_turn (keyword_list : list string) (modified_content : string)
  (groups : string * string) : string :=
  let '(heading_markers, heading_text) := groups in
  let original_heading := heading_markers ++ " " ++ heading_text in
  if (negb (any_keyword_in keyword_list heading_text)
      && Utils.mem heading_markers ["#"; "##"; "###"]
      && (3 <? Py.len heading_text))%bool
  then
    if Py.len heading_text <? 50 then
      let new_heading :=
        heading_markers ++ " " ++ heading_text ++ ": "
          ++ Py.capitalize (most_relevant keyword_list heading_text) in
      Py.replace modified_content original_heading new_heading
    else modified_content
  else modified_content.

Definition _optimize_headings (content topic keywords : string) : string :=
  let keyword_list := keyword_list_of keywords in
  let keyword_list :=
    match keyword_list with
    | [] => if Py.truthy topic then [topic] else []
    | _ => keyword_list
    end in
  match keyword_list with
  | [] => content
  | _ => fold_left (heading_turn keyword_list) (headings content) content
  end.

Section WithEnv.
Variable env : Env.

(** [analyze_seo]. *)
Definition analyze_seo (content topic keywords : string) : M json :=
  let keyword_list := keyword_list_of keywords in
  let keyword_density := density_value content keyword_list in
  try_except
    (density <- lift keyword_density ;;
     analysis_json_str <-
       run env seo_analysis_chain
         [("topic", topic); ("keywords", keywords); ("content", content)] ;;
     try_except_json
       (analysis <- Planning.loads env analysis_json_str ;;
        (* the log line reads [analysis.get('overall_score', 'N/A')] *)
        _ <- lift (get analysis "overall_score" (JStr "N/A")) ;;
        lift (add_density analysis density))
       (try_except_json
          (analysis <- Planning.loads env (Planning.clean_json analysis_json_str) ;;
           lift (add_density analysis density))
          (ret (unparsed_analysis density content))))
    (fun _ =>
       match keyword_density with
       | Ok density => ret (failed_analysis density content)
       | Raise _ => raise UnboundLocalError
       end).

(** [optimize_content]. *)
Definition optimize_content (content topic keywords : string) : M string :=
  try_except
    (seo_analysis <- analyze_seo content topic keywords ;;
     score <- lift (get seo_analysis "overall_score" (JInt 0)) ;;
     high <- lift (greater score 85) ;;
     if (high : bool) then
       let optimized_content := _add_internal_linking_suggestions content topic in
       ret (_optimize_headings optimized_content topic keywords)
     else
       run env seo_optimization_chain
         [("topic", topic); ("keywords", keywords); ("content", content)])
    (fun _ => ret content).
End WithEnv.

End Seo.

(* ===================================================================== *)
(** * main.py                                                            *)
(* ===================================================================== *)

Module Main.
Import Runtime.
Local Open Scope monad_scope.

(** [generate_hr_tech_blog]. *)
Definition generate_hr_tech_blog (keywords : string) : string :=
"# The Future of HR Technology: Trends Shaping the Workplace in 2025

## Introduction to HR Technology in 2025

The human resources landscape has undergone a dramatic transformation in recent years, driven by technological advancements that have changed how organizations manage their workforce. In 2025, HR technology continues to evolve rapidly, with innovations that focus on enhancing employee experience, optimizing workforce management, and enabling data-driven decision-making.

## Artificial Intelligence and Machine Learning in HR

Artificial Intelligence (AI) and Machine Learning (ML) have become integral components of modern HR systems. These technologies are revolutionizing various aspects of human resources management, from recruitment to employee development.

### Recruitment and Talent Acquisition

AI-powered recruitment tools have significantly improved the hiring process by:

- **Automating candidate screening**: Advanced algorithms can analyze thousands of resumes in minutes, identifying the most qualified candidates based on skills, experience, and cultural fit.
- **Reducing bias in hiring**: AI systems designed with bias-mitigation algorithms help ensure fair evaluation of all candidates, promoting diversity and inclusion.
- **Predictive analytics for candidate success**: ML models can predict which candidates are likely to succeed in specific roles, based on historical performance data and various candidate attributes.

### Employee Development and Training

AI is also transforming how organizations approach employee development:

- **Personalized learning paths**: AI analyzes each employee's skills, performance, and career goals to create customized learning experiences.
- **Skills gap analysis**: Machine learning algorithms can identify organizational skills gaps and recommend targeted training programs.
- **Performance prediction**: Advanced analytics can forecast employee performance and identify those who might need additional support or are ready for new challenges.

## Employee Experience and Engagement Platforms

The focus on employee experience has led to the development of comprehensive platforms designed to enhance engagement and satisfaction throughout the employee lifecycle.

### Integrated Experience Platforms

Modern HR tech stacks now include unified platforms that:

- Connect various HR functions in a seamless interface
- Provide mobile-first experiences that meet employees where they are
- Offer consumer-grade user experiences that employees have come to expect

### Real-time Feedback and Recognition Systems

Continuous feedback has replaced annual reviews in many organizations:

- Pulse surveys gather employee sentiment data frequently
- Peer recognition platforms foster appreciation and team building
- AI-powered sentiment analysis identifies potential issues before they escalate

## HR Analytics and People Data

Data-driven decision-making has become central to effective HR management in 2025.

### Workforce Analytics

Advanced analytics capabilities now enable HR leaders to:

- **Predict attrition risks**: ML models can identify employees who might be considering leaving, allowing for proactive retention efforts.
- **Optimize workforce planning**: Sophisticated forecasting tools help organizations anticipate future talent needs.
- **Measure productivity**: New metrics and tools provide insights into team and individual productivity, especially in hybrid work environments.

### Ethical Considerations in HR Data

As HR data collection becomes more sophisticated, ethical considerations have come to the forefront:

- **Data privacy compliance**: Organizations must navigate complex global regulations regarding employee data.
- **Transparent AI**: Companies are developing explainable AI systems that can justify their recommendations and decisions.
- **Employee data ownership**: Progressive organizations are giving employees more control over their personal data.

## Remote and Hybrid Work Technology

The pandemic-accelerated shift to remote and hybrid work has permanently changed workplace technology needs.

### Collaboration Tools

The latest generation of collaboration tools offers:

- Virtual reality meeting spaces for immersive team interactions
- Asynchronous collaboration features that respect different time zones and work schedules
- AI-facilitated meetings with real-time transcription, translation, and action item tracking

### Performance Monitoring in Distributed Teams

Organizations have developed more sophisticated approaches to managing remote performance:

- **Outcome-based metrics**: Focus has shifted from activity monitoring to results measurement
- **Digital wellbeing tools**: Technology that helps prevent burnout by encouraging healthy work habits
- **Team cohesion analytics**: Data that helps leaders identify teams that may need additional support

## Blockchain for HR

Blockchain technology is finding practical applications in human resources management.

### Credential Verification

Blockchain provides a secure and efficient way to:

- Verify educational credentials and certifications
- Validate employment history
- Create portable, employee-owned professional records

### Smart Contracts for Employment

Forward-thinking organizations are exploring:

- Blockchain-based employment contracts that automatically execute agreed-upon terms
- Transparent compensation systems with built-in compliance
- Secure, immutable records of employee agreements and changes

## Conclusion: The Human Element in HR Technology

While technology continues to transform HR practices, the most successful organizations remember that the ultimate purpose of these tools is to enhance the human experience at work. The best HR technology implementations in 2025 combine cutting-edge capabilities with a deep understanding of human needs, creating workplaces where people and technology bring out the best in each other.

As we look to the future, HR technology will continue to evolve, but its core purpose remains unchanged: to create better working environments where people can thrive and organizations can succeed.
".

(** [generate_general_hr_blog]. *)
Definition generate_general_hr_blog (topic keywords : string) : string :=
"# "
  ++ topic ++
": Best Practices for Modern Organizations

## Introduction to "
  ++ topic ++
"

In today's rapidly evolving workplace, "
  ++ topic ++
" has become a critical focus area for HR professionals and business leaders alike. Organizations that excel in this domain can gain significant competitive advantages through improved talent acquisition, retention, and overall workforce productivity.

## Why "
  ++ topic ++
" Matters in 2025

The business landscape continues to transform at an unprecedented pace, making effective "
  ++ topic ++
" more important than ever before. Companies that implement strategic approaches to this area are seeing measurable benefits in:

- Employee engagement and satisfaction
- Organizational agility and adaptability
- Talent attraction and retention
- Overall business performance

## Key Strategies for Success

### Data-Driven Approaches

Modern HR functions are increasingly leveraging data and analytics to inform their "
  ++ topic ++
" strategies:

- Workforce analytics provide insights into patterns and trends
- Predictive models help anticipate future challenges
- Benchmarking against industry standards ensures competitiveness

### Technology Integration

Technology plays a pivotal role in successful "
  ++ topic ++
" initiatives:

- Specialized software platforms streamline processes
- AI and machine learning enhance decision-making
- Mobile solutions provide accessibility and convenience

### Building a Supportive Culture

The organizational culture significantly impacts the effectiveness of "
  ++ topic ++
" programs:

- Leadership commitment and modeling
- Clear communication of expectations and benefits
- Recognition and rewards for desired behaviors
- Continuous feedback and improvement mechanisms

## Implementation Challenges and Solutions

### Common Obstacles

Organizations often face challenges when implementing "
  ++ topic ++
" initiatives:

- Resistance to change from employees and managers
- Resource constraints and competing priorities
- Lack of specialized expertise or capabilities
- Inconsistent application across the organization

### Effective Solutions

Successful organizations overcome these challenges through:

- Comprehensive change management approaches
- Strategic prioritization and phased implementation
- Building internal capabilities and external partnerships
- Consistent governance and accountability frameworks

## Measuring Success: Key Metrics and KPIs

To ensure "
  ++ topic ++
" initiatives deliver value, organizations should establish clear metrics:

- Input metrics: resources allocated, activities completed
- Output metrics: immediate results and deliverables
- Outcome metrics: business impact and return on investment
- Leading indicators: early signs of success or challenges

## Future Trends in "
  ++ topic ++
"

Looking ahead, several emerging trends will shape the future of "
  ++ topic ++
":

- Increasing personalization and employee-centricity
- Greater integration with business strategy and operations
- Enhanced use of advanced technologies and analytics
- Focus on holistic employee wellbeing and experience

## Conclusion: Building Sustainable "
  ++ topic ++
" Capabilities

As organizations navigate the complexities of the modern workplace, developing sustainable capabilities in "
  ++ topic ++
" will be essential for long-term success. By adopting a strategic approach, leveraging technology effectively, and creating supportive cultural environments, HR leaders can ensure their "
  ++ topic ++
" initiatives create lasting value for employees and the organization.

The most successful organizations will be those that view "
  ++ topic ++
" not as a one-time project or isolated function, but as an integral part of how they operate and create value in a rapidly changing world.
".

(** [request.form]: the fields the browser posted. *)
Record form := { form_topic : option string; form_keywords : option string }.

(** [request.form.get(name, '')]. *)
Definition form_get (field : option string) : string :=
  match field with Some v => v | None => "" end.

(** [str(e)] for the exceptions of the program. *)
Definition str_exn (e : exn) : string :=
  match e with
  | ZeroDivisionError => "division by zero"
  | TypeError => "TypeError"
  | AttributeError => "AttributeError"
  | JSONDecodeError => "JSONDecodeError"
  | UnboundLocalError => "UnboundLocalError"
  | External msg => msg
  end.

Definition stage (status message : string) (completion : Z) : progress :=
  {| status := status; message := message; completion := completion |}.

Section WithEnv.
Variable env : Env.

(** [generate_blog], the [/generate] route; its value is the endpoint it
    redirects to. *)
Definition generate_blog (request : form) : M string :=
  try_except
    (let topic := Py.strip (form_get (form_topic request)) in
     let keywords := Py.strip (form_get (form_keywords request)) in
     set_progress (stage "researching" "Researching HR topics..." 0) ;;;
     let topic :=
       if negb (Py.truthy topic) then "HR Technology Trends" else topic in
     set_progress (stage "planning" "Planning content structure..." 20) ;;;
     sleep 1%Q ;;;
     set_progress (stage "writing" "Generating blog content..." 40) ;;;
     sleep 1%Q ;;;
     set_progress (stage "optimizing" "Optimizing for SEO..." 70) ;;;
     sleep 1%Q ;;;
     set_progress (stage "reviewing" "Reviewing and finalizing..." 90) ;;;
     sleep 1%Q ;;;
     let final_content :=
       if (Py.contains "technology" (Py.lower topic)
           || Py.contains "tech" (Py.lower topic)
           || Py.contains "digital" (Py.lower topic))%bool
       then generate_hr_tech_blog keywords
       else generate_general_hr_blog topic keywords in
     stamp <- clock env "%Y-%m-%d %H:%M:%S" ;;
     set_blog_result {| br_topic := topic; br_content := final_content;
                        br_timestamp := stamp |} ;;;
     set_progress (stage "complete" "Blog post generation complete!" 100) ;;;
     ret "results")
    (fun e =>
       set_progress (stage "error" ("Error: " ++ str_exn e) 0) ;;;
       ret "index").

(** The document [generate_blog] leaves in the session. *)
Definition generated_document (request : form) (s : state) : option string :=
  match generate_blog request s with
  | Ret _ s' => option_map br_content (session_blog_result s')
  | _ => None
  end.
End WithEnv.

(** ** The orchestrator the specification describes *)

(** The Drafting stage, [ContentAgent.generate_content], enters only as a
    parameter: no property below depends on how it drafts. *)
Definition drafting_stage : Type :=
  string -> Json.json -> Research.research_data -> M string.

(** The sequence Research, Planning, Drafting, Optimization, Review of the
    specification, each stage receiving what the stages before it made. *)
Definition pipeline_spec (env : Env) (generate_content : drafting_stage)
  (fuel : nat) (topic keywords : string) : M string :=
  research <- Research.research_topic env fuel topic keywords ;;
  outline <- Planning.create_outline env topic research keywords ;;
  draft <- generate_content topic outline research ;;
  optimized <- Seo.optimize_content env draft topic keywords ;;
  Review.review_content env optimized.

End Main.

(* ===================================================================== *)
(** * Stub collaborators                                                 *)
(* ===================================================================== *)

(** Deterministic collaborators for the concrete runs below: the Completion
    Service answers by chain, the Source Fetcher returns two fixed pages. *)
Module Stubs.
Import Runtime.

Definition two_results : list result_element :=
  [ {| title_element := Some "Remote work in 2025";
       link_element := Some (Some "/url?q=https://example.org/remote&sa=U");
       snippet_element := Some "How teams work remotely." |};
    {| title_element := Some "Hybrid teams";
       link_element := Some (Some "https://example.org/hybrid");
       snippet_element := None |} ].

Definition page_text : string :=
  "Remote teams need clear communication. Remote managers plan meetings.".

Definition stub_env (llm : nat -> chain -> kwargs -> result string)
  (loads : string -> option Json.json) : Env :=
  {| chain_run := llm;
     requests_get := fun _ _ => Ok {| status_code := 200; text := "<html>" |};
     soup_select := fun _ => Ok two_results;
     fetch_url := fun _ _ => Ok (Some "<html>page</html>");
     extract := fun _ => Ok (Some page_text);
     random_random := fun _ => 0%Q;
     random_below := fun _ _ => 1%nat;
     strftime := fun _ format =>
                   if String.eqb format "%Y" then "2025"
                   else "2025-01-01 00:00:00";
     json_loads := loads |}.

(** A Completion Service that is down. *)
Definition service_down : nat -> chain -> kwargs -> result string :=
  fun _ _ _ => Raise (External "service unavailable").

(** The JSON text of an analysis that holds a score of 90 and nothing
    else: an object with the one key [overall_score]. *)
Definition double_quote : string := String (ascii_of_nat 34) "".

Definition score_answer : string :=
  "{" ++ double_quote ++ "overall_score" ++ double_quote ++ ": 90}".

(** A Completion Service with one canned answer per chain. *)
Definition canned : nat -> chain -> kwargs -> result string :=
  fun _ c _ =>
    Ok match c with
       | trend_analysis_chain => "  Remote Work Best Practices  "
       | research_synthesis_chain => "Research notes on remote work."
       | outline_chain => "Here is the outline you asked for"
       | seo_analysis_chain => score_answer
       | seo_optimization_chain => "Optimized text."
       | content_review_chain => "Reviewed text of the blog post."
       | final_check_chain => "Final text."
       end.

(** A Completion Service that fails to name a trend and answers the rest. *)
Definition no_trend : nat -> chain -> kwargs -> result string :=
  fun t c kw =>
    match c with
    | trend_analysis_chain => Raise (External "rate limit exceeded")
    | _ => canned t c kw
    end.

Definition no_json : string -> option Json.json := fun _ => None.

(** [json.loads] on the canned analysis; every other answer of [canned]
    is prose, which [json.loads] rejects. *)
Definition score_json : string -> option Json.json :=
  fun s => if String.eqb s score_answer
           then Some (Json.JObj [("overall_score", Json.JInt 90)])
           else None.

(** Research data without keywords of its own, as a run without sources
    leaves it. *)
Definition bare_research : Research.research_data :=
  {| Research.topic := "Remote Work Best Practices";
     Research.keywords := "";
     Research.synthesized_research := Some "Research notes on remote work.";
     Research.source_metadata := Some [];
     Research.timestamp := "2025-01-01 00:00:00" |}.

(** A search endpoint that refuses every request. *)
Definition refusing_env : Env :=
  {| chain_run := canned;
     requests_get := fun _ _ => Ok {| status_code := 429; text := "" |};
     soup_select := fun _ => Ok two_results;
     fetch_url := fun _ _ => Ok None;
     extract := fun _ => Ok None;
     random_random := fun _ => 0%Q;
     random_below := fun _ _ => 1%nat;
     strftime := fun _ _ => "2025";
     json_loads := no_json |}.

(** A Drafting stage that writes a fixed three-part draft. *)
Definition fixed_draft : Main.drafting_stage :=
  fun topic _ _ =>
    ret ("# " ++ topic ++ Py.nl ++ Py.nl
         ++ "## Introduction" ++ Py.nl ++ Py.nl
         ++ "Remote work is here to stay." ++ Py.nl ++ Py.nl
         ++ "## Conclusion" ++ Py.nl ++ Py.nl
         ++ "Plan for it." ++ Py.nl).

(** An operation that times out at its first two calls and then answers. *)
Definition third_time_lucky : nat -> result string :=
  fun t => if Nat.ltb t 2 then Raise (External "timed out") else Ok "page".

End Stubs.


(* ===================================================================== *)
(** * Notions used to state the properties                               *)
(* ===================================================================== *)

Module Claims.
Import Runtime.

(** What the two completion passes yield: the final document, or the
    failure of the first pass that fails. *)
Definition passes (env : Env) (content : string) (s : state) : result string :=
  match chain_run env (tick s) content_review_chain [("content", content)] with
  | Raise e => Raise e
  | Ok reviewed_content =>
      chain_run env (S (tick s)) final_check_chain [("content", reviewed_content)]
  end.


(** The sections of an outline, their headings, and the number of
    subheadings of each. *)
Definition outline_sections (outline : Json.json) : list Json.json :=
  match outline with
  | Json.JObj l =>
      match Json.lookup "sections" l with
      | Some (Json.JArr sections) => sections
      | _ => []
      end
  | _ => []
  end.

Definition heading_of (section : Json.json) : string :=
  match section with
  | Json.JObj l =>
      match Json.lookup "heading" l with
      | Some (Json.JStr h) => h
      | _ => ""
      end
  | _ => ""
  end.

Definition subheadings_of (section : Json.json) : list Json.json :=
  match section with
  | Json.JObj l =>
      match Json.lookup "subheadings" l with
      | Some (Json.JArr subheadings) => subheadings
      | _ => []
      end
  | _ => []
  end.

Definition section_headings (outline : Json.json) : list string :=
  map heading_of (outline_sections outline).

Definition subheading_counts (outline : Json.json) : list nat :=
  map (fun section => List.length (subheadings_of section))
    (outline_sections outline).

(** The request [create_outline] sends to the Completion Service. *)
Definition outline_request (topic : string) (research : Research.research_data)
  (keywords : string) : kwargs :=
  [ ("topic", topic);
    ("research_data",
     match Research.synthesized_research research with
     | Some s => s
     | None => ""
     end);
    ("keywords", Planning.effective_keywords research keywords) ].

(** The address [search_web] requests. *)
Definition search_url (query : string) : string :=
  "https://www.google.com/search?q=" ++ Py.replace query " " "+".


(** The request [analyze_seo] sends to the Completion Service. *)
Definition analysis_request (content topic keywords : string) : kwargs :=
  [("topic", topic); ("keywords", keywords); ("content", content)].


(** The document a run ends with. *)
Definition document_of (o : outcome string) : option string :=
  match o with
  | Ret document _ => Some document
  | _ => None
  end.

(** The topic and the keywords [generate_blog] works with. *)
Definition posted_topic (request : Main.form) : string :=
  let topic := Py.strip (Main.form_get (Main.form_topic request)) in
  if negb (Py.truthy topic) then "HR Technology Trends" else topic.

Definition posted_keywords (request : Main.form) : string :=
  Py.strip (Main.form_get (Main.form_keywords request)).

(** The sample document [generate_blog] picks for a topic. *)
Definition sample_document (request : Main.form) : string :=
  let topic := posted_topic request in
  if (Py.contains "technology" (Py.lower topic)
      || Py.contains "tech" (Py.lower topic)
      || Py.contains "digital" (Py.lower topic))%bool
  then Main.generate_hr_tech_blog (posted_keywords request)
  else Main.generate_general_hr_blog topic (posted_keywords request).

(** The property the specification states of the orchestrator: its document
    is the one the five stages produce in sequence. *)
Definition runs_the_pipeline (env : Env) (generate_content : Main.drafting_stage)
  (fuel : nat) (request : Main.form) (s : state) : Prop :=
  Main.generated_document env request s
  = document_of (Main.pipeline_spec env generate_content fuel
                   (posted_topic request) (posted_keywords request) s).

(** Is an event a request to the Completion Service or the Source Fetcher. *)
Definition is_stage_request (ev : event) : bool :=
  match ev with
  | EvChain _ _ | EvGet _ | EvFetch _ => true
  | _ => false
  end.

(** ** Retry with backoff *)

(** An operation under retry: each call is recorded as [EvCall], and its
    outcome is the one of the moment of the call. *)
Definition attempt {A : Type} (operation : nat -> result A) : M A :=
  request EvCall operation.

(** An operation that fails at every call. *)
Definition failing {A : Type} (failure : nat -> exn) : M A :=
  attempt (fun t => Raise (failure t)).

(** The requests one failed attempt and its recomputation take. *)
Definition stride (jitter : bool) : nat := if jitter then 2%nat else 1%nat.

(** The delay recomputed from [delay], the random number being drawn at
    the moment [t]. *)
Definition recomputed (env : Env) (exponential_base : Q) (jitter : bool)
  (t : nat) (delay : Q) : Q :=
  if jitter then (delay * exponential_base * (1 + random_random env t))%Q
  else (delay * exponential_base)%Q.

(** The waits of [n] retries that start at the moment [t] with [delay]:
    each one lasts the delay recomputed from the one before. *)
Fixpoint waits (env : Env) (exponential_base : Q) (jitter : bool)
  (n t : nat) (delay : Q) : list Q :=
  match n with
  | O => []
  | S k =>
      let delay' := recomputed env exponential_base jitter (S t) delay in
      delay' :: waits env exponential_base jitter k (t + stride jitter) delay'
  end.

(** The events of [n] failed attempts, each followed by its wait, and of the
    attempt that ends the loop. *)
Fixpoint retry_events (env : Env) (exponential_base : Q) (jitter : bool)
  (n t : nat) (delay : Q) : list event :=
  match n with
  | O => [EvCall]
  | S k =>
      let delay' := recomputed env exponential_base jitter (S t) delay in
      (EvCall :: (if jitter then [EvRandom] else []) ++ [EvSleep delay'])
        ++ retry_events env exponential_base jitter k (t + stride jitter) delay'
  end%list.

Definition calls_of (l : list event) : nat :=
  List.length (filter (fun ev => match ev with EvCall => true | _ => false end) l).

Fixpoint sleeps_of (l : list event) : list Q :=
  match l with
  | [] => []
  | EvSleep d :: l' => d :: sleeps_of l'
  | _ :: l' => sleeps_of l'
  end.

Definition trace_of {A : Type} (o : outcome A) : list event :=
  match o with
  | Ret _ s => trace s
  | Exc _ s => trace s
  | Diverge => []
  end.

(** The retry loop as the specification words it: on a failure, wait the
    current delay, then recompute the delay, then try again. *)
Fixpoint retry_loop_as_specified {A : Type} (env : Env) (func : M A)
  (max_retries : Z) (exponential_base : Q) (jitter : bool)
  (fuel : nat) (num_retries : Z) (delay : Q) : M A :=
  match fuel with
  | O => diverge
  | S fuel' =>
      try_except func
        (fun e =>
           let num_retries := num_retries + 1 in
           if max_retries <? num_retries then raise e
           else
             bind (sleep delay) (fun _ =>
             bind (Retry.next_delay env exponential_base jitter delay)
               (fun delay =>
                  retry_loop_as_specified env func max_retries exponential_base
                    jitter fuel' num_retries delay)))
  end.

Definition wrapper_as_specified {A : Type} (env : Env) (func : M A)
  (max_retries : Z) (initial_delay exponential_base : Q) (jitter : bool)
  (fuel : nat) : M A :=
  retry_loop_as_specified env func max_retries exponential_base jitter fuel 0
    initial_delay.

(** The property the specification states of the retry: the wrapper behaves
    as the loop that waits the current delay before it recomputes it. *)
Definition waits_then_recomputes {A : Type} (env : Env) (func : M A)
  (max_retries : Z) (initial_delay exponential_base : Q) (jitter : bool)
  (fuel : nat) (s : state) : Prop :=
  Retry.wrapper env func max_retries initial_delay exponential_base jitter fuel s
  = wrapper_as_specified env func max_retries initial_delay exponential_base
      jitter fuel s.

(** A delay [time.sleep] accepts: not negative, and short enough to be
    converted on every platform (2^32 - 1 milliseconds is the least of the
    limits). *)
Definition sleep_accepts (seconds : Q) : Prop :=
  (0 <= seconds)%Q /\ (seconds <= 4294967)%Q.

(** The events a run adds to the trace of its start state. *)
Definition new_events {A : Type} (s : state) (o : outcome A) : list event :=
  skipn (List.length (trace s)) (trace_of o).

(** ** Chunk splitting *)

(** [c * n]: the character [c] repeated [n] times. *)
Fixpoint filler (n : nat) (c : ascii) : string :=
  match n with
  | O => ""
  | S k => String c (filler k c)
  end.

(** Ten characters without any break point. *)
Definition unbroken_text : string := "aaaaaaaaaa".

(** One space at index 1, then 16000 characters without any break point. *)
Definition long_token_text : string := "a " ++ filler (Z.to_nat 16000) "a".

(** 32 characters: a space at index 11, paragraph breaks at 13 and 19. *)
Definition two_breaks_text : string :=
  "aaaaaaaaaaa a" ++ Py.nl ++ Py.nl ++ "aaaa" ++ Py.nl ++ Py.nl
  ++ "aaaaaaaaaaa".

(** The chunks put together again: the first chunk, then every later chunk
    without the [overlap] characters it repeats of the chunk before it. *)
Definition reassemble (overlap : Z) (chunks : list string) : string :=
  match chunks with
  | [] => ""
  | first :: rest =>
      first ++ String.concat "" (map (Py.drop (Z.to_nat overlap)) rest)
  end.

(** The other way round: every chunk but the last without its last
    [overlap] characters, which the next chunk repeats. *)
Definition drop_tail (n : nat) (s : string) : string :=
  substring 0 (String.length s - n) s.

Fixpoint reassemble_by_tails (overlap : Z) (chunks : list string) : string :=
  match chunks with
  | [] => ""
  | [last_chunk] => last_chunk
  | chunk :: rest =>
      drop_tail (Z.to_nat overlap) chunk ++ reassemble_by_tails overlap rest
  end.

(** The state after a failed attempt, the recomputation of the delay and
    the wait. *)
Definition after_wait (env : Env) (exponential_base : Q) (jitter : bool)
  (delay : Q) (s : state) : state :=
  slept (recomputed env exponential_base jitter (S (tick s)) delay)
    (if jitter then record EvRandom (record EvCall s) else record EvCall s).

End Claims.

From Stdlib Require Import Permutation Sorted Lqa DecimalPos.

(* ===================================================================== *)
(** * utils.py: [create_markdown_blog]                                   *)
(* ===================================================================== *)

Module Markdown.

(** The dictionaries of [sections] and of their [subheadings].  A key the
    code tests for presence is an optional field. *)
Record subheading := {
  sub_title : option string;
  sub_content : option string
}.

Record section := {
  heading : option string;
  content : option string;
  subheadings : option (list subheading)
}.

(** ['k' in d and d['k']] for a string value. *)
Definition present (field : option string) : bool :=
  match field with Some v => Py.truthy v | None => false end.

Definition field_text (field : option string) : string :=
  match field with Some v => v | None => "" end.

(** What the inner loop adds for one subheading. *)
Definition subheading_md (sub : subheading) : string :=
  (if present (sub_title sub)
   then "### " ++ field_text (sub_title sub) ++ Py.nl ++ Py.nl else "")
  ++ (if present (sub_content sub)
      then field_text (sub_content sub) ++ Py.nl ++ Py.nl else "").

(** What the outer loop adds for one section. *)
Definition section_md (sec : section) : string :=
  (if present (heading sec)
   then "## " ++ field_text (heading sec) ++ Py.nl ++ Py.nl else "")
  ++ (if present (content sec)
      then field_text (content sec) ++ Py.nl ++ Py.nl else "")
  ++ match subheadings sec with
     | Some subs =>
         fold_left (fun blog_md sub => blog_md ++ subheading_md sub) subs ""
     | None => ""
     end.

(** [create_markdown_blog]. *)
Definition create_markdown_blog (title : string) (sections : list section)
  : string :=
  fold_left (fun blog_md sec => blog_md ++ section_md sec) sections
    ("# " ++ title ++ Py.nl ++ Py.nl).

End Markdown.

(* ===================================================================== *)
(** * main.py: the routes that read the session                          *)
(* ===================================================================== *)

Module Routes.
Import Runtime.

(** [str.isalnum] on one character. *)
Definition is_alnum (c : ascii) : bool := (Py.is_alpha c || Py.is_digit c)%bool.

(** ["".join([c if c.isalnum() else "_" for c in topic])]. *)
Fixpoint underscored (topic : string) : string :=
  match topic with
  | "" => ""
  | String c rest =>
      String (if is_alnum c then c else "_"%char) (underscored rest)
  end.

Fixpoint lstrip_underscores (s : string) : string :=
  match s with
  | String c s' => if Ascii.eqb c "_" then lstrip_underscores s' else s
  | "" => ""
  end.

(** [s.rstrip("_")]. *)
Definition rstrip_underscores (s : string) : string :=
  Py.rev_string (lstrip_underscores (Py.rev_string s)).

Definition safe_filename (topic : string) : string :=
  rstrip_underscores (underscored topic).

(** The JSON answers of [save_blog]. *)
Inductive save_answer : Type :=
| NothingToSave (message : string)
| Saved (filename content content_type : string).

(** [save_blog]; [format] is the posted field, if any. *)
Definition save_blog (format : option string) (s : state) : save_answer :=
  match session_blog_result s with
  | None => NothingToSave "No blog content to save"
  | Some blog_result =>
      let format_type :=
        match format with Some v => v | None => "markdown" end in
      let blog_content := br_content blog_result in
      let safe := safe_filename (br_topic blog_result) in
      if String.eqb format_type "markdown"
      then Saved (safe ++ ".md") blog_content "text/markdown"
      else if String.eqb format_type "html"
      then Saved (safe ++ ".html") blog_content "text/html"
      else Saved (safe ++ ".txt") blog_content "text/plain"
  end.

(** The answers of [results]: a redirect to the index, or the page with the
    topic, the content and the timestamp. *)
Inductive results_answer : Type :=
| RedirectIndex
| ResultsPage (topic content timestamp : string).

(** [results]. *)
Definition results (s : state) : results_answer :=
  match session_blog_result s with
  | None => RedirectIndex
  | Some blog_result =>
      ResultsPage (br_topic blog_result) (br_content blog_result)
        (br_timestamp blog_result)
  end.

(** [progress]. *)
Definition progress_route (s : state) : progress :=
  match session_progress s with
  | Some p => p
  | None => {| status := "not_started"; message := "Not started";
               completion := 0 |}
  end.

End Routes.

(* ===================================================================== *)
(** * agents/content_agent.py                                            *)
(* ===================================================================== *)

Module Content.
Import Json.

(** The [LLMChain] objects of the Content agent. *)
Inductive chain : Type :=
| section_content_chain
| introduction_chain
| conclusion_chain.

(** The keyword arguments of [chain.run]: the objects as they are passed,
    a string as [JStr]. *)
Definition kwargs := list (string * json).

(** The collaborators.  [py_repr] is [str] on the values whose text is not
    modelled here (floats, lists and dictionaries), given by its first
    character and the rest: it is never empty.  [float_target] is
    [max(50, target - sum(targets))] when a float is among the numbers, the
    arithmetic being the one of doubles. *)
Record Env := {
  chain_run : nat -> chain -> kwargs -> result string;
  py_repr : json -> ascii * string;
  float_target : json -> list json -> json
}.

Inductive event : Type :=
| EvRun (c : chain) (kw : kwargs)
| EvSleep (seconds : Z).

Record state := { tick : nat; trace : list event }.

Definition initial_state : state := {| tick := O; trace := [] |}.

(** A computation ends with a value or an exception: every loop of
    [generate_content] runs over a list. *)
Definition M (A : Type) : Type := state -> result A * state.

Definition ret {A} (a : A) : M A := fun s => (Ok a, s).

Definition bind {A B} (m : M A) (k : A -> M B) : M B :=
  fun s => match m s with
           | (Ok a, s') => k a s'
           | (Raise e, s') => (Raise e, s')
           end.

Definition lift {A} (r : result A) : M A := fun s => (r, s).

Definition ran (c : chain) (kw : kwargs) (s : state) : state :=
  {| tick := S (tick s); trace := trace s ++ [EvRun c kw] |}.

Definition slept (seconds : Z) (s : state) : state :=
  {| tick := tick s; trace := trace s ++ [EvSleep seconds] |}.

Definition sleep (seconds : Z) : M unit := fun s => (Ok tt, slept seconds s).

Declare Scope content_scope.
Delimit Scope content_scope with content.
Notation "x <- m ;; k" := (bind m (fun x => k))
  (at level 61, m at next level, right associativity) : content_scope.
Notation "m ;;; k" := (bind m (fun _ => k))
  (at level 61, right associativity) : content_scope.
Local Open Scope content_scope.

(** ** The operations of Python on the values of an outline *)

(** [bool(x)]. *)
Definition truthy_json (x : json) : bool :=
  match x with
  | JNull => false
  | JBool b => b
  | JInt n => negb (n =? 0)
  | JFloat q => negb (Qeq_bool q 0)
  | JStr s => Py.truthy s
  | JArr l => match l with [] => false | _ => true end
  | JObj l => match l with [] => false | _ => true end
  end.

Fixpoint chars (s : string) : list json :=
  match s with
  | "" => []
  | String c s' => JStr (String c "") :: chars s'
  end.

(** [list(x)], as a [for] loop and [extend] read [x]: the items of a
    list, the keys of a dictionary, the characters of a string. *)
Definition iterate (x : json) : result (list json) :=
  match x with
  | JArr l => Ok l
  | JObj l => Ok (map (fun p => JStr (fst p)) l)
  | JStr s => Ok (chars s)
  | _ => Raise TypeError
  end.

(** [x.lower()]. *)
Definition lower_of (x : json) : result string :=
  match x with
  | JStr s => Ok (Py.lower s)
  | _ => Raise AttributeError
  end.

(** An integer, or a boolean used as one. *)
Definition as_int (x : json) : option Z :=
  match x with
  | JInt n => Some n
  | JBool b => Some (if b then 1 else 0)
  | _ => None
  end.

Definition is_number (x : json) : bool :=
  match x with
  | JInt _ | JBool _ | JFloat _ => true
  | _ => false
  end.

Fixpoint all_ints (l : list json) : option (list Z) :=
  match l with
  | [] => Some []
  | x :: l' =>
      match as_int x, all_ints l' with
      | Some n, Some ns => Some (n :: ns)
      | _, _ => None
      end
  end.

Section WithEnv.
Variable env : Env.

(** [str(x)], as an f-string prints [x]. *)
Definition render (x : json) : string :=
  match x with
  | JStr s => s
  | JInt n => Seo.str_int n
  | JBool true => "True"
  | JBool false => "False"
  | JNull => "None"
  | _ => String (fst (py_repr env x)) (snd (py_repr env x))
  end.

(** ["\n".join([f"- {point}" for point in key_points])]. *)
Definition bullet_list (key_points : json) : result string :=
  match iterate key_points with
  | Ok points => Ok (Py.join Py.nl (map (fun point => "- " ++ render point) points))
  | Raise e => Raise e
  end.

(** [max(50, target_word_count - sum(targets))]. *)
Definition section_target (target_word_count : json) (targets : list json)
  : result json :=
  if forallb is_number (target_word_count :: targets) then
    match as_int target_word_count, all_ints targets with
    | Some n, Some ns => Ok (JInt (Z.max 50 (n - fold_left Z.add ns 0)))
    | _, _ => Ok (float_target env target_word_count targets)
    end
  else Raise TypeError.

Definition run (c : chain) (kw : kwargs) : M string :=
  fun s => (chain_run env (tick s) c kw, ran c kw s).

(** The [for s in outline.get("sections", [])] loop of the conclusion;
    [all_key_points] is the list built so far. *)
Fixpoint collect_key_points (sections : list json) (all_key_points : list json)
  : result (list json) :=
  match sections with
  | [] => Ok all_key_points
  | s :: rest =>
      match get s "heading" JNull with
      | Raise e => Raise e
      | Ok h =>
          match lower_of h with
          | Raise e => Raise e
          | Ok l =>
              if Utils.mem l ["introduction"; "conclusion"]
              then collect_key_points rest all_key_points
              else
                match get s "key_points" (JArr []) with
                | Raise e => Raise e
                | Ok points =>
                    match iterate points with
                    | Raise e => Raise e
                    | Ok items =>
                        collect_key_points rest (all_key_points ++ items)%list
                    end
                end
          end
      end
  end.

(** The entry of [processed_subheadings] for a title and its content:
    [create_markdown_blog] prints a title when it is true, as [str]
    prints it. *)
Definition processed (title : json) (content : string) : Markdown.subheading :=
  {| Markdown.sub_title :=
       if truthy_json title then Some (render title) else None;
     Markdown.sub_content := Some content |}.

(** The [for subheading in section_outline.get("subheadings", [])] loop. *)
Fixpoint write_subheadings (topic research_information : string)
  (subheadings : list json) (subheadings_info : list string)
  (processed_subheadings : list Markdown.subheading)
  : M (list string * list Markdown.subheading) :=
  match subheadings with
  | [] => ret (subheadings_info, processed_subheadings)
  | subheading :: rest =>
      subheading_title <- lift (get subheading "title" (JStr "")) ;;
      subheading_key_points <- lift (get subheading "key_points" (JArr [])) ;;
      subheading_target_word_count <-
        lift (get subheading "target_word_count" (JInt 200)) ;;
      let subheadings_info :=
        (subheadings_info ++ [render subheading_title])%list in
      key_points <- lift (bullet_list subheading_key_points) ;;
      subheading_content <-
        run section_content_chain
          [ ("topic", JStr topic);
            ("heading", subheading_title);
            ("subheadings", JStr "");
            ("key_points", JStr key_points);
            ("target_word_count", subheading_target_word_count);
            ("research_information", JStr research_information) ] ;;
      sleep 1 ;;;
      write_subheadings topic research_information rest subheadings_info
        (processed_subheadings
           ++ [processed subheading_title subheading_content])%list
  end.

(** The targets the generator of [sum] reads. *)
Fixpoint subheading_targets (subheadings : list json) : result (list json) :=
  match subheadings with
  | [] => Ok []
  | subheading :: rest =>
      match get subheading "target_word_count" (JInt 200) with
      | Raise e => Raise e
      | Ok target =>
          match subheading_targets rest with
          | Raise e => Raise e
          | Ok targets => Ok (target :: targets)
          end
      end
  end.

Definition written (heading content : string)
  (subheadings : list Markdown.subheading) : Markdown.section :=
  {| Markdown.heading := Some heading;
     Markdown.content := Some content;
     Markdown.subheadings := Some subheadings |}.

(** One turn of the [for section_outline in outline.get("sections", [])]
    loop: the section it appends. *)
Definition write_section (topic research_information : string)
  (outline blog_title section_outline : json) : M Markdown.section :=
  heading <- lift (get section_outline "heading" (JStr "")) ;;
  key_points <- lift (get section_outline "key_points" (JArr [])) ;;
  target_word_count <-
    lift (get section_outline "target_word_count" (JInt 300)) ;;
  lowered <- lift (lower_of heading) ;;
  let heading := render heading in
  if String.eqb lowered "introduction" then
    content <-
      run introduction_chain
        [ ("title", blog_title);
          ("topic", JStr topic);
          ("target_word_count", target_word_count);
          ("research_information", JStr research_information) ] ;;
    ret (written heading content [])
  else if String.eqb lowered "conclusion" then
    sections <- lift (get outline "sections" (JArr [])) ;;
    sections <- lift (iterate sections) ;;
    all_key_points <- lift (collect_key_points sections []) ;;
    let key_points_text :=
      Py.join Py.nl (map (fun point => "- " ++ render point) all_key_points) in
    content <-
      run conclusion_chain
        [ ("title", blog_title);
          ("topic", JStr topic);
          ("target_word_count", target_word_count);
          ("key_points", JStr key_points_text) ] ;;
    ret (written heading content [])
  else
    subheadings <- lift (get section_outline "subheadings" (JArr [])) ;;
    subheadings <- lift (iterate subheadings) ;;
    done <- write_subheadings topic research_information subheadings [] [] ;;
    let '(subheadings_info, processed_subheadings) := done in
    key_points <- lift (bullet_list key_points) ;;
    targets <- lift (subheading_targets subheadings) ;;
    target <- lift (section_target target_word_count targets) ;;
    section_content <-
      run section_content_chain
        [ ("topic", JStr topic);
          ("heading", JStr heading);
          ("subheadings", JStr (Py.join Py.nl subheadings_info));
          ("key_points", JStr key_points);
          ("target_word_count", target);
          ("research_information", JStr research_information) ] ;;
    sleep 2 ;;;
    ret (written heading section_content processed_subheadings).

(** The loop over the sections of the outline. *)
Fixpoint write_sections (topic research_information : string)
  (outline blog_title : json) (section_outlines : list json)
  (sections : list Markdown.section) : M (list Markdown.section) :=
  match section_outlines with
  | [] => ret sections
  | section_outline :: rest =>
      section <-
        write_section topic research_information outline blog_title
          section_outline ;;
      write_sections topic research_information outline blog_title rest
        (sections ++ [section])%list
  end.

(** [generate_content]. *)
Definition generate_content (topic : string) (outline : json)
  (research_data : Research.research_data) : M string :=
  let research_information :=
    match Research.synthesized_research research_data with
    | Some s => s
    | None => ""
    end in
  blog_title <-
    lift (get outline "title" (JStr (topic ++ ": A Comprehensive Guide"))) ;;
  section_outlines <- lift (get outline "sections" (JArr [])) ;;
  section_outlines <- lift (iterate section_outlines) ;;
  sections <-
    write_sections topic research_information outline blog_title
      section_outlines [] ;;
  ret (Markdown.create_markdown_blog (render blog_title) sections).
End WithEnv.

End Content.

(* ===================================================================== *)
(** * Notions used to state further properties                           *)
(* ===================================================================== *)

Module Notions.
Import Runtime.

(** A word the loop of [extract_keywords_from_text] counts: longer than
    three characters, not a stop word. *)
Definition kept (w : string) : bool :=
  ((3 <? Py.len w) && negb (Utils.mem w Utils.stop_words))%bool.

(** One turn of that loop. *)
Definition counted (d : Utils.freq) (word : string) : Utils.freq :=
  if kept word then Utils.bump word d else d.

(** [d.get(k, 0)] on a frequency table. *)
Fixpoint tally (k : string) (d : Utils.freq) : Z :=
  match d with
  | [] => 0
  | (k', n) :: d' => if String.eqb k' k then n else tally k d'
  end.

(** The order of [sorted(..., key=lambda x: x[1], reverse=True)]. *)
Definition by_count (x y : string * Z) : Prop := snd y <= snd x.

(** [l1] is [l2] with some elements left out. *)
Fixpoint subsequence (l1 l2 : list string) : Prop :=
  match l1, l2 with
  | [], _ => True
  | _ :: _, [] => False
  | x :: l1', y :: l2' =>
      (x = y /\ subsequence l1' l2') \/ subsequence l1 l2'
  end.

(** The generator is one of [random.random]: its numbers lie in [0, 1). *)
Definition unit_interval (env : Env) : Prop :=
  forall t, (0 <= random_random env t)%Q /\ (random_random env t < 1)%Q.


(** The waits of a backoff: each one is at least [base] times, and at
    most twice [base] times, the delay before it. *)
Fixpoint backing_off (base : Q) (delay : Q) (sleeps : list Q) : Prop :=
  match sleeps with
  | [] => True
  | wait :: rest =>
      (delay * base <= wait)%Q /\ (wait <= delay * base * 2)%Q
      /\ backing_off base wait rest
  end.

(** Every character of [s] passes the test [p]. *)
Fixpoint all_chars (p : ascii -> bool) (s : string) : bool :=
  match s with
  | "" => true
  | String c s' => (p c && all_chars p s')%bool
  end.

(** The last character of [s], if any. *)
Fixpoint last_char (s : string) : option ascii :=
  match s with
  | "" => None
  | String c "" => Some c
  | String _ s' => last_char s'
  end.

(** A scraped page with a text. *)
Definition has_text (page : string * string) : bool := Py.truthy (snd page).

(** What [research_topic] asks and waits for one chunk. *)
Definition synthesis_events (topic keywords : string) (chunks : list string)
  : list event :=
  flat_map (fun chunk =>
              [ EvChain research_synthesis_chain
                  [("topic", topic); ("research_data", chunk);
                   ("keywords", keywords)];
                EvSleep 1%Q ]) chunks.

(** A Completion Service that answers with a fenced empty object, and a
    parser that reads the empty object and nothing else. *)
Definition fenced_answer : nat -> chain -> kwargs -> result string :=
  fun _ _ _ => Ok ("```json" ++ (Py.nl ++ "{}" ++ Py.nl) ++ "```").

Definition reads_empty_object : string -> option Json.json :=
  fun s => if String.eqb s "{}" then Some (Json.JObj []) else None.

(** ** The Content agent *)

Definition runs_of (l : list Content.event)
  : list (Content.chain * Content.kwargs) :=
  flat_map (fun ev => match ev with
                      | Content.EvRun c kw => [(c, kw)]
                      | Content.EvSleep _ => []
                      end) l.

Definition pauses_of (l : list Content.event) : list Z :=
  flat_map (fun ev => match ev with
                      | Content.EvRun _ _ => []
                      | Content.EvSleep seconds => [seconds]
                      end) l.

(** The heading of a section of an outline, the empty string when the
    section has none. *)
Definition heading_text (section : Json.json) : string :=
  match Json.get section "heading" (Json.JStr "") with
  | Ok (Json.JStr h) => h
  | _ => ""
  end.

(** A section that is neither the introduction nor the conclusion. *)
Definition is_main (section : Json.json) : bool :=
  negb (Utils.mem (Py.lower (heading_text section))
          ["introduction"; "conclusion"]).

Definition listed_subheadings (section : Json.json) : list Json.json :=
  match Json.get section "subheadings" (Json.JArr []) with
  | Ok v => match Content.iterate v with Ok l => l | Raise _ => [] end
  | Raise _ => []
  end.

(** The requests and the pauses a section takes: one request for an
    introduction or a conclusion; for another section one request and a
    pause of a second for each subheading, then one request and a pause of
    two seconds. *)
Definition requests_for (section : Json.json) : nat :=
  if is_main section then S (List.length (listed_subheadings section))
  else 1%nat.

Definition pauses_for (section : Json.json) : list Z :=
  if is_main section
  then (repeat 1 (List.length (listed_subheadings section)) ++ [2])%list
  else [].

(** A Content agent whose chains answer, and one whose chains fail. *)
Definition writer : Content.Env :=
  {| Content.chain_run :=
       fun _ c _ =>
         Ok match c with
            | Content.introduction_chain => "Opening words."
            | Content.conclusion_chain => "Closing words."
            | Content.section_content_chain => "Section words."
            end;
     Content.py_repr := fun _ => ("?"%char, "");
     Content.float_target := fun _ _ => Json.JInt 50 |}.

Definition silent : Content.Env :=
  {| Content.chain_run := fun _ _ _ => Raise (External "service unavailable");
     Content.py_repr := fun _ => ("?"%char, "");
     Content.float_target := fun _ _ => Json.JInt 50 |}.

(** An outline whose first section has no heading. *)
Definition headless_outline : Json.json :=
  Json.JObj
    [ ("title", Json.JStr "Remote Work");
      ("sections",
       Json.JArr
         [ Json.JObj [("key_points", Planning.strs ["Where teams work"])];
           Json.JObj [("heading", Json.JStr "Conclusion")] ]) ].

(** A run of the Content agent that ended before any request, on values
    it could not read, or at its first request, which raised [failure]. *)
Definition stopped_early {A : Type} (s : Content.state) (failure : exn)
  (o : result A * Content.state) : Prop :=
  (snd o = s /\ (fst o = Raise TypeError \/ fst o = Raise AttributeError))
  \/ exists c kw, snd o = Content.ran c kw s /\ fst o = Raise failure.

(** A character below 128: the characters on which [str.lower] and [\w]
    are the ones of [Py.lower] and [Py.is_word]. *)
Definition is_ascii (c : ascii) : bool := Nat.ltb (Py.code c) 128.

(** A text of characters below 128. *)
Definition ascii_text (s : string) : Prop := all_chars is_ascii s = true.


End Notions.

(* ===================================================================== *)
(** * Facts about strings                                                *)
(* ===================================================================== *)

Module StringFacts.

Lemma append_assoc (a b c : string) : (a ++ b) ++ c = a ++ b ++ c.
Proof. induction a as [|x a IH]; simpl; [reflexivity | rewrite IH; reflexivity]. Qed.

Lemma prefix_cons (a : ascii) (p : string) (c : ascii) (s : string) :
  String.prefix (String a p) (String c s)
  = if ascii_dec a c then String.prefix p s else false.
Proof. reflexivity. Qed.

Lemma prefix_nil (s : string) : String.prefix "" s = true.
Proof. destruct s; reflexivity. Qed.

Lemma append_nil_r (a : string) : a ++ "" = a.
Proof. induction a as [|x a IH]; simpl; [reflexivity | rewrite IH; reflexivity]. Qed.

Lemma prefix_app (p x y : string) :
  String.prefix p x = true -> String.prefix p (x ++ y) = true.
Proof.
  revert x; induction p as [|a p IH]; intros x H.
  - destruct x; simpl; [destruct y|]; reflexivity.
  - destruct x as [|b x]; simpl in *; [discriminate|].
    destruct (ascii_dec a b); [auto | discriminate].
Qed.

Lemma contains_unfold (p s : string) :
  Py.contains p s =
  if String.prefix p s then true
  else match s with "" => false | String _ s' => Py.contains p s' end.
Proof. destruct s; reflexivity. Qed.

Lemma contains_app_l (p x y : string) :
  Py.contains p x = true -> Py.contains p (x ++ y) = true.
Proof.
  induction x as [|c x IH]; intros H; rewrite contains_unfold in H;
    rewrite contains_unfold.
  - destruct (String.prefix p "") eqn:E; [|discriminate].
    rewrite (prefix_app _ _ y E). reflexivity.
  - destruct (String.prefix p (String c x)) eqn:E.
    + rewrite (prefix_app _ _ y E). reflexivity.
    + change (String c x ++ y) with (String c (x ++ y)).
      destruct (String.prefix p (String c (x ++ y))); auto.
Qed.

Lemma contains_app_r (p x y : string) :
  Py.contains p y = true -> Py.contains p (x ++ y) = true.
Proof.
  induction x as [|c x IH]; intros H; [assumption|].
  rewrite contains_unfold. change (String c x ++ y) with (String c (x ++ y)).
  destruct (String.prefix p (String c (x ++ y))); auto.
Qed.

Lemma contains_cons (p : string) (c : ascii) (y : string) :
  Py.contains p y = true -> Py.contains p (String c y) = true.
Proof. apply (contains_app_r p (String c "") y). Qed.

Lemma startswith_app (p y : string) : Py.startswith (p ++ y) p = true.
Proof.
  unfold Py.startswith. induction p as [|a p IH]; simpl.
  - destruct y; reflexivity.
  - destruct (ascii_dec a a); [assumption | congruence].
Qed.

End StringFacts.

(* ===================================================================== *)
(** * Text utilities: the guards of the keyword density                  *)
(* ===================================================================== *)

Module UtilsFacts.
Import Utils.

Lemma true_div_nonzero (x y : Z) : y <> 0 -> exists q, true_div x y = Ok q.
Proof.
  intros H. unfold true_div. destruct (Z.eqb_spec y 0); [contradiction|].
  eexists; reflexivity.
Qed.

(** The density is always a number: the division is never reached with a
    zero word count. *)
Lemma density_total (text : string) (keywords : list string) :
  exists q, calculate_keyword_density text keywords = Ok q.
Proof.
  unfold calculate_keyword_density.
  destruct keywords as [|k ks]; [eexists; reflexivity|].
  destruct (Py.truthy text); [|eexists; reflexivity].
  destruct (Z.eqb_spec (count_words text) 0) as [E|E]; [eexists; reflexivity|].
  apply true_div_nonzero; assumption.
Qed.

(** C9.  [calculate_keyword_density] returns [0.0] for an empty keyword list,
    for the empty text, and whenever the text has no word; on no input does
    it raise [ZeroDivisionError] (or anything else): it always returns a
    number. *)
Theorem keyword_density_guards_division (text : string) (keywords : list string) :
  calculate_keyword_density text [] = Ok 0%Q
  /\ calculate_keyword_density "" keywords = Ok 0%Q
  /\ (count_words text = 0 -> calculate_keyword_density text keywords = Ok 0%Q)
  /\ calculate_keyword_density text keywords <> Raise ZeroDivisionError
  /\ exists q, calculate_keyword_density text keywords = Ok q.
Proof.
  repeat split.
  - destruct keywords; reflexivity.
  - intros H. unfold calculate_keyword_density.
    destruct keywords; [reflexivity|].
    destruct (Py.truthy text); [|reflexivity].
    rewrite H. reflexivity.
  - destruct (density_total text keywords) as [q Hq]. rewrite Hq. discriminate.
  - apply density_total.
Qed.

(** A text of punctuation only has no word, and its density is [0.0]. *)
Lemma keyword_density_guards_division_witness :
  count_words "?! ..." = 0
  /\ calculate_keyword_density "?! ..." ["hr"; "remote work"] = Ok 0%Q.
Proof.
  split; [reflexivity|].
  apply (keyword_density_guards_division "?! ..." ["hr"; "remote work"]).
  reflexivity.
Defined.

End UtilsFacts.

(* ===================================================================== *)
(** * Review Stage                                                       *)
(* ===================================================================== *)

Module ReviewFacts.
Import Runtime Review.

Lemma shrunk_spec (final initial : Z) :
  shrunk final initial = true <-> 10 * final < 9 * initial.
Proof.
  unfold shrunk, Json.Qltb. rewrite negb_true_iff.
  split; intros H.
  - destruct (Z.lt_ge_cases (10 * final) (9 * initial)) as [L|G]; [assumption|].
    assert (Qle_bool (inject_Z initial * (9 # 10)) (inject_Z final) = true) as E.
    { apply Qle_bool_iff. unfold Qle. simpl. lia. }
    congruence.
  - apply not_true_is_false. rewrite Qle_bool_iff. unfold Qle. simpl. lia.
Qed.

(** C2.  When a completion pass raises, or the document the two passes
    produce has fewer than 90% of the words of the original, [review_content]
    returns the original content with the basic fixes; and [review_content]
    returns a document on every input: it neither raises nor runs forever. *)
Theorem review_content_falls_back (env : Env) (content : string) (s : state) :
  ((exists e, Claims.passes env content s = Raise e)
   \/ (exists final_content,
         Claims.passes env content s = Ok final_content
         /\ 10 * Utils.count_words final_content < 9 * Utils.count_words content)
   -> exists s', review_content env content s = Ret (_fix_basic_issues content) s')
  /\ exists document s', review_content env content s = Ret document s'.
Proof.
  unfold Claims.passes, review_content, try_except, bind, run, request, ret.
  destruct (chain_run env (tick s) content_review_chain [("content", content)])
    as [reviewed|e1] eqn:E1; simpl.
  - destruct (chain_run env (S (tick s)) final_check_chain [("content", reviewed)])
      as [final|e2] eqn:E2; simpl.
    + destruct (shrunk (Utils.count_words final) (Utils.count_words content)) eqn:Sh.
      * split; [intros _|]; repeat eexists.
      * split; [|repeat eexists].
        intros [[e He]|[final' [Hf Hlt]]]; [discriminate|].
        injection Hf as <-. apply shrunk_spec in Hlt. congruence.
    + split; [intros _|]; repeat eexists.
  - split; [intros _|]; repeat eexists.
Qed.

(** A final check that answers with two words for a draft of ten. *)
Lemma review_content_falls_back_witness :
  exists s',
    review_content (Stubs.stub_env Stubs.canned Stubs.no_json)
      "Teh team adopted  remote work.Its managment plan is ready."
      initial_state
    = Ret "the team adopted remote work. it's management plan is ready." s'.
Proof.
  apply (proj1 (review_content_falls_back
                  (Stubs.stub_env Stubs.canned Stubs.no_json)
                  "Teh team adopted  remote work.Its managment plan is ready."
                  initial_state)).
  right. exists "Final text.". split; [reflexivity | vm_compute; reflexivity].
Defined.

End ReviewFacts.

(* ===================================================================== *)
(** * Planning Stage                                                     *)
(* ===================================================================== *)

Module PlanningFacts.
Import Runtime Json Planning.

Lemma fallback_headings (topic keywords : string) :
  Claims.section_headings (fallback_outline topic keywords)
  = [ "Introduction"; "Understanding " ++ topic; "Best Practices";
      "Case Studies"; "Future Directions"; "Conclusion" ].
Proof. reflexivity. Qed.

Lemma fallback_subheading_counts (topic keywords : string) :
  Claims.subheading_counts (fallback_outline topic keywords)
  = [0; 2; 2; 1; 0; 0]%nat.
Proof. reflexivity. Qed.

(** The outline [create_outline] returns when neither the answer nor the
    cleaned answer is JSON. *)
Lemma create_outline_unparsed (env : Env) (topic : string)
  (research : Research.research_data) (keywords : string) (s : state)
  (answer : string) :
  chain_run env (tick s) outline_chain
    (Claims.outline_request topic research keywords) = Ok answer ->
  json_loads env answer = None ->
  json_loads env (clean_json answer) = None ->
  create_outline env topic research keywords s
  = Ret (fallback_outline topic (effective_keywords research keywords))
        (record (EvChain outline_chain
                   (Claims.outline_request topic research keywords)) s).
Proof.
  intros Hrun Hraw Hclean.
  unfold create_outline, try_except, try_except_json, bind, run, request, loads.
  unfold Claims.outline_request in Hrun. rewrite Hrun.
  rewrite Hraw. unfold raise. rewrite Hclean. reflexivity.
Qed.

(** C3.  When the answer of the Completion Service parses as JSON neither as
    it is nor with its code fence stripped, [create_outline] returns, without
    raising, the fixed outline: six sections (Introduction, two sections with
    two subheadings each, Case Studies, Future Directions, Conclusion), hence
    at least five, the last of them headed "Conclusion". *)
Theorem create_outline_fallback (env : Env) (topic : string)
  (research : Research.research_data) (keywords : string) (s : state)
  (answer : string) :
  chain_run env (tick s) outline_chain
    (Claims.outline_request topic research keywords) = Ok answer ->
  json_loads env answer = None ->
  json_loads env (clean_json answer) = None ->
  exists outline s',
    create_outline env topic research keywords s = Ret outline s'
    /\ outline = fallback_outline topic (effective_keywords research keywords)
    /\ Claims.section_headings outline
       = [ "Introduction"; "Understanding " ++ topic; "Best Practices";
           "Case Studies"; "Future Directions"; "Conclusion" ]
    /\ Claims.subheading_counts outline = [0; 2; 2; 1; 0; 0]%nat
    /\ (5 <= List.length (Claims.outline_sections outline))%nat
    /\ last (Claims.section_headings outline) "" = "Conclusion".
Proof.
  intros Hrun Hraw Hclean.
  eexists; eexists. split.
  - apply (create_outline_unparsed env topic research keywords s answer);
      assumption.
  - split; [reflexivity|].
    split; [apply fallback_headings|].
    split; [apply fallback_subheading_counts|].
    split; [simpl; lia | reflexivity].
Qed.

(** A Completion Service that answers in prose. *)
Lemma create_outline_fallback_witness :
  exists outline s',
    create_outline (Stubs.stub_env Stubs.canned Stubs.no_json)
      "Remote Work Best Practices" Stubs.bare_research "" initial_state
    = Ret outline s'
    /\ last (Claims.section_headings outline) "" = "Conclusion".
Proof.
  destruct (create_outline_fallback
              (Stubs.stub_env Stubs.canned Stubs.no_json)
              "Remote Work Best Practices" Stubs.bare_research "" initial_state
              "Here is the outline you asked for"
              eq_refl eq_refl eq_refl)
    as [outline [s' [H [_ [_ [_ [_ L]]]]]]].
  exists outline, s'. split; assumption.
Defined.

End PlanningFacts.

(* ===================================================================== *)
(** * Source Fetcher: [search_web] under the retry decorator             *)
(* ===================================================================== *)

Module WebScraperFacts.
Import Runtime WebScraper.

(** The body of [search_web] returns a list whatever the collaborators do,
    after exactly one request. *)
Lemma search_web_body_returns (env : Env) (query : string) (num_results : Z)
  (s : state) :
  exists results,
    search_web_body env query num_results s
    = Ret results (record (EvGet (Claims.search_url query)) s)
    /\ (forall e, requests_get env (tick s) (Claims.search_url query) = Raise e ->
        results = [])
    /\ (forall r, requests_get env (tick s) (Claims.search_url query) = Ok r ->
        status_code r <> 200 -> results = [])
    /\ (forall r e, requests_get env (tick s) (Claims.search_url query) = Ok r ->
        soup_select env (text r) = Raise e -> results = []).
Proof.
  unfold search_web_body, try_except, bind, http_get, request, Claims.search_url.
  destruct (requests_get env (tick s) _) as [r|e] eqn:G.
  - destruct (Z.eqb_spec (status_code r) 200) as [E|E]; simpl.
    + destruct (soup_select env (text r)) as [l|e] eqn:P; simpl.
      * eexists. split; [reflexivity|].
        split; [discriminate|].
        split; [intros r' Hr' N; injection Hr' as <-; contradiction|].
        intros r' e Hr' Q. injection Hr' as <-. congruence.
      * exists []. split; [reflexivity|]. repeat split; reflexivity.
    + exists []. split; [reflexivity|]. repeat split; reflexivity.
  - exists []. split; [reflexivity|]. repeat split; reflexivity.
Qed.

(** An attempt that returns ends the retry loop at once. *)
Lemma wrapper_returns_first_success {A : Type} (env : Env) (func : M A)
  (max_retries : Z) (initial_delay exponential_base : Q) (jitter : bool)
  (fuel : nat) (s s' : state) (a : A) :
  func s = Ret a s' ->
  Retry.wrapper env func max_retries initial_delay exponential_base jitter
    (S fuel) s = Ret a s'.
Proof.
  intros H. unfold Retry.wrapper. simpl. unfold try_except. rewrite H.
  reflexivity.
Qed.

(** C10.  [search_web] never raises: it returns a list after a single
    request, without any wait or retry, and the list is empty when the
    request raises, when the status is not 200 and when the parser raises.
    The decorated function is its own first attempt: the handler of the
    retry loop is never entered. *)
Theorem search_web_never_raises (env : Env) (fuel : nat) (query : string)
  (num_results : Z) (s : state) :
  search_web env (S fuel) query num_results s
  = search_web_body env query num_results s
  /\ exists results,
       search_web env (S fuel) query num_results s
       = Ret results (record (EvGet (Claims.search_url query)) s)
       /\ (forall e,
             requests_get env (tick s) (Claims.search_url query) = Raise e ->
             results = [])
       /\ (forall r,
             requests_get env (tick s) (Claims.search_url query) = Ok r ->
             status_code r <> 200 -> results = [])
       /\ (forall r e,
             requests_get env (tick s) (Claims.search_url query) = Ok r ->
             soup_select env (text r) = Raise e -> results = []).
Proof.
  destruct (search_web_body_returns env query num_results s)
    as [results [Hbody Hrest]].
  assert (search_web env (S fuel) query num_results s
          = Ret results (record (EvGet (Claims.search_url query)) s)) as Hw.
  { unfold search_web, Retry.retry_with_exponential_backoff.
    apply wrapper_returns_first_success. exact Hbody. }
  split; [congruence|].
  exists results. split; [exact Hw | exact Hrest].
Qed.

(** A search answered with status 429 yields the empty list. *)
Lemma search_web_never_raises_witness :
  exists results,
    search_web Stubs.refusing_env 1 "latest HR trends 2025" 3 initial_state
    = Ret results
        (record (EvGet (Claims.search_url "latest HR trends 2025"))
           initial_state)
    /\ results = [].
Proof.
  destruct (proj2 (search_web_never_raises Stubs.refusing_env 0
                     "latest HR trends 2025" 3 initial_state))
    as [results [H [_ [Hstatus _]]]].
  exists results. split; [exact H|].
  apply (Hstatus {| status_code := 429; text := "" |}).
  - reflexivity.
  - simpl. lia.
Defined.

End WebScraperFacts.

(* ===================================================================== *)
(** * Optimization Stage                                                 *)
(* ===================================================================== *)

Module SeoFacts.
Import Runtime Json Seo.

(** ** Internal-link suggestions *)

Lemma link_step_marks (topic : string) (entry : string * string)
  (c c' : string) :
  link_step topic entry c = Some c' -> Py.contains marker c' = true.
Proof.
  unfold link_step. destruct entry as [link_text link_topic].
  destruct (Py.contains (Py.lower link_text) (Py.lower topic)); [discriminate|].
  destruct (Py.search_word true link_text 0 None c) as [[start stop]|];
    [|discriminate].
  destruct (negb (Py.contains marker c)); [|discriminate].
  intros H. injection H as <-.
  apply StringFacts.contains_app_r, StringFacts.contains_app_l,
        StringFacts.contains_app_r.
  reflexivity.
Qed.

Lemma link_step_marked (topic : string) (entry : string * string) (c : string) :
  Py.contains marker c = true -> link_step topic entry c = None.
Proof.
  intros H. unfold link_step. destruct entry as [link_text link_topic].
  destruct (Py.contains (Py.lower link_text) (Py.lower topic)); [reflexivity|].
  destruct (Py.search_word true link_text 0 None c) as [[start stop]|];
    [|reflexivity].
  rewrite H. reflexivity.
Qed.

(** Once the content holds a marker the loop changes nothing. *)
Lemma marked_content_unchanged (entries : list (string * string))
  (topic c : string) :
  Py.contains marker c = true ->
  insertions_over entries topic c = [] /\ add_links_over entries topic c = c.
Proof.
  intros H. induction entries as [|entry rest IH]; [split; reflexivity|].
  unfold add_links_over in *. simpl. unfold link_turn at 2.
  rewrite (link_step_marked topic entry c H). exact IH.
Qed.



(** The loop leaves the content as it is, or as one turn changed it. *)
Lemma add_links_one_edit (entries : list (string * string)) (topic c : string) :
  add_links_over entries topic c = c
  \/ exists entry c',
       In entry entries
       /\ link_step topic entry c = Some c'
       /\ add_links_over entries topic c = c'.
Proof.
  induction entries as [|entry rest IH]; [left; reflexivity|].
  change (add_links_over (entry :: rest) topic c)
    with (add_links_over rest topic (link_turn topic c entry)).
  unfold link_turn. destruct (link_step topic entry c) as [c'|] eqn:E.
  - right. exists entry, c'. split; [left; reflexivity|].
    split; [exact E|].
    apply (proj2 (marked_content_unchanged rest topic c'
                    (link_step_marks _ _ _ _ E))).
  - destruct IH as [IH|[e [c' [Hin [Hstep Hres]]]]]; [left; exact IH|].
    right. exists e, c'. split; [right; exact Hin|]. split; assumption.
Qed.



(** ** The analysis issues one request *)

Lemma density_value_total (content : string) (keyword_list : list string) :
  exists v, density_value content keyword_list = Ok v.
Proof.
  unfold density_value. destruct keyword_list as [|k ks]; [eexists; reflexivity|].
  destruct (UtilsFacts.density_total content (k :: ks)) as [q ->].
  eexists; reflexivity.
Qed.

Lemma get_raises (x : json) (k : string) (default : json) (e : exn) :
  get x k default = Raise e -> e = AttributeError.
Proof. destruct x; simpl; congruence. Qed.

Lemma add_density_raises (analysis density : json) (e : exn) :
  add_density analysis density = Raise e -> e = TypeError.
Proof.
  unfold add_density, has, store_nested.
  destruct analysis as [|b|n|q|s|l|l]; simpl; try congruence.
  - destruct (Py.contains "keyword_analysis" s); congruence.
  - destruct (existsb (is_str "keyword_analysis") l); congruence.
  - destruct (lookup "keyword_analysis" l) as [[]|]; congruence.
Qed.

Ltac settle := intros H; simpl in H; injection H as _ <-; reflexivity.

Lemma analyze_seo_one_request (env : Env) (content topic keywords : string)
  (s s1 : state) (analysis : json) :
  analyze_seo env content topic keywords s = Ret analysis s1 ->
  s1 = record (EvChain seo_analysis_chain
                 (Claims.analysis_request content topic keywords)) s.
Proof.
  unfold analyze_seo, Claims.analysis_request.
  destruct (density_value_total content (keyword_list_of keywords)) as [v ->].
  unfold try_except, try_except_json, bind, lift, run, request, Planning.loads,
    ret, raise.
  destruct (chain_run env (tick s) seo_analysis_chain _) as [answer|e];
    [|settle].
  destruct (json_loads env answer) as [a|].
  - destruct (get a "overall_score" (JStr "N/A")) as [x|e] eqn:G;
      [|apply get_raises in G; subst e; settle].
    destruct (add_density a v) as [a'|e] eqn:D;
      [|apply add_density_raises in D; subst e]; settle.
  - destruct (json_loads env (Planning.clean_json answer)) as [a|]; [|settle].
    destruct (add_density a v) as [a'|e] eqn:D;
      [|apply add_density_raises in D; subst e]; settle.
Qed.

(** A character of a text without [#] is not [#]. *)
Lemma without_hash_cons (c : ascii) (s : string) :
  Py.contains "#" (String c s) = false ->
  c <> hash /\ Py.contains "#" s = false.
Proof.
  intros H. rewrite StringFacts.contains_unfold, StringFacts.prefix_cons in H.
  destruct (ascii_dec "#" c) as [<-|Hc].
  - rewrite StringFacts.prefix_nil in H. discriminate.
  - split; [unfold hash; congruence | exact H].
Qed.

(** A text without [#] has no heading. *)
Lemma headings_scan_without_hash (s : string) :
  Py.contains "#" s = false -> headings_scan Scanning s = [].
Proof.
  induction s as [|c s IH]; intros H; [reflexivity|].
  apply without_hash_cons in H. destruct H as [Hc H].
  cbn [headings_scan].
  replace (Ascii.eqb c hash) with false
    by (symmetry; apply Ascii.eqb_neq; exact Hc).
  apply IH. exact H.
Qed.















End SeoFacts.

(* ===================================================================== *)
(** * The orchestrator                                                   *)
(* ===================================================================== *)

Module MainFacts.
Import Runtime Main.

Ltac find_heading :=
  repeat first
    [ apply StringFacts.contains_app_l; vm_compute; reflexivity
    | apply StringFacts.contains_app_r ].

Lemma tech_blog_shape (keywords : string) :
  Py.startswith (generate_hr_tech_blog keywords) "# " = true
  /\ Py.contains "## Introduction" (generate_hr_tech_blog keywords) = true
  /\ Py.contains "## Conclusion" (generate_hr_tech_blog keywords) = true.
Proof. repeat split; vm_compute; reflexivity. Qed.

Lemma general_blog_shape (topic keywords : string) :
  Py.startswith (generate_general_hr_blog topic keywords) "# " = true
  /\ Py.contains "## Introduction" (generate_general_hr_blog topic keywords) = true
  /\ Py.contains "## Conclusion" (generate_general_hr_blog topic keywords) = true.
Proof.
  unfold generate_general_hr_blog. split; [apply StringFacts.startswith_app|].
  split; find_heading.
Qed.

Lemma sample_document_shape (request : form) :
  Py.startswith (Claims.sample_document request) "# " = true
  /\ Py.contains "## Introduction" (Claims.sample_document request) = true
  /\ Py.contains "## Conclusion" (Claims.sample_document request) = true.
Proof.
  unfold Claims.sample_document.
  destruct (_ || _)%bool; [apply tech_blog_shape | apply general_blog_shape].
Qed.

(** What a run of [generate_blog] does. *)
Lemma generate_blog_run (env : Env) (request : form) (s : state) :
  generate_blog env request s
  = Ret "results"
      {| tick := S (tick s);
         trace := trace s ++ [EvSleep 1; EvSleep 1; EvSleep 1; EvSleep 1; EvClock];
         session_progress :=
           Some (stage "complete" "Blog post generation complete!" 100);
         session_blog_result :=
           Some {| br_topic := Claims.posted_topic request;
                   br_content := Claims.sample_document request;
                   br_timestamp :=
                     strftime env (tick s) "%Y-%m-%d %H:%M:%S" |} |}.
Proof.
  unfold generate_blog, Claims.sample_document, Claims.posted_topic,
    Claims.posted_keywords.
  unfold try_except, bind, set_progress, sleep, clock, Runtime.request,
    set_blog_result, ret.
  destruct s as [t tr p b].
  cbv beta iota zeta delta
    [with_progress with_blog_result record slept
     tick trace session_progress session_blog_result].
  repeat rewrite <- app_assoc. reflexivity.
Qed.

(** C1, as amended.  For every posted topic and keywords and whatever the
    collaborators do, [generate_blog] runs none of the five stages: it
    pauses four times, reads the clock, and leaves in the session a sample
    document chosen by the topic alone.  That document begins with "# " and
    contains "## Introduction" and "## Conclusion". *)
Theorem generate_blog_stores_sample (env : Env) (request : form) (s : state) :
  exists s',
    generate_blog env request s = Ret "results" s'
    /\ generated_document env request s = Some (Claims.sample_document request)
    /\ trace s' = (trace s ++ [EvSleep 1; EvSleep 1; EvSleep 1; EvSleep 1; EvClock])%list
    /\ filter Claims.is_stage_request (trace s')
       = filter Claims.is_stage_request (trace s)
    /\ Py.startswith (Claims.sample_document request) "# " = true
    /\ Py.contains "## Introduction" (Claims.sample_document request) = true
    /\ Py.contains "## Conclusion" (Claims.sample_document request) = true.
Proof.
  eexists. split; [apply generate_blog_run|].
  split; [unfold generated_document; rewrite generate_blog_run; reflexivity|].
  split; [reflexivity|].
  split; [simpl; rewrite filter_app; simpl; apply app_nil_r|].
  apply sample_document_shape.
Qed.

(** The scenario of the specification: topic "Remote Work Best Practices",
    no keywords, canned completions, two fixed pages.  The five stages in
    sequence end with one document, [generate_blog] with another. *)
Lemma generate_blog_is_not_the_pipeline :
  ~ Claims.runs_the_pipeline
      (Stubs.stub_env Stubs.canned Stubs.score_json) Stubs.fixed_draft 1
      {| form_topic := Some "Remote Work Best Practices";
         form_keywords := Some "" |}
      initial_state.
Proof.
  unfold Claims.runs_the_pipeline. intros H.
  apply (f_equal (option_map String.length)) in H.
  vm_compute in H. discriminate H.
Qed.

End MainFacts.

(* ===================================================================== *)
(** * Retry with backoff                                                 *)
(* ===================================================================== *)

Module RetryFacts.
Import Runtime Retry.

Section Loop.
Variable env : Env.
Context {A : Type}.
Variable operation : nat -> result A.
Variable max_retries : Z.
Variable exponential_base : Q.
Variable jitter : bool.

Lemma tick_after_wait (delay : Q) (s : state) :
  tick (Claims.after_wait env exponential_base jitter delay s)
  = (tick s + Claims.stride jitter)%nat.
Proof.
  unfold Claims.after_wait, Claims.stride.
  destruct jitter; simpl; lia.
Qed.

Lemma trace_after_wait (delay : Q) (s : state) (n : nat) (rest : list event) :
  (trace (Claims.after_wait env exponential_base jitter delay s) ++ rest
   = trace s
       ++ (EvCall :: (if jitter then [EvRandom] else [])
             ++ [EvSleep
                   (Claims.recomputed env exponential_base jitter (S (tick s))
                      delay)])
       ++ rest)%list.
Proof.
  unfold Claims.after_wait.
  destruct jitter; simpl; repeat rewrite <- app_assoc; reflexivity.
Qed.

(** An attempt that returns ends the loop. *)
Lemma retry_loop_success (fuel : nat) (num_retries : Z) (delay : Q) (s : state)
  (v : A) :
  operation (tick s) = Ok v ->
  retry_loop env (Claims.attempt operation) max_retries exponential_base
    jitter (S fuel) num_retries delay s
  = Ret v (record EvCall s).
Proof.
  intros H. simpl. unfold try_except, Claims.attempt, request. rewrite H.
  reflexivity.
Qed.

(** A failed attempt that is not the last: the loop recomputes the delay,
    waits it, and goes on. *)
Lemma retry_loop_step (fuel : nat) (num_retries : Z) (delay : Q) (s : state)
  (e : exn) :
  operation (tick s) = Raise e ->
  num_retries + 1 <= max_retries ->
  retry_loop env (Claims.attempt operation) max_retries exponential_base
    jitter (S fuel) num_retries delay s
  = retry_loop env (Claims.attempt operation) max_retries exponential_base
      jitter fuel (num_retries + 1)
      (Claims.recomputed env exponential_base jitter (S (tick s)) delay)
      (Claims.after_wait env exponential_base jitter delay s).
Proof.
  intros He H. simpl. unfold try_except, Claims.attempt, request. rewrite He.
  replace (max_retries <? num_retries + 1) with false
    by (symmetry; apply Z.ltb_ge; lia).
  unfold bind, next_delay, Claims.after_wait, Claims.recomputed,
    random, request, sleep, ret.
  destruct jitter; reflexivity.
Qed.

(** The failure of the last attempt leaves the loop. *)
Lemma retry_loop_last (fuel : nat) (num_retries : Z) (delay : Q) (s : state)
  (e : exn) :
  operation (tick s) = Raise e ->
  max_retries < num_retries + 1 ->
  retry_loop env (Claims.attempt operation) max_retries exponential_base
    jitter (S fuel) num_retries delay s
  = Exc e (record EvCall s).
Proof.
  intros He H. simpl. unfold try_except, Claims.attempt, request. rewrite He.
  replace (max_retries <? num_retries + 1) with true
    by (symmetry; apply Z.ltb_lt; lia).
  reflexivity.
Qed.

(** The loop through [n] failed attempts, up to the attempt that ends it. *)
Lemma retry_loop_runs (n : nat) :
  forall (fuel : nat) (num_retries : Z) (delay : Q) (s : state),
    Z.of_nat n <= max_retries - num_retries ->
    (n < fuel)%nat ->
    (forall i, (i < n)%nat ->
       exists e, operation (tick s + i * Claims.stride jitter)%nat = Raise e) ->
    let outcome :=
      retry_loop env (Claims.attempt operation) max_retries exponential_base
        jitter fuel num_retries delay s in
    let events :=
      Claims.retry_events env exponential_base jitter n (tick s) delay in
    (forall v,
       operation (tick s + n * Claims.stride jitter)%nat = Ok v ->
       exists s', outcome = Ret v s' /\ trace s' = (trace s ++ events)%list)
    /\ (forall e,
          operation (tick s + n * Claims.stride jitter)%nat = Raise e ->
          Z.of_nat n = max_retries - num_retries ->
          exists s', outcome = Exc e s' /\ trace s' = (trace s ++ events)%list).
Proof.
  induction n as [|k IH]; intros fuel r d s Hn Hfuel Hfail;
    (destruct fuel as [|fuel]; [lia|]).
  - cbv zeta. change (0 * Claims.stride jitter)%nat with 0%nat.
    rewrite Nat.add_0_r. split.
    + intros v Hv. rewrite (retry_loop_success _ _ _ _ _ Hv).
      eexists. split; reflexivity.
    + intros e He Hlast. rewrite (retry_loop_last _ _ _ _ _ He) by lia.
      eexists. split; reflexivity.
  - destruct (Hfail 0%nat) as [e0 He0]; [lia|].
    simpl in He0. rewrite Nat.add_0_r in He0.
    cbv zeta. rewrite (retry_loop_step _ _ _ _ _ He0) by lia.
    assert (forall i,
              (tick (Claims.after_wait env exponential_base jitter d s)
               + i * Claims.stride jitter
                       = tick s + S i * Claims.stride jitter)%nat) as Htick.
    { intros i. rewrite tick_after_wait. simpl. lia. }
    destruct (IH fuel (r + 1)
                (Claims.recomputed env exponential_base jitter (S (tick s)) d)
                (Claims.after_wait env exponential_base jitter d s))
      as [IHok IHexc]; [lia | lia | |].
    { intros i Hi. rewrite Htick. apply Hfail. lia. }
    cbv zeta in IHok, IHexc. rewrite Htick in IHok, IHexc.
    rewrite tick_after_wait in IHok, IHexc.
    split.
    + intros v Hv. destruct (IHok v Hv) as [s' [Hrun Htr]].
      exists s'. split; [exact Hrun|].
      rewrite Htr. simpl. apply (trace_after_wait d s k).
    + intros e He Hlast. destruct (IHexc e He) as [s' [Hrun Htr]]; [lia|].
      exists s'. split; [exact Hrun|].
      rewrite Htr. simpl. apply (trace_after_wait d s k).
Qed.
End Loop.

Lemma calls_of_retry_events (env : Env) (exponential_base : Q) (jitter : bool)
  (n t : nat) (delay : Q) :
  Claims.calls_of (Claims.retry_events env exponential_base jitter n t delay)
  = S n.
Proof.
  revert t delay. induction n as [|k IH]; intros t d; [reflexivity|].
  unfold Claims.calls_of in *. simpl.
  rewrite filter_app, length_app, (IH _ _).
  destruct jitter; reflexivity.
Qed.

Lemma sleeps_of_app (l1 l2 : list event) :
  Claims.sleeps_of (l1 ++ l2) = (Claims.sleeps_of l1 ++ Claims.sleeps_of l2)%list.
Proof.
  induction l1 as [|ev l1 IH]; [reflexivity|].
  destruct ev; simpl; rewrite IH; reflexivity.
Qed.

Lemma sleeps_of_retry_events (env : Env) (exponential_base : Q) (jitter : bool)
  (n t : nat) (delay : Q) :
  Claims.sleeps_of (Claims.retry_events env exponential_base jitter n t delay)
  = Claims.waits env exponential_base jitter n t delay.
Proof.
  revert t delay. induction n as [|k IH]; intros t d; [reflexivity|].
  simpl. rewrite sleeps_of_app, (IH _ _).
  destruct jitter; reflexivity.
Qed.

Lemma new_events_app {A : Type} (s : state) (o : outcome A) (l : list event) :
  Claims.trace_of o = (trace s ++ l)%list -> Claims.new_events s o = l.
Proof.
  intros H. unfold Claims.new_events. rewrite H.
  rewrite skipn_app, skipn_all, Nat.sub_diag. reflexivity.
Qed.

(** C6, as amended.  The wrapper calls the operation; after a failure that
    is not the last one allowed it first recomputes the delay
    ([delay * base * (1 + random)] with jitter, [delay * base] without), then
    waits the recomputed delay, and calls again: the first wait is already a
    recomputed one, the initial delay itself is never waited.  When the
    first [n <= max_retries] calls fail, a call [n + 1] that returns gives
    the result of the wrapper; when [n = max_retries] and call [n + 1] fails
    too, its failure is raised: an operation that always fails is called
    exactly [max_retries + 1] times, with [max_retries] waits.  This holds
    for an initial delay and a base that are not negative and for a
    schedule whose waits [time.sleep] accepts; [time.sleep] raises on any
    other delay, and that failure would leave the wrapper. *)
Theorem retry_with_backoff_schedule {A : Type} (env : Env)
  (operation : nat -> result A) (max_retries : Z)
  (initial_delay exponential_base : Q) (jitter : bool) (fuel : nat)
  (s : state) (n : nat) :
  0 <= max_retries ->
  (0 <= initial_delay)%Q ->
  (0 <= exponential_base)%Q ->
  Forall Claims.sleep_accepts
    (Claims.waits env exponential_base jitter n (tick s) initial_delay) ->
  (n <= Z.to_nat max_retries)%nat ->
  (n < fuel)%nat ->
  (forall i, (i < n)%nat ->
     exists e, operation (tick s + i * Claims.stride jitter)%nat = Raise e) ->
  let outcome :=
    wrapper env (Claims.attempt operation) max_retries initial_delay
      exponential_base jitter fuel s in
  let final := operation (tick s + n * Claims.stride jitter)%nat in
  (forall v, final = Ok v -> exists s', outcome = Ret v s')
  /\ (forall e, final = Raise e -> n = Z.to_nat max_retries ->
       exists s', outcome = Exc e s')
  /\ ((exists v, final = Ok v) \/ n = Z.to_nat max_retries ->
      Claims.calls_of (Claims.new_events s outcome) = S n
      /\ Claims.sleeps_of (Claims.new_events s outcome)
         = Claims.waits env exponential_base jitter n (tick s) initial_delay
      /\ ((0 < n)%nat ->
          hd_error (Claims.sleeps_of (Claims.new_events s outcome))
          = Some (Claims.recomputed env exponential_base jitter (S (tick s))
                    initial_delay))).
Proof.
  intros Hmax _ _ _ Hn Hfuel Hfail outcome final.
  destruct (retry_loop_runs env operation max_retries exponential_base jitter
              n fuel 0 initial_delay s) as [Hok Hexc];
    [lia | exact Hfuel | exact Hfail |].
  cbv zeta in Hok, Hexc. fold final in Hok, Hexc.
  assert (forall l,
            Claims.trace_of outcome
            = (trace s ++ Claims.retry_events env exponential_base jitter n
                            (tick s) initial_delay)%list ->
            l = Claims.new_events s outcome ->
            Claims.calls_of l = S n
            /\ Claims.sleeps_of l
               = Claims.waits env exponential_base jitter n (tick s)
                   initial_delay
            /\ ((0 < n)%nat ->
                hd_error (Claims.sleeps_of l)
                = Some (Claims.recomputed env exponential_base jitter
                          (S (tick s)) initial_delay))) as Hevents.
  { intros l Htr ->. rewrite (new_events_app s outcome _ Htr).
    split; [apply calls_of_retry_events|].
    split; [apply sleeps_of_retry_events|].
    intros Hpos. rewrite sleeps_of_retry_events.
    destruct n as [|k]; [lia | reflexivity]. }
  split.
  { intros v Hv. destruct (Hok v Hv) as [s' [Hrun _]]. exists s'. exact Hrun. }
  split.
  { intros e He Hlast. destruct (Hexc e He) as [s' [Hrun _]]; [lia|].
    exists s'. exact Hrun. }
  intros Hsettled. apply Hevents; [|reflexivity].
  destruct final as [v|e] eqn:Hfinal.
  - destruct (Hok v eq_refl) as [s' [Hrun Htr]].
    unfold outcome, wrapper. rewrite Hrun. exact Htr.
  - destruct Hsettled as [[v Hv]|Hlast]; [discriminate|].
    destruct (Hexc e eq_refl) as [s' [Hrun Htr]]; [lia|].
    unfold outcome, wrapper. rewrite Hrun. exact Htr.
Qed.

(** A call that times out twice and then answers, under five retries from
    one second, doubling, without jitter: three calls, and waits of two and
    of four seconds. *)
Lemma retry_with_backoff_schedule_witness :
  Claims.calls_of
    (Claims.new_events initial_state
       (wrapper Stubs.refusing_env (Claims.attempt Stubs.third_time_lucky)
          5 1%Q 2%Q false 6 initial_state)) = 3%nat
  /\ Claims.sleeps_of
       (Claims.new_events initial_state
          (wrapper Stubs.refusing_env (Claims.attempt Stubs.third_time_lucky)
             5 1%Q 2%Q false 6 initial_state))
     = [(1 * 2)%Q; (1 * 2 * 2)%Q].
Proof.
  destruct (retry_with_backoff_schedule Stubs.refusing_env
              Stubs.third_time_lucky 5 1%Q 2%Q false 6 initial_state 2)
    as [_ [_ H]].
  - lia.
  - unfold Qle; simpl; lia.
  - unfold Qle; simpl; lia.
  - repeat constructor; unfold Qle; simpl; lia.
  - simpl. lia.
  - lia.
  - intros i Hi. destruct i as [|[|i]];
      [eexists; reflexivity | eexists; reflexivity | lia].
  - destruct H as [Hcalls [Hsleeps _]].
    + left. exists "page". reflexivity.
    + split; [exact Hcalls | exact Hsleeps].
Defined.

(** One retry, from one second, doubling, without jitter: the code waits two
    seconds between the two calls, the loop of the specification waits one. *)
Lemma retry_does_not_wait_the_current_delay :
  ~ Claims.waits_then_recomputes (A := unit) Stubs.refusing_env
      (Claims.failing (fun _ => External "timed out"))
      1 1%Q 2%Q false 2 initial_state.
Proof.
  unfold Claims.waits_then_recomputes. intros H.
  apply (f_equal (fun o => Claims.sleeps_of (Claims.trace_of o))) in H.
  vm_compute in H. discriminate H.
Qed.

End RetryFacts.

(* ===================================================================== *)
(** * Chunk splitting                                                    *)
(* ===================================================================== *)

Module SplitFacts.
Import Utils.

(** One turn of the loop that does not reach the end of the text. *)
Lemma split_loop_step (fuel : nat) (text : string) (max_chars overlap start : Z)
  (chunks : list string) :
  start < Py.len text ->
  start + max_chars < Py.len text ->
  split_loop (S fuel) text max_chars overlap start chunks
  = split_loop fuel text max_chars overlap
      (chunk_end text max_chars start - overlap)
      (chunks ++ [Py.slice text (Some start) (Some (chunk_end text max_chars start))]).
Proof.
  intros H1 H2. simpl.
  replace (start <? Py.len text) with true by (symmetry; apply Z.ltb_lt; lia).
  replace (Py.len text <=? start + max_chars) with false
    by (symmetry; apply Z.leb_gt; lia).
  reflexivity.
Qed.

(** A start position the loop comes back to is never left. *)
Lemma split_loop_cycle (text : string) (max_chars overlap start : Z) :
  start < Py.len text ->
  start + max_chars < Py.len text ->
  chunk_end text max_chars start - overlap = start ->
  forall (fuel : nat) (chunks : list string),
    split_loop fuel text max_chars overlap start chunks = None.
Proof.
  intros H1 H2 Hfix fuel. induction fuel as [|fuel IH]; intros chunks;
    [reflexivity|].
  rewrite split_loop_step by assumption. rewrite Hfix. apply IH.
Qed.

Lemma unbroken_text_never_split (fuel : nat) :
  split_text_into_chunks fuel Claims.unbroken_text 1 4 = None.
Proof.
  unfold split_text_into_chunks.
  replace (Py.len Claims.unbroken_text <=? 1 * 4) with false by reflexivity.
  apply split_loop_cycle; reflexivity.
Qed.

Lemma long_token_text_facts :
  Py.len Claims.long_token_text = 16002
  /\ chunk_end Claims.long_token_text 16000 0 = 2
  /\ chunk_end Claims.long_token_text 16000 (-198) = 0
  /\ chunk_end Claims.long_token_text 16000 (-200) = 0.
Proof. repeat split; vm_compute; reflexivity. Qed.

Lemma long_token_text_never_split (fuel : nat) :
  split_text_into_chunks fuel Claims.long_token_text 4000 200 = None.
Proof.
  destruct long_token_text_facts as [Hlen [H0 [H1 H2]]].
  unfold split_text_into_chunks. change (4000 * 4) with 16000. rewrite Hlen.
  replace (16002 <=? 16000) with false by reflexivity.
  destruct fuel as [|fuel]; [reflexivity|].
  rewrite split_loop_step by (rewrite Hlen; lia). rewrite H0.
  change (2 - 200) with (-198).
  destruct fuel as [|fuel]; [reflexivity|].
  rewrite split_loop_step by (rewrite Hlen; lia). rewrite H1.
  change (0 - 200) with (-200).
  apply split_loop_cycle; rewrite ?Hlen, ?H2; lia.
Qed.

(** C4, at two inputs on which the loop never ends.  On ten characters
    without a break point, with [max_tokens = 1] and [overlap = 4], the chunk
    ends at the raw window end 4 and the next start is 0 again.  With the
    default [max_tokens = 4000] and [overlap = 200], on a text whose only
    break point is a space at index 1, the start falls to -198, then to
    -200, and stays there.  Whatever the fuel, no list is returned. *)
Theorem split_text_into_chunks_runs_forever :
  (forall fuel, split_text_into_chunks fuel Claims.unbroken_text 1 4 = None)
  /\ chunk_end Claims.unbroken_text 4 0 - 4 = 0
  /\ (forall fuel,
        split_text_into_chunks fuel Claims.long_token_text 4000 200 = None).
Proof.
  split; [exact unbroken_text_never_split|].
  split; [reflexivity | exact long_token_text_never_split].
Qed.

(** A text within the limit is returned as the only chunk. *)
Lemma short_text_is_one_chunk (fuel : nat) (text : string)
  (max_tokens overlap : Z) :
  Py.len text <= max_tokens * 4 ->
  split_text_into_chunks fuel text max_tokens overlap = Some [text].
Proof.
  intros H. unfold split_text_into_chunks.
  replace (Py.len text <=? max_tokens * 4) with true
    by (symmetry; apply Z.leb_le; exact H).
  reflexivity.
Qed.

(** C8, at an input on which the loop ends with chunks that do not cover the
    text: with [max_tokens = 5] and [overlap = 5] the second chunk is two
    characters long, the third starts before the second, and the chunks put
    together again without their overlaps, taken off the front of the later
    chunks or off the end of the earlier ones, are 35 characters for a text
    of 32. *)
Theorem split_text_into_chunks_not_covering :
  let text := Claims.two_breaks_text in
  let chunks :=
    [ Py.slice text (Some 0) (Some 15); Py.slice text (Some 10) (Some 12);
      Py.slice text (Some 7) (Some 21); Py.slice text (Some 16) None ] in
  (forall fuel, split_text_into_chunks (4 + fuel) text 5 5 = Some chunks)
  /\ Claims.reassemble 5 chunks <> text
  /\ Claims.reassemble_by_tails 5 chunks <> text
  /\ Py.len (Claims.reassemble 5 chunks) = 35
  /\ Py.len (Claims.reassemble_by_tails 5 chunks) = 35
  /\ Py.len text = 32
  /\ map Py.len chunks = [15; 2; 14; 16].
Proof.
  intros text chunks.
  split; [intros fuel; reflexivity|].
  split; [intros H; apply (f_equal String.length) in H; vm_compute in H;
          discriminate H|].
  split; [intros H; apply (f_equal String.length) in H; vm_compute in H;
          discriminate H|].
  repeat split.
Qed.

End SplitFacts.

(* ===================================================================== *)
(** * Research Stage                                                     *)
(* ===================================================================== *)

Module ResearchFacts.
Import Runtime Research.

(** A computation whose every continuation fails to return fails to
    return. *)
Lemma bind_never_returns {A B : Type} (m : M A) (k : A -> M B) (s : state) :
  (forall a s1, m s = Ret a s1 -> forall b s2, k a s1 <> Ret b s2) ->
  forall b s2, bind m k s <> Ret b s2.
Proof.
  intros H b s2. unfold bind. destruct (m s) as [a s1| |] eqn:E;
    [apply (H a s1 eq_refl) | discriminate | discriminate].
Qed.

(** The chunk list is never empty when it is asked with the default
    limits. *)
Lemma split_loop_nonempty (text : string) (max_chars overlap : Z) (fuel : nat) :
  forall (start : Z) (chunks l : list string),
    Utils.split_loop fuel text max_chars overlap start chunks = Some l ->
    chunks <> [] \/ start < Py.len text ->
    l <> [].
Proof.
  induction fuel as [|fuel IH]; intros start chunks l; simpl; [discriminate|].
  destruct (Z.ltb_spec start (Py.len text)) as [Hlt|Hge].
  - destruct (Py.len text <=? start + max_chars).
    + intros H _. injection H as <-. destruct chunks; discriminate.
    + intros H _. apply (IH _ _ _ H). left. destruct chunks; discriminate.
  - intros H [Hne|Hlt]; [injection H as <-; exact Hne | lia].
Qed.

Lemma default_chunks_nonempty (fuel : nat) (text : string) (l : list string) :
  Utils.split_text_into_chunks fuel text 4000 200 = Some l -> l <> [].
Proof.
  unfold Utils.split_text_into_chunks.
  destruct (Z.leb_spec (Py.len text) (4000 * 4)) as [Hle|Hgt].
  - intros H. injection H as <-. discriminate.
  - intros H. apply (split_loop_nonempty _ _ _ _ _ _ _ H). right. lia.
Qed.

Section ServiceDown.
Variable env : Env.
Hypothesis down : forall t c kw, exists e, chain_run env t c kw = Raise e.

Lemma synthesize_never_returns (topic keywords : string)
  (chunks : list string) (acc : string) (s : state) :
  chunks <> [] ->
  forall v s', synthesize env topic keywords chunks acc s <> Ret v s'.
Proof.
  destruct chunks as [|chunk rest]; [congruence|]. intros _ v s'.
  simpl. unfold bind, run, request.
  destruct (down (tick s) research_synthesis_chain
              [("topic", topic); ("research_data", chunk); ("keywords", keywords)])
    as [e ->].
  discriminate.
Qed.

Lemma research_topic_never_returns (fuel : nat) (topic keywords : string)
  (s : state) :
  forall v s', research_topic env fuel topic keywords s <> Ret v s'.
Proof.
  unfold research_topic.
  apply bind_never_returns. intros search_results s1 _.
  apply bind_never_returns. intros scraped_data s2 _.
  destruct (combine_research scraped_data "" []) as [combined metadata].
  apply bind_never_returns. intros chunks s3 Hsplit.
  apply bind_never_returns. intros synthesized s4 Hsyn.
  exfalso. revert Hsyn. apply synthesize_never_returns.
  unfold lift_option in Hsplit.
  destruct (Utils.split_text_into_chunks fuel combined 4000 200) as [l|] eqn:E;
    [|discriminate].
  unfold ret in Hsplit. injection Hsplit as <- _.
  apply (default_chunks_nonempty _ _ _ E).
Qed.

Lemma research_fallback_never_returns (fuel : nat) (s : state) :
  forall v s', research_fallback_topic env fuel s <> Ret v s'.
Proof.
  unfold research_fallback_topic.
  apply bind_never_returns. intros selected s1 _.
  apply bind_never_returns. intros research s2 H.
  exfalso. revert H. apply research_topic_never_returns.
Qed.

Lemma trend_research_never_returns (fuel : nat) (s : state) :
  forall v s', trend_research env fuel s <> Ret v s'.
Proof.
  unfold trend_research.
  apply bind_never_returns. intros trend_results s2 _.
  destruct trend_results as [|r rest].
  - apply research_fallback_never_returns.
  - apply bind_never_returns. intros scraped s3 _.
    apply bind_never_returns. intros answer s4 _.
    apply bind_never_returns. intros research s5 H.
    exfalso. revert H. apply research_topic_never_returns.
Qed.
End ServiceDown.

(** The topic of the fallback is one of the fixed list. *)
Lemma fallback_topic_listed (env : Env) (fuel : nat) (s s' : state)
  (v : string * research_data) :
  research_fallback_topic env fuel s = Ret v s' ->
  In (fst v) Config.FALLBACK_HR_TOPICS.
Proof.
  unfold research_fallback_topic, bind, choice, request, ret.
  match goal with
  | |- context [research_topic env fuel ?t ""] => set (picked := t)
  end.
  destruct (research_topic env fuel picked "" _) as [r s1| |];
    [|discriminate|discriminate].
  intros H. injection H as <- _.
  change (In picked Config.FALLBACK_HR_TOPICS). unfold picked.
  apply nth_In. apply Nat.mod_upper_bound. discriminate.
Qed.

(** C5, as amended.  Whatever raises in the trend search, the scraping, the
    choice of the topic or the research of the chosen topic is caught, and
    [find_trending_topic] continues as the fallback: a topic of the fixed
    list picked at random, and its research.  It returns what the fallback
    returns, and raises what the fallback raises: the research of the
    fallback topic runs outside any [try].  With a Completion Service that
    raises at every call it returns nothing. *)
Theorem find_trending_topic_falls_back_once (env : Env) (fuel : nat)
  (s : state) :
  (forall e s1,
     trend_research env fuel s = Exc e s1 ->
     find_trending_topic env fuel s = research_fallback_topic env fuel s1)
  /\ (forall e s1 v s2,
        trend_research env fuel s = Exc e s1 ->
        research_fallback_topic env fuel s1 = Ret v s2 ->
        find_trending_topic env fuel s = Ret v s2
        /\ In (fst v) Config.FALLBACK_HR_TOPICS)
  /\ (forall e s1 e' s2,
        trend_research env fuel s = Exc e s1 ->
        research_fallback_topic env fuel s1 = Exc e' s2 ->
        find_trending_topic env fuel s = Exc e' s2)
  /\ ((forall t c kw, exists e, chain_run env t c kw = Raise e) ->
      (exists e s', find_trending_topic env fuel s = Exc e s')
      \/ find_trending_topic env fuel s = Diverge).
Proof.
  assert (forall e s1,
            trend_research env fuel s = Exc e s1 ->
            find_trending_topic env fuel s = research_fallback_topic env fuel s1)
    as Hcatch.
  { intros e s1 H. unfold find_trending_topic, try_except. rewrite H.
    reflexivity. }
  split; [exact Hcatch|].
  split.
  { intros e s1 v s2 H1 H2. rewrite (Hcatch e s1 H1). split; [exact H2|].
    apply (fallback_topic_listed env fuel s1 s2 v H2). }
  split.
  { intros e s1 e' s2 H1 H2. rewrite (Hcatch e s1 H1). exact H2. }
  intros down.
  destruct (find_trending_topic env fuel s) as [v s'|e s'|] eqn:E.
  - exfalso. revert E. unfold find_trending_topic, try_except.
    destruct (trend_research env fuel s) as [a s1|e s1|] eqn:T.
    + exfalso. apply (trend_research_never_returns env down fuel s a s1 T).
    + apply research_fallback_never_returns. exact down.
    + discriminate.
  - left. exists e, s'. reflexivity.
  - right. reflexivity.
Qed.

(** The Completion Service fails to name a trend and answers every other
    request: the fallback topic is researched and returned. *)
Lemma find_trending_topic_falls_back_once_witness :
  exists v s',
    find_trending_topic (Stubs.stub_env Stubs.no_trend Stubs.no_json) 1
      initial_state
    = Ret v s'
    /\ In (fst v) Config.FALLBACK_HR_TOPICS.
Proof.
  eexists. eexists.
  eapply (proj1 (proj2 (find_trending_topic_falls_back_once
                          (Stubs.stub_env Stubs.no_trend Stubs.no_json) 1
                          initial_state))).
  - vm_compute. reflexivity.
  - vm_compute. reflexivity.
Defined.

(** The Completion Service raises at every call: the failure of the research
    of the fallback topic reaches the caller of [find_trending_topic]. *)
Lemma find_trending_topic_can_raise :
  exists s',
    find_trending_topic (Stubs.stub_env Stubs.service_down Stubs.no_json) 1
      initial_state
    = Exc (External "service unavailable") s'.
Proof. eexists. vm_compute. reflexivity. Qed.

End ResearchFacts.


(* ===================================================================== *)
(** * Text utilities: counting and ranking words                         *)
(* ===================================================================== *)

Module WordFacts.
Import Utils.

Lemma count_runs_separated (a b : string) (sep : ascii) (inw : bool) :
  Py.is_word sep = false ->
  Py.count_runs inw (a ++ String sep b)
  = (Py.count_runs inw a + Py.count_runs false b)%nat.
Proof.
  intros Hsep. revert inw. induction a as [|c a IH]; intros inw; simpl.
  - rewrite Hsep. reflexivity.
  - destruct (Py.is_word c); [destruct inw|]; rewrite IH; reflexivity.
Qed.

Lemma count_runs_inside (b : string) :
  (Py.count_runs true b <= Py.count_runs false b <= S (Py.count_runs true b))%nat.
Proof.
  destruct b as [|c b]; simpl; [lia|]. destruct (Py.is_word c); lia.
Qed.

Lemma count_runs_app (a b : string) (inw : bool) :
  (Py.count_runs inw a + Py.count_runs true b
   <= Py.count_runs inw (a ++ b)
   <= Py.count_runs inw a + Py.count_runs false b)%nat.
Proof.
  revert inw. induction a as [|c a IH]; intros inw; simpl.
  - pose proof (count_runs_inside b). destruct inw; lia.
  - destruct (Py.is_word c); [destruct inw|];
      match goal with |- context [Py.count_runs ?i (a ++ b)] =>
        pose proof (IH i) end; lia.
Qed.

(** X1.  [count_words] adds up over texts joined by a character that is not
    a word character; joined without one, the count is the sum or one less
    (the last word of the first text and the first word of the second may
    join). *)
Theorem count_words_of_joined_texts (a b : string) (sep : ascii) :
  (Py.is_word sep = false ->
   count_words (a ++ String sep b) = count_words a + count_words b)
  /\ count_words a + count_words b - 1 <= count_words (a ++ b)
     <= count_words a + count_words b
  /\ 0 <= count_words a.
Proof.
  unfold count_words. split; [|split].
  - intros Hsep. rewrite (count_runs_separated a b sep false Hsep). lia.
  - pose proof (count_runs_app a b false). pose proof (count_runs_inside b). lia.
  - lia.
Qed.

(** Two texts of two and of three words, joined by a comma. *)
Lemma count_words_of_joined_texts_witness :
  Py.is_word "," = false
  /\ count_words ("Remote work" ++ String "," " works well.")
     = count_words "Remote work" + count_words " works well.".
Proof.
  split; [reflexivity|].
  apply (proj1 (count_words_of_joined_texts "Remote work" " works well." ",")).
  reflexivity.
Defined.

(** ** The frequency table of [extract_keywords_from_text] *)

Import Notions.

Lemma tally_bump (k w : string) (d : freq) :
  tally k (bump w d) = tally k d + (if String.eqb w k then 1 else 0).
Proof.
  induction d as [|[k' n] d IH]; simpl.
  - destruct (String.eqb w k); lia.
  - destruct (String.eqb_spec k' w) as [->|Hne]; simpl.
    + destruct (String.eqb w k); lia.
    + destruct (String.eqb_spec k' k) as [->|Hk].
      * destruct (String.eqb_spec w k); [congruence | lia].
      * exact IH.
Qed.

Lemma bump_keys (k w : string) (d : freq) :
  In k (map fst (bump w d)) <-> k = w \/ In k (map fst d).
Proof.
  induction d as [|[k' n] d IH]; simpl.
  - intuition.
  - destruct (String.eqb_spec k' w) as [->|Hne]; simpl; intuition.
Qed.

Lemma bump_nodup (w : string) (d : freq) :
  NoDup (map fst d) -> NoDup (map fst (bump w d)).
Proof.
  induction d as [|[k' n] d IH]; simpl; intros H.
  - constructor; [intros []|constructor].
  - destruct (String.eqb_spec k' w) as [->|Hne]; simpl; [exact H|].
    inversion H as [|? ? Hnot Hd]; subst. constructor; [|apply IH, Hd].
    rewrite bump_keys. intros [->|Hin]; [congruence | contradiction].
Qed.

Lemma tally_of_entry (k : string) (n : Z) (d : freq) :
  NoDup (map fst d) -> In (k, n) d -> tally k d = n.
Proof.
  induction d as [|[k' n'] d IH]; simpl; intros Hnd Hin; [contradiction|].
  inversion Hnd as [|? ? Hnot Hd]; subst.
  destruct Hin as [Heq|Hin].
  - injection Heq as -> ->. rewrite String.eqb_refl. reflexivity.
  - destruct (String.eqb_spec k' k) as [->|Hne]; [|apply IH; assumption].
    exfalso. apply Hnot. apply (in_map fst) in Hin. exact Hin.
Qed.

Lemma fold_counted_nodup (words : list string) (d : freq) :
  NoDup (map fst d) -> NoDup (map fst (fold_left counted words d)).
Proof.
  revert d. induction words as [|w ws IH]; intros d H; simpl; [exact H|].
  apply IH. unfold counted. destruct (kept w); [apply bump_nodup|]; exact H.
Qed.

Lemma fold_counted_keys (words : list string) (d : freq) (k : string) :
  In k (map fst (fold_left counted words d)) ->
  In k (map fst d) \/ (In k words /\ kept k = true).
Proof.
  revert d. induction words as [|w ws IH]; intros d; simpl; [tauto|].
  intros H. apply IH in H. destruct H as [H|[H1 H2]]; [|right; tauto].
  unfold counted in H. destruct (kept w) eqn:E; [|left; exact H].
  apply bump_keys in H. destruct H as [->|H]; [right; tauto | left; exact H].
Qed.

Lemma fold_counted_tally (words : list string) (d : freq) (k : string) :
  kept k = true ->
  tally k (fold_left counted words d)
  = tally k d + Z.of_nat (count_occ string_dec words k).
Proof.
  intros Hk. revert d. induction words as [|w ws IH]; intros d; simpl; [lia|].
  rewrite IH. unfold counted.
  destruct (string_dec w k) as [->|Hne].
  - rewrite Hk, tally_bump, String.eqb_refl. lia.
  - destruct (kept w); [|lia]. rewrite tally_bump.
    destruct (String.eqb_spec w k); [congruence | lia].
Qed.

(** ** [sorted(..., reverse=True)] *)

Lemma insert_desc_perm (x : string * Z) (l : list (string * Z)) :
  Permutation (insert_desc x l) (x :: l).
Proof.
  induction l as [|y l IH]; simpl; [reflexivity|].
  destruct (snd y <? snd x); [reflexivity|].
  rewrite IH. apply perm_swap.
Qed.

Lemma insert_desc_sorted (x : string * Z) (l : list (string * Z)) :
  StronglySorted by_count l -> StronglySorted by_count (insert_desc x l).
Proof.
  induction l as [|y l IH]; simpl; intros H.
  - constructor; constructor.
  - inversion H as [|? ? Hl Hy]; subst.
    destruct (Z.ltb_spec (snd y) (snd x)) as [Hlt|Hge].
    + constructor; [exact H|]. constructor; [unfold by_count; lia|].
      rewrite Forall_forall in *. intros z Hz. specialize (Hy z Hz).
      unfold by_count in *. lia.
    + constructor; [apply IH, Hl|].
      rewrite Forall_forall in *. intros z Hz.
      apply (Permutation_in _ (insert_desc_perm x l)) in Hz.
      destruct Hz as [<-|Hz]; [exact Hge | apply Hy, Hz].
Qed.

Lemma sorted_desc_spec (d : freq) :
  Permutation (sorted_desc d) d /\ StronglySorted by_count (sorted_desc d).
Proof.
  unfold sorted_desc.
  assert (forall acc,
            StronglySorted by_count acc ->
            Permutation (fold_left (fun acc x => insert_desc x acc) d acc)
              (d ++ acc)
            /\ StronglySorted by_count
                 (fold_left (fun acc x => insert_desc x acc) d acc)) as H.
  { induction d as [|x d IH]; intros acc Hacc; simpl; [split; auto|].
    destruct (IH (insert_desc x acc) (insert_desc_sorted x acc Hacc))
      as [Hp Hs].
    split; [|exact Hs]. rewrite Hp, insert_desc_perm.
    symmetry. apply Permutation_middle. }
  destruct (H [] (SSorted_nil _)) as [Hp Hs]. rewrite app_nil_r in Hp.
  split; assumption.
Qed.

Lemma in_firstn {A : Type} (n : nat) (l : list A) (x : A) :
  In x (firstn n l) -> In x l.
Proof.
  revert n. induction l as [|y l IH]; intros n; destruct n; simpl; try tauto.
  intros [H|H]; [left; exact H | right; apply (IH n), H].
Qed.

Lemma firstn_sorted {A : Type} (R : A -> A -> Prop) (n : nat) (l : list A) :
  StronglySorted R l -> StronglySorted R (firstn n l).
Proof.
  revert n. induction l as [|x l IH]; intros n H; destruct n; simpl;
    try constructor.
  - inversion H; subst. apply IH. assumption.
  - inversion H as [|? ? _ Hx]; subst. rewrite Forall_forall in *.
    intros y Hy. apply Hx. apply (in_firstn n l). exact Hy.
Qed.

Lemma firstn_nodup {A : Type} (n : nat) (l : list A) :
  NoDup l -> NoDup (firstn n l).
Proof.
  revert n. induction l as [|x l IH]; intros n H; destruct n; simpl;
    try constructor.
  - inversion H; subst. intros Hin. apply in_firstn in Hin. contradiction.
  - inversion H; subst. apply IH. assumption.
Qed.

Lemma list_prefix_length {A : Type} (l : list A) (n : Z) :
  0 <= n -> Z.of_nat (List.length (list_prefix l n)) <= n.
Proof.
  intros H. unfold list_prefix, Py.clamp.
  replace (n <? 0) with false by (symmetry; apply Z.ltb_ge; lia).
  rewrite length_firstn. lia.
Qed.

(** X2.  The keywords [extract_keywords_from_text] returns are words of the
    lowered text, longer than three characters and outside the stop words;
    no keyword is returned twice; for [max_keywords >= 0] there are at most
    [max_keywords]; and they come in order of non-increasing number of
    occurrences in the text. *)
Theorem extracted_keywords_are_ranked_words (text : string) (max_keywords : Z) :
  let words := Py.word_runs "" (Py.lower text) in
  let result := extract_keywords_from_text text max_keywords in
  (forall w, In w result ->
     In w words /\ 3 < Py.len w /\ mem w stop_words = false)
  /\ NoDup result
  /\ (0 <= max_keywords -> Z.of_nat (List.length result) <= max_keywords)
  /\ StronglySorted
       (fun a b => (count_occ string_dec words b <= count_occ string_dec words a)%nat)
       result.
Proof.
  intros words result.
  set (d := count_frequencies words).
  assert (d = fold_left counted words []) as Hd by reflexivity.
  destruct (sorted_desc_spec d) as [Hperm Hsorted].
  assert (NoDup (map fst d)) as Hnd
    by (rewrite Hd; apply fold_counted_nodup; constructor).
  assert (forall k, In k (map fst d) -> In k words /\ kept k = true) as Hkeys.
  { intros k Hk. rewrite Hd in Hk. apply fold_counted_keys in Hk.
    destruct Hk as [[]|Hk]. exact Hk. }
  assert (forall k n, In (k, n) (sorted_desc d) ->
            n = Z.of_nat (count_occ string_dec words k)) as Hcount.
  { intros k n Hin. apply (Permutation_in _ Hperm) in Hin.
    assert (kept k = true) as Hk
      by (apply Hkeys; apply (in_map fst) in Hin; exact Hin).
    rewrite <- (tally_of_entry k n d Hnd Hin), Hd.
    rewrite (fold_counted_tally words [] k Hk). reflexivity. }
  assert (result
          = map fst (firstn (Z.to_nat (Py.clamp
                                         (Z.of_nat (List.length (sorted_desc d)))
                                         max_keywords))
                       (sorted_desc d))) as Hres by reflexivity.
  set (top := firstn _ (sorted_desc d)) in Hres.
  assert (forall p, In p top -> In p (sorted_desc d)) as Htop
    by (intros p; apply in_firstn).
  split; [|split; [|split]].
  - intros w Hw. rewrite Hres in Hw. apply in_map_iff in Hw.
    destruct Hw as [[k n] [<- Hin]]. simpl.
    apply Htop in Hin. apply (Permutation_in _ Hperm) in Hin.
    apply (in_map fst) in Hin. destruct (Hkeys _ Hin) as [Hwords Hkept].
    apply andb_prop in Hkept. destruct Hkept as [Hlen Hstop].
    split; [exact Hwords|]. split; [apply Z.ltb_lt, Hlen|].
    apply negb_true_iff, Hstop.
  - rewrite Hres. unfold top. rewrite <- firstn_map. apply firstn_nodup.
    apply (Permutation_NoDup (l := map fst d)); [|exact Hnd].
    apply Permutation_map. symmetry. exact Hperm.
  - intros Hmax. unfold result, extract_keywords_from_text.
    rewrite length_map. apply list_prefix_length. exact Hmax.
  - rewrite Hres.
    assert (StronglySorted by_count top) as Hs by (apply firstn_sorted, Hsorted).
    assert (forall k n, In (k, n) top ->
              n = Z.of_nat (count_occ string_dec words k)) as Hc
      by (intros k n Hin; apply Hcount, Htop, Hin).
    clear Hres Htop. induction top as [|[k n] top IH]; simpl; [constructor|].
    inversion Hs as [|? ? Hs' Hall]; subst.
    constructor.
    + apply IH; [exact Hs'|]. intros k' n' Hin. apply Hc. right. exact Hin.
    + rewrite Forall_forall in *. intros w Hw. apply in_map_iff in Hw.
      destruct Hw as [[k' n'] [<- Hin]]. simpl.
      specialize (Hall _ Hin). unfold by_count in Hall. simpl in Hall.
      rewrite (Hc k n (or_introl eq_refl)) in Hall.
      rewrite (Hc k' n' (or_intror Hin)) in Hall. lia.
Qed.

(** Two keywords asked of a sentence with four candidates. *)
Lemma extracted_keywords_are_ranked_words_witness :
  Z.of_nat
    (List.length
       (extract_keywords_from_text
          "Remote policy: remote teams follow the remote work policy." 2))
  <= 2.
Proof.
  apply (proj1 (proj2 (proj2 (extracted_keywords_are_ranked_words
    "Remote policy: remote teams follow the remote work policy." 2)))).
  lia.
Defined.

End WordFacts.

(* ===================================================================== *)
(** * Retry with backoff: the attempts are bounded                       *)
(* ===================================================================== *)

Module RetryBound.
Import Runtime Retry.

Lemma waits_length (env : Env) (exponential_base : Q) (jitter : bool)
  (n t : nat) (delay : Q) :
  List.length (Claims.waits env exponential_base jitter n t delay) = n.
Proof.
  revert t delay. induction n as [|k IH]; intros t d; simpl;
    [|rewrite IH]; reflexivity.
Qed.

(** Whatever the operation does, the loop ends after at most
    [max_retries - num_retries] retries. *)
Lemma retry_loop_ends {A : Type} (env : Env) (operation : nat -> result A)
  (max_retries : Z) (exponential_base : Q) (jitter : bool) (n : nat) :
  forall (fuel : nat) (num_retries : Z) (delay : Q) (s : state),
    Z.to_nat (max_retries - num_retries) = n ->
    (n < fuel)%nat ->
    let outcome :=
      retry_loop env (Claims.attempt operation) max_retries exponential_base
        jitter fuel num_retries delay s in
    exists k,
      (k <= n)%nat
      /\ outcome <> Diverge
      /\ Claims.trace_of outcome
         = (trace s
              ++ Claims.retry_events env exponential_base jitter k (tick s)
                   delay)%list.
Proof.
  induction n as [|n IH]; intros fuel r d s Hn Hfuel;
    (destruct fuel as [|fuel]; [lia|]); cbv zeta;
    destruct (operation (tick s)) as [v|e] eqn:Hop.
  - rewrite (RetryFacts.retry_loop_success _ _ _ _ _ _ _ _ _ _ Hop).
    exists 0%nat. split; [lia|]. split; [discriminate | reflexivity].
  - rewrite (RetryFacts.retry_loop_last _ _ _ _ _ _ _ _ _ _ Hop) by lia.
    exists 0%nat. split; [lia|]. split; [discriminate | reflexivity].
  - rewrite (RetryFacts.retry_loop_success _ _ _ _ _ _ _ _ _ _ Hop).
    exists 0%nat. split; [lia|]. split; [discriminate | reflexivity].
  - rewrite (RetryFacts.retry_loop_step _ _ _ _ _ _ _ _ _ _ Hop) by lia.
    destruct (IH fuel (r + 1)
                (Claims.recomputed env exponential_base jitter (S (tick s)) d)
                (Claims.after_wait env exponential_base jitter d s))
      as [k [Hk [Hnd Htr]]]; [lia | lia |].
    cbv zeta in Hnd, Htr.
    exists (S k). split; [lia|]. split; [exact Hnd|].
    rewrite Htr, RetryFacts.tick_after_wait. simpl.
    apply (RetryFacts.trace_after_wait env exponential_base jitter d s k).
Qed.

(** X3.  Whatever the operation does at each call, the wrapper ends: it
    calls the operation at least once and at most [max_retries + 1] times
    (once when [max_retries] is negative), and waits once between two
    consecutive calls and at no other time. *)
Theorem retry_attempts_are_bounded {A : Type} (env : Env)
  (operation : nat -> result A) (max_retries : Z)
  (initial_delay exponential_base : Q) (jitter : bool) (fuel : nat)
  (s : state) :
  (Z.to_nat max_retries < fuel)%nat ->
  let outcome :=
    wrapper env (Claims.attempt operation) max_retries initial_delay
      exponential_base jitter fuel s in
  let calls := Claims.calls_of (Claims.new_events s outcome) in
  outcome <> Diverge
  /\ (1 <= calls <= Z.to_nat max_retries + 1)%nat
  /\ S (List.length (Claims.sleeps_of (Claims.new_events s outcome))) = calls.
Proof.
  intros Hfuel outcome calls.
  destruct (retry_loop_ends env operation max_retries exponential_base jitter
              (Z.to_nat max_retries) fuel 0 initial_delay s)
    as [k [Hk [Hnd Htr]]]; [f_equal; lia | exact Hfuel |].
  cbv zeta in Hnd, Htr.
  assert (Claims.new_events s outcome
          = Claims.retry_events env exponential_base jitter k (tick s)
              initial_delay) as Hev
    by (apply RetryFacts.new_events_app; exact Htr).
  split; [exact Hnd|]. unfold calls. rewrite Hev.
  rewrite RetryFacts.calls_of_retry_events, RetryFacts.sleeps_of_retry_events,
    waits_length.
  split; [lia | reflexivity].
Qed.

(** Five retries of the operation that answers at its third call. *)
Lemma retry_attempts_are_bounded_witness :
  (1 <= Claims.calls_of
          (Claims.new_events initial_state
             (wrapper Stubs.refusing_env
                (Claims.attempt Stubs.third_time_lucky) 5 1%Q 2%Q true 6
                initial_state))
   <= Z.to_nat 5 + 1)%nat.
Proof.
  apply (retry_attempts_are_bounded Stubs.refusing_env Stubs.third_time_lucky
           5 1%Q 2%Q true 6 initial_state).
  simpl. lia.
Defined.

End RetryBound.

(* ===================================================================== *)
(** * Source Fetcher: fetching and scraping                              *)
(* ===================================================================== *)

Module FetchFacts.
Import Runtime WebScraper Notions.

(** The download is the only request, and the function returns. *)
Lemma get_website_text_content_returns (env : Env) (url : string) (s : state) :
  exists text_content,
    get_website_text_content env url s
    = Ret text_content (record (EvFetch url) s).
Proof.
  unfold get_website_text_content, try_except, bind, trafilatura_fetch_url,
    request, lift, ret, raise.
  destruct (fetch_url env (tick s) url) as [[downloaded|]|e]; simpl;
    [|eexists; reflexivity..].
  destruct downloaded as [|c d]; simpl; [eexists; reflexivity|].
  destruct (extract env (String c d)) as [[t|]|e]; simpl;
    [|eexists; reflexivity..].
  destruct t; eexists; reflexivity.
Qed.

(** X4.  [get_website_text_content] never raises: after one download it
    returns a text, which is empty unless the download gave a non-empty
    document whose extraction returned without raising, and which is then
    the extracted text. *)
Theorem get_website_text_content_never_raises (env : Env) (url : string)
  (s : state) :
  exists text_content,
    get_website_text_content env url s
    = Ret text_content (record (EvFetch url) s)
    /\ (text_content <> "" ->
        exists downloaded,
          fetch_url env (tick s) url = Ok (Some downloaded)
          /\ downloaded <> ""
          /\ extract env downloaded = Ok (Some text_content))
    /\ (forall downloaded extracted,
          fetch_url env (tick s) url = Ok (Some downloaded) ->
          downloaded <> "" ->
          extract env downloaded = Ok (Some extracted) ->
          text_content = extracted).
Proof.
  unfold get_website_text_content, try_except, bind, trafilatura_fetch_url,
    request, lift, ret, raise.
  destruct (fetch_url env (tick s) url) as [[downloaded|]|e] eqn:F; simpl.
  - destruct downloaded as [|c d]; simpl.
    + exists "". split; [reflexivity|]. split; [congruence|].
      intros ? ? H. injection H as <-. congruence.
    + destruct (extract env (String c d)) as [[t|]|e] eqn:X; simpl.
      * destruct t as [|c' t]; simpl.
        -- exists "". split; [reflexivity|]. split; [congruence|].
           intros ? ? H _ H'. injection H as <-. congruence.
        -- exists (String c' t). split; [reflexivity|]. split.
           ++ intros _. exists (String c d). repeat split; congruence.
           ++ intros ? ? H _ H'. injection H as <-. congruence.
      * exists "". split; [reflexivity|]. split; [congruence|].
        intros ? ? H _ H'. injection H as <-. congruence.
      * exists "". split; [reflexivity|]. split; [congruence|].
        intros ? ? H _ H'. injection H as <-. congruence.
  - exists "". split; [reflexivity|]. split; [congruence|]. congruence.
  - exists "". split; [reflexivity|]. split; [congruence|]. congruence.
Qed.

(** A page that downloads and extracts. *)
Lemma get_website_text_content_never_raises_witness :
  exists text_content,
    get_website_text_content (Stubs.stub_env Stubs.canned Stubs.no_json)
      "https://example.org/remote" initial_state
    = Ret text_content
        (record (EvFetch "https://example.org/remote") initial_state)
    /\ text_content = Stubs.page_text.
Proof.
  destruct (get_website_text_content_never_raises
              (Stubs.stub_env Stubs.canned Stubs.no_json)
              "https://example.org/remote" initial_state)
    as [t [H [_ Hext]]].
  exists t. split; [exact H|].
  apply (Hext "<html>page</html>" Stubs.page_text);
    [reflexivity | discriminate | reflexivity].
Defined.

(** One turn of the loop of [scrape_multiple_sources]. *)
Lemma scrape_step (env : Env) (url : string) (rest : list string) (s : state) :
  exists content,
    let delay := (1 + (3 - 1) * random_random env (S (tick s)))%Q in
    let s1 := slept delay (record EvRandom (record (EvFetch url) s)) in
    let found := if Py.truthy content then [(url, content)] else [] in
    scrape_multiple_sources env (url :: rest) s
    = match scrape_multiple_sources env rest s1 with
      | Ret more s' => Ret (found ++ more)%list s'
      | Exc e s' => Exc e s'
      | Diverge => Diverge
      end.
Proof.
  destruct (get_website_text_content_returns env url s) as [content Hget].
  exists content. cbv zeta. simpl.
  unfold bind at 1. unfold try_except. unfold bind at 1. rewrite Hget.
  unfold uniform, random, request, bind, sleep, ret. simpl. reflexivity.
Qed.

Lemma subsequence_skip (l1 l2 : list string) (y : string) :
  subsequence l1 l2 -> subsequence l1 (y :: l2).
Proof. destruct l1; simpl; [tauto|]. intros H. right. exact H. Qed.

(** X5.  [scrape_multiple_sources] never raises.  It returns pairs of a URL
    and a non-empty text, for URLs of the list in the order of the list, and
    pauses once for each URL of the list, whether or not its page gave a
    text; with a generator of numbers in [0, 1) every pause lasts at least
    one second and at most three. *)
Theorem scrape_multiple_sources_is_polite (env : Env) (urls : list string)
  (s : state) :
  exists results s',
    scrape_multiple_sources env urls s = Ret results s'
    /\ subsequence (map fst results) urls
    /\ Forall (fun p => snd p <> "") results
    /\ List.length (Claims.sleeps_of (Claims.new_events s (Ret results s')))
       = List.length urls
    /\ (unit_interval env ->
        Forall (fun d => (1 <= d)%Q /\ (d <= 3)%Q)
          (Claims.sleeps_of (Claims.new_events s (Ret results s')))).
Proof.
  assert (forall urls s,
            exists results s' evs,
              scrape_multiple_sources env urls s = Ret results s'
              /\ trace s' = (trace s ++ evs)%list
              /\ subsequence (map fst results) urls
              /\ Forall (fun p => snd p <> "") results
              /\ List.length (Claims.sleeps_of evs) = List.length urls
              /\ (unit_interval env ->
                  Forall (fun d => (1 <= d)%Q /\ (d <= 3)%Q)
                    (Claims.sleeps_of evs))) as H.
  { clear urls s. induction urls as [|url rest IH]; intros s.
    - exists [], s, []. simpl. rewrite app_nil_r.
      repeat split; try constructor.
    - destruct (scrape_step env url rest s) as [content Hstep].
      cbv zeta in Hstep.
      destruct (IH (slept (1 + (3 - 1) * random_random env (S (tick s)))
                      (record EvRandom (record (EvFetch url) s))))
        as [more [s' [evs [Hrun [Htr [Hsub [Hne [Hlen Hbound]]]]]]]].
      rewrite Hrun in Hstep.
      eexists. exists s'.
      exists ([EvFetch url; EvRandom;
               EvSleep (1 + (3 - 1) * random_random env (S (tick s)))]
                ++ evs)%list.
      split; [exact Hstep|].
      split; [rewrite Htr; simpl; repeat rewrite <- app_assoc; reflexivity|].
      split.
      { destruct content as [|c content]; simpl.
        - apply subsequence_skip. exact Hsub.
        - left. split; [reflexivity | exact Hsub]. }
      split.
      { destruct content as [|c content]; simpl; [exact Hne|].
        constructor; [simpl; discriminate | exact Hne]. }
      split; [simpl; rewrite Hlen; reflexivity|].
      intros Hunit. simpl. constructor; [|apply Hbound, Hunit].
      destruct (Hunit (S (tick s))) as [H0 H1]. split; lra. }
  destruct (H urls s) as [results [s' [evs [Hrun [Htr Hrest]]]]].
  exists results, s'. split; [exact Hrun|].
  rewrite (RetryFacts.new_events_app s (Ret results s') evs Htr).
  exact Hrest.
Qed.

(** The two stub pages, with the generator that always draws 0. *)
Lemma scrape_multiple_sources_is_polite_witness :
  exists results s',
    scrape_multiple_sources (Stubs.stub_env Stubs.canned Stubs.no_json)
      ["https://example.org/remote"; "https://example.org/hybrid"]
      initial_state
    = Ret results s'
    /\ Forall (fun d => (1 <= d)%Q /\ (d <= 3)%Q)
         (Claims.sleeps_of (Claims.new_events initial_state (Ret results s'))).
Proof.
  destruct (scrape_multiple_sources_is_polite
              (Stubs.stub_env Stubs.canned Stubs.no_json)
              ["https://example.org/remote"; "https://example.org/hybrid"]
              initial_state)
    as [results [s' [H [_ [_ [_ Hb]]]]]].
  exists results, s'. split; [exact H|]. apply Hb.
  intros t. simpl. split; [unfold Qle; simpl; lia | reflexivity].
Defined.

(** ** Searching *)

Lemma flat_map_short {A B : Type} (f : A -> list B) (l : list A) :
  (forall x, List.length (f x) <= 1)%nat ->
  (List.length (flat_map f l) <= List.length l)%nat.
Proof.
  intros H. induction l as [|x l IH]; simpl; [lia|].
  rewrite length_app. specialize (H x). lia.
Qed.

Lemma read_result_short (result : result_element) :
  (List.length (read_result result) <= 1)%nat.
Proof.
  unfold read_result.
  destruct (title_element result); [|simpl; lia].
  destruct (link_element result) as [[href|]|]; simpl; lia.
Qed.

(** X6.  For [num_results >= 0], [search_web] returns at most [num_results]
    results. *)
Theorem search_web_respects_num_results (env : Env) (fuel : nat)
  (query : string) (num_results : Z) (s s' : state)
  (results : list search_result) :
  0 <= num_results ->
  search_web env fuel query num_results s = Ret results s' ->
  Z.of_nat (List.length results) <= num_results.
Proof.
  intros Hn. destruct fuel as [|fuel]; [discriminate|].
  destruct (WebScraperFacts.search_web_body_returns env query num_results s)
    as [found [Hbody _]].
  unfold search_web, Retry.retry_with_exponential_backoff.
  rewrite (WebScraperFacts.wrapper_returns_first_success _ _ _ _ _ _ _ _ _ _
             Hbody).
  intros H. injection H as <- _. clear s'.
  revert Hbody. unfold search_web_body, try_except, bind, http_get, request,
    lift, ret, raise.
  destruct (requests_get env (tick s) _) as [r|e];
    [|intros H; injection H as <-; simpl; lia].
  destruct (negb (status_code r =? 200));
    [intros H; injection H as <-; simpl; lia|].
  destruct (soup_select env (text r)) as [l|e]; simpl;
    [|intros H; injection H as <-; simpl; lia].
  intros H. injection H as <-.
  pose proof (flat_map_short read_result (list_prefix l num_results)
                read_result_short) as Hshort.
  pose proof (WordFacts.list_prefix_length l num_results Hn). lia.
Qed.

(** Three results asked of a page with two. *)
Lemma search_web_respects_num_results_witness :
  exists results s',
    search_web (Stubs.stub_env Stubs.canned Stubs.no_json) 1
      "remote work" 3 initial_state = Ret results s'
    /\ Z.of_nat (List.length results) <= 3.
Proof.
  eexists. eexists. split; [reflexivity|].
  apply (search_web_respects_num_results
           (Stubs.stub_env Stubs.canned Stubs.no_json) 1 "remote work" 3
           initial_state
           (record (EvGet (Claims.search_url "remote work")) initial_state));
    [lia | reflexivity].
Defined.

Lemma mem_In (w : string) (l : list string) :
  Utils.mem w l = true <-> In w l.
Proof.
  unfold Utils.mem. rewrite existsb_exists. split.
  - intros [x [Hin Heq]]. apply String.eqb_eq in Heq. subst. exact Hin.
  - intros H. exists w. split; [exact H | apply String.eqb_refl].
Qed.

Lemma unique_by_link_spec (l : list search_result) :
  forall seen_urls,
    NoDup (map link (unique_by_link seen_urls l))
    /\ (forall r, In r (unique_by_link seen_urls l) ->
          In r l /\ ~ In (link r) seen_urls).
Proof.
  induction l as [|r l IH]; intros seen; simpl.
  - split; [constructor | intros ? []].
  - destruct (Utils.mem (link r) seen) eqn:E.
    + destruct (IH seen) as [Hnd Hin]. split; [exact Hnd|].
      intros x Hx. destruct (Hin x Hx). tauto.
    + destruct (IH (link r :: seen)) as [Hnd Hin]. split.
      * simpl. constructor; [|exact Hnd].
        intros Hdup. apply in_map_iff in Hdup.
        destruct Hdup as [x [Hlink Hx]]. destruct (Hin x Hx) as [_ Hnot].
        apply Hnot. left. symmetry. exact Hlink.
      * intros x [<-|Hx].
        -- split; [left; reflexivity|]. intros Hs.
           apply mem_In in Hs. congruence.
        -- destruct (Hin x Hx) as [H1 H2]. split; [right; exact H1|].
           intros Hs. apply H2. right. exact Hs.
Qed.

(** The searches of [search_latest_hr_trends] never raise. *)
Lemma search_all_returns (env : Env) (fuel : nat) (queries : list string) :
  forall s,
    exists results s',
      search_all env (S fuel) queries s = Ret results s'
      /\ trace s'
         = (trace s
              ++ flat_map (fun query =>
                             [EvGet (Claims.search_url query); EvSleep 2])
                   queries)%list
      /\ tick s' = (tick s + List.length queries)%nat.
Proof.
  induction queries as [|query rest IH]; intros s.
  - exists [], s. simpl. rewrite app_nil_r, Nat.add_0_r. repeat split.
  - destruct (WebScraperFacts.search_web_body_returns env query 3 s)
      as [found [Hbody _]].
    destruct (IH (slept 2 (record (EvGet (Claims.search_url query)) s)))
      as [more [s' [Hrun [Htr Htick]]]].
    exists (found ++ more)%list, s'. split.
    + simpl. unfold bind at 1.
      unfold search_web, Retry.retry_with_exponential_backoff.
      rewrite (WebScraperFacts.wrapper_returns_first_success _ _ _ _ _ _ _ _
                 _ _ Hbody).
      unfold bind at 1. unfold sleep at 1. unfold bind at 1.
      rewrite Hrun. reflexivity.
    + split.
      * rewrite Htr. simpl. repeat rewrite <- app_assoc. reflexivity.
      * rewrite Htick. simpl. lia.
Qed.

(** X7.  [search_latest_hr_trends] never raises.  It reads the year, sends
    six searches, each followed by a pause of two seconds, and returns at
    most ten results, no two of them with the same link. *)
Theorem search_latest_hr_trends_unique (env : Env) (fuel : nat) (s : state) :
  exists results s',
    search_latest_hr_trends env (S fuel) s = Ret results s'
    /\ (List.length results <= 10)%nat
    /\ NoDup (map link results)
    /\ Claims.sleeps_of (Claims.new_events s (Ret results s'))
       = [2%Q; 2%Q; 2%Q; 2%Q; 2%Q; 2%Q]
    /\ List.length
         (filter Claims.is_stage_request
            (Claims.new_events s (Ret results s'))) = 6%nat.
Proof.
  unfold search_latest_hr_trends.
  unfold bind, clock, request. cbv beta iota zeta.
  match goal with
  | |- context [search_all env (S fuel) ?qs ?s1] =>
      destruct (search_all_returns env fuel qs s1)
        as [all_results [s' [Hrun [Htr _]]]]; set (queries := qs) in *
  end.
  rewrite Hrun. unfold ret.
  eexists. exists s'. split; [reflexivity|].
  destruct (unique_by_link_spec all_results []) as [Hnd _].
  split.
  { pose proof (WordFacts.list_prefix_length
                    (unique_by_link [] all_results) 10). lia. }
  split.
  { unfold list_prefix. rewrite <- firstn_map.
    apply WordFacts.firstn_nodup. exact Hnd. }
  assert (Claims.new_events s
            (Ret (list_prefix (unique_by_link [] all_results) 10) s')
          = EvClock :: flat_map (fun query =>
                                   [EvGet (Claims.search_url query); EvSleep 2])
                         queries) as Hev.
  { apply RetryFacts.new_events_app. simpl. rewrite Htr. simpl.
    rewrite <- app_assoc. reflexivity. }
  rewrite Hev. repeat split.
Qed.

End FetchFacts.

(* ===================================================================== *)
(** * Facts about slices                                                 *)
(* ===================================================================== *)

Module SliceFacts.
Import StringFacts.

Lemma concat_snoc (l : list string) (x : string) :
  String.concat "" (l ++ [x])%list = String.concat "" l ++ x.
Proof.
  induction l as [|a l IH]; [reflexivity|].
  destruct l as [|b l]; [reflexivity|].
  change (String.concat "" ((a :: b :: l) ++ [x])%list)
    with (a ++ "" ++ String.concat "" ((b :: l) ++ [x])%list).
  rewrite IH.
  change (String.concat "" (a :: b :: l))
    with (a ++ "" ++ String.concat "" (b :: l)).
  simpl append. rewrite append_assoc. reflexivity.
Qed.

Lemma substring_drop (a n : nat) (s : string) :
  substring a n s = substring 0 n (Py.drop a s).
Proof.
  revert s. induction a as [|a IH]; intros s; [reflexivity|].
  destruct s as [|c s]; simpl; [destruct n; reflexivity | apply IH].
Qed.

Lemma take_zero (s : string) : substring 0 0 s = "".
Proof. destruct s; reflexivity. Qed.

Lemma take_drop (n : nat) (s : string) :
  substring 0 n s ++ Py.drop n s = s.
Proof.
  revert s. induction n as [|n IH]; intros s; [rewrite take_zero; reflexivity|].
  destruct s as [|c s]; simpl; [reflexivity | rewrite IH; reflexivity].
Qed.

Lemma drop_drop (a b : nat) (s : string) :
  Py.drop a (Py.drop b s) = Py.drop (b + a) s.
Proof.
  revert s. induction b as [|b IH]; intros s; [reflexivity|].
  destruct s as [|c s]; simpl; [destruct a; reflexivity | apply IH].
Qed.

Lemma take_take (n m : nat) (s : string) :
  substring 0 n s ++ substring 0 m (Py.drop n s) = substring 0 (n + m) s.
Proof.
  revert s. induction n as [|n IH]; intros s; [rewrite take_zero; reflexivity|].
  destruct s as [|c s]; simpl; [destruct m; reflexivity|].
  rewrite IH. reflexivity.
Qed.

Lemma drop_take (k n : nat) (s : string) :
  Py.drop k (substring 0 (k + n) s) = substring 0 n (Py.drop k s).
Proof.
  revert s. induction k as [|k IH]; intros s; [reflexivity|].
  destruct s as [|c s]; simpl; [destruct n; reflexivity | apply IH].
Qed.

Lemma take_length (n : nat) (s : string) :
  String.length (substring 0 n s) = Nat.min n (String.length s).
Proof.
  revert s. induction n as [|n IH]; intros s; [rewrite take_zero; reflexivity|].
  destruct s as [|c s]; simpl; [reflexivity | rewrite IH; reflexivity].
Qed.

Lemma drop_length (n : nat) (s : string) :
  String.length (Py.drop n s) = (String.length s - n)%nat.
Proof.
  revert s. induction n as [|n IH]; intros s; [simpl; lia|].
  destruct s as [|c s]; simpl; [reflexivity | apply IH].
Qed.

Lemma take_all (n : nat) (s : string) :
  (String.length s <= n)%nat -> substring 0 n s = s.
Proof.
  revert s. induction n as [|n IH]; intros s H.
  - destruct s; [reflexivity | simpl in H; lia].
  - destruct s as [|c s]; simpl; [reflexivity|].
    rewrite IH; [reflexivity | simpl in H; lia].
Qed.

(** [s[a:b]] for [0 <= a <= b <= len(s)]. *)
Lemma slice_inside (s : string) (a b : Z) :
  0 <= a -> a <= b -> b <= Py.len s ->
  Py.slice s (Some a) (Some b)
  = substring 0 (Z.to_nat (b - a)) (Py.drop (Z.to_nat a) s).
Proof.
  intros Ha Hab Hb. unfold Py.slice, Py.clamp.
  replace (a <? 0) with false by (symmetry; apply Z.ltb_ge; lia).
  replace (b <? 0) with false by (symmetry; apply Z.ltb_ge; lia).
  rewrite !Z.min_l by lia.
  destruct (Z.leb_spec b a) as [Hle|Hlt].
  - replace (b - a) with 0 by lia. rewrite take_zero. reflexivity.
  - apply substring_drop.
Qed.

(** [s[a:]] for [0 <= a <= len(s)]. *)
Lemma slice_from (s : string) (a : Z) :
  0 <= a -> a <= Py.len s ->
  Py.slice s (Some a) None = Py.drop (Z.to_nat a) s.
Proof.
  intros Ha Hb. unfold Py.slice, Py.clamp.
  replace (a <? 0) with false by (symmetry; apply Z.ltb_ge; lia).
  rewrite Z.min_l by lia.
  destruct (Z.leb_spec (Py.len s) a) as [Hle|Hlt].
  - assert (String.length (Py.drop (Z.to_nat a) s) = 0%nat) as H0
      by (rewrite drop_length; unfold Py.len in *; lia).
    destruct (Py.drop (Z.to_nat a) s); [reflexivity | discriminate].
  - rewrite substring_drop. apply take_all. rewrite drop_length.
    unfold Py.len in *. lia.
Qed.

(** [s[:b]] for [0 <= b <= len(s)]. *)
Lemma slice_upto (s : string) (b : Z) :
  0 <= b -> b <= Py.len s ->
  Py.slice s None (Some b) = substring 0 (Z.to_nat b) s.
Proof.
  intros Ha Hb. unfold Py.slice, Py.clamp.
  replace (b <? 0) with false by (symmetry; apply Z.ltb_ge; lia).
  rewrite Z.min_l by lia.
  destruct (Z.leb_spec b 0) as [Hle|Hlt].
  - replace b with 0 by lia. rewrite take_zero. reflexivity.
  - rewrite Z.sub_0_r. reflexivity.
Qed.

(** The bounds of what [rfind] finds. *)
Lemma rfind_scan_bounds (sub s : string) :
  forall i lo hi acc,
    let r := Py.rfind_scan sub s i lo hi acc in
    r = acc \/ (lo <= r /\ r + Py.len sub <= hi).
Proof.
  induction s as [|c s IH]; intros i lo hi acc; simpl.
  - destruct (_ && _)%bool eqn:E; [|left; reflexivity].
    right. apply andb_prop in E. destruct E as [E _].
    apply andb_prop in E. destruct E as [E1 E2]. lia.
  - match goal with
    | |- context [Py.rfind_scan sub s (i + 1) lo hi ?a] =>
        destruct (IH (i + 1) lo hi a) as [H|H]; cbv zeta in H
    end; [|right; exact H].
    rewrite H. destruct (_ && _)%bool eqn:E; [|left; reflexivity].
    right. apply andb_prop in E. destruct E as [E _].
    apply andb_prop in E. destruct E as [E1 E2]. lia.
Qed.

Lemma rfind_bounds (s sub : string) (start stop : Z) :
  0 <= start -> 0 <= stop -> stop <= Py.len s ->
  let r := Py.rfind s sub start stop in
  r = -1 \/ (start <= r /\ r + Py.len sub <= stop).
Proof.
  intros Hs H0 He. unfold Py.rfind.
  replace (Py.len s <? stop) with false by (symmetry; apply Z.ltb_ge; lia).
  replace (start <? 0) with false by (symmetry; apply Z.ltb_ge; lia).
  destruct (Z.ltb_spec stop 0) as [Hneg|Hpos].
  - lia.
  - destruct (rfind_scan_bounds sub s 0 start stop (-1)) as [H|H];
      cbv zeta in *; [left; exact H | right; exact H].
Qed.

End SliceFacts.

Module ChunkFacts.
Import Utils StringFacts SliceFacts.

(** A chunk that is not the last one ends at least two characters after
    its start and inside its window. *)
Lemma chunk_end_bounds (text : string) (max_chars start : Z) :
  4 <= max_chars -> 0 <= start -> start + max_chars <= Py.len text ->
  start + 2 <= chunk_end text max_chars start <= start + max_chars.
Proof.
  intros Hm Hs Hl. unfold chunk_end. cbv zeta.
  assert (0 <= max_chars / 2) by (apply Z.div_pos; lia).
  assert (0 <= max_chars / 3) by (apply Z.div_pos; lia).
  destruct (Z.ltb_spec (start + max_chars / 2)
              (Py.rfind text (Py.nl ++ Py.nl) start (start + max_chars)))
    as [Hp|Hp].
  { destruct (rfind_bounds text (Py.nl ++ Py.nl) start (start + max_chars))
      as [E|[E1 E2]]; cbv zeta in *; try lia.
    change (Py.len (Py.nl ++ Py.nl)) with 2 in E2. lia. }
  destruct (Z.ltb_spec (start + max_chars / 3)
              (Py.rfind text ". " start (start + max_chars))) as [Hq|Hq].
  { destruct (rfind_bounds text ". " start (start + max_chars))
      as [E|[E1 E2]]; cbv zeta in *; try lia.
    change (Py.len ". ") with 2 in E2. lia. }
  destruct (Z.ltb_spec start (Py.rfind text " " start (start + max_chars)))
    as [Hr|Hr].
  { destruct (rfind_bounds text " " start (start + max_chars))
      as [E|[E1 E2]]; cbv zeta in *; try lia.
    change (Py.len " ") with 1 in E2. lia. }
  lia.
Qed.

Lemma reassemble_snoc (overlap : Z) (chunks : list string) (c : string) :
  chunks <> [] ->
  Claims.reassemble overlap (chunks ++ [c])
  = Claims.reassemble overlap chunks ++ Py.drop (Z.to_nat overlap) c.
Proof.
  destruct chunks as [|a l]; [congruence|]. intros _.
  change (a ++ String.concat "" (map (Py.drop (Z.to_nat overlap)) (l ++ [c])%list)
          = (a ++ String.concat "" (map (Py.drop (Z.to_nat overlap)) l))
            ++ Py.drop (Z.to_nat overlap) c).
  rewrite map_app. simpl map.
  rewrite concat_snoc, append_assoc. reflexivity.
Qed.

Section Loop.

Variables (text : string) (max_chars overlap : Z).
Hypothesis window : 4 <= max_chars.
Hypothesis small_overlap : 0 <= overlap <= 1.

Lemma split_loop_covers (n : nat) :
  forall (fuel : nat) (start : Z) (chunks : list string),
    Py.len text - start <= Z.of_nat n -> (n <= fuel)%nat ->
    0 <= start < Py.len text ->
    (chunks = [] /\ start = 0
     \/ chunks <> [] /\ start + overlap <= Py.len text
        /\ Claims.reassemble overlap chunks
           = substring 0 (Z.to_nat (start + overlap)) text) ->
    Forall (fun c => 1 <= Py.len c <= max_chars) chunks ->
    exists result,
      split_loop fuel text max_chars overlap start chunks = Some result
      /\ Claims.reassemble overlap result = text
      /\ Forall (fun c => 1 <= Py.len c <= max_chars) result.
Proof.
  induction n as [|n IH]; intros fuel start chunks Hn Hf Hs Hinv Hall; [lia|].
  destruct fuel as [|fuel]; [lia|]. simpl split_loop.
  replace (start <? Py.len text) with true by (symmetry; apply Z.ltb_lt; lia).
  destruct (Z.leb_spec (Py.len text) (start + max_chars)) as [Hlast|Hmore].
  - eexists. split; [reflexivity|].
    rewrite slice_from by lia. split.
    + destruct Hinv as [[-> ->]|(Hne & Hle & Hre)].
      * simpl. apply append_nil_r.
      * rewrite reassemble_snoc by exact Hne. rewrite Hre, drop_drop.
        replace (Z.to_nat start + Z.to_nat overlap)%nat
          with (Z.to_nat (start + overlap)) by lia.
        apply take_drop.
    + apply Forall_app. split; [exact Hall|]. constructor; [|constructor].
      unfold Py.len in *. rewrite drop_length. lia.
  - pose proof (chunk_end_bounds text max_chars start window
                  ltac:(lia) ltac:(lia)) as He.
    set (e := chunk_end text max_chars start) in *. cbv zeta.
    rewrite slice_inside by lia.
    apply IH; try lia.
    + right. split; [destruct chunks; discriminate|]. split; [lia|].
      replace (e - overlap + overlap) with e by lia.
      destruct Hinv as [[-> ->]|(Hne & Hle & Hre)].
      * simpl. rewrite append_nil_r, Z.sub_0_r. reflexivity.
      * rewrite reassemble_snoc by exact Hne. rewrite Hre.
        replace (Z.to_nat (e - start))
          with (Z.to_nat overlap + Z.to_nat (e - start - overlap))%nat by lia.
        rewrite drop_take, drop_drop.
        replace (Z.to_nat start + Z.to_nat overlap)%nat
          with (Z.to_nat (start + overlap)) by lia.
        rewrite take_take. f_equal. lia.
    + apply Forall_app. split; [exact Hall|]. constructor; [|constructor].
      unfold Py.len in *. rewrite take_length, drop_length. lia.
Qed.

End Loop.

(** X8.  With at least one token per chunk and an overlap of at most one
    character, [split_text_into_chunks] returns: the loop ends within
    [len(text)] evaluations of its test; no chunk is longer than
    [max_tokens * 4] characters; and the chunks, each after the first
    without its first [overlap] characters, give the text back. *)
Theorem split_text_into_chunks_small_overlap
  (text : string) (max_tokens overlap : Z) (fuel : nat) :
  1 <= max_tokens -> 0 <= overlap <= 1 ->
  (String.length text <= fuel)%nat ->
  exists chunks,
    split_text_into_chunks fuel text max_tokens overlap = Some chunks
    /\ chunks <> []
    /\ Claims.reassemble overlap chunks = text
    /\ Forall (fun c => Py.len c <= max_tokens * 4) chunks.
Proof.
  intros Hm Ho Hf. unfold split_text_into_chunks. cbv zeta.
  destruct (Z.leb_spec (Py.len text) (max_tokens * 4)) as [Hshort|Hlong].
  - exists [text]. split; [reflexivity|]. split; [discriminate|].
    split; [simpl; apply append_nil_r|]. constructor; [exact Hshort|constructor].
  - destruct (split_loop_covers text (max_tokens * 4) overlap ltac:(lia) Ho
                (String.length text) fuel 0 [])
      as (result & Hrun & Hre & Hall);
      try (unfold Py.len in *; lia); [left; split; reflexivity | constructor |].
    exists result. split; [exact Hrun|]. split.
    + intros ->. simpl in Hre. subst text. unfold Py.len in Hlong.
      simpl in Hlong. lia.
    + split; [exact Hre|]. eapply Forall_impl; [|exact Hall].
      intros c Hc. simpl in Hc. lia.
Qed.

Lemma split_text_into_chunks_small_overlap_witness :
  exists chunks,
    split_text_into_chunks 50 "One two. Three four five six. Seven eight" 2 1
    = Some chunks
    /\ chunks <> []
    /\ Claims.reassemble 1 chunks
       = "One two. Three four five six. Seven eight"
    /\ Forall (fun c => Py.len c <= 2 * 4) chunks.
Proof.
  apply (split_text_into_chunks_small_overlap
           "One two. Three four five six. Seven eight" 2 1 50);
    [lia | lia | simpl; lia].
Defined.

End ChunkFacts.

(* ===================================================================== *)
(** * agents/review_agent.py, agents/seo_agent.py,
      agents/planning_agent.py: the other branches                       *)
(* ===================================================================== *)

Module ReviewMore.
Import Runtime Review.

(** X9.  When both passes answer and the final document has at least 90%
    of the words of the original, [review_content] returns the answer of
    the final check as it is; the final check was asked about the answer of
    the first pass, and nothing else was requested. *)
Theorem review_content_keeps_final_check (env : Env)
  (content reviewed final : string) (s : state) :
  chain_run env (tick s) content_review_chain [("content", content)]
  = Ok reviewed ->
  chain_run env (S (tick s)) final_check_chain [("content", reviewed)]
  = Ok final ->
  9 * Utils.count_words content <= 10 * Utils.count_words final ->
  review_content env content s
  = Ret final
      (record (EvChain final_check_chain [("content", reviewed)])
         (record (EvChain content_review_chain [("content", content)]) s)).
Proof.
  intros Hfirst Hsecond Hwords.
  unfold review_content, try_except, bind, run, request, ret.
  rewrite Hfirst. simpl. rewrite Hsecond.
  destruct (shrunk (Utils.count_words final) (Utils.count_words content)) eqn:Sh;
    [|reflexivity].
  apply ReviewFacts.shrunk_spec in Sh. lia.
Qed.

Lemma review_content_keeps_final_check_witness :
  review_content (Stubs.stub_env Stubs.canned Stubs.no_json)
    "Short draft." initial_state
  = Ret "Final text."
      (record (EvChain final_check_chain
                 [("content", "Reviewed text of the blog post.")])
         (record (EvChain content_review_chain [("content", "Short draft.")])
            initial_state)).
Proof.
  apply (review_content_keeps_final_check
           (Stubs.stub_env Stubs.canned Stubs.no_json)
           "Short draft." "Reviewed text of the blog post." "Final text."
           initial_state);
    [reflexivity | reflexivity | vm_compute; discriminate].
Defined.

End ReviewMore.

Module SeoMore.
Import Runtime Json Seo.

Ltac run_analysis :=
  unfold try_except, try_except_json, bind, lift, run, request,
    Planning.loads, ret, raise.

Lemma analyze_seo_returns (env : Env) (content topic keywords : string)
  (s : state) :
  exists analysis,
    analyze_seo env content topic keywords s
    = Ret analysis
        (record (EvChain seo_analysis_chain
                   (Claims.analysis_request content topic keywords)) s).
Proof.
  destruct (analyze_seo env content topic keywords s) as [a s1|e s1|] eqn:Run.
  - pose proof (SeoFacts.analyze_seo_one_request _ _ _ _ _ _ _ Run) as ->.
    exists a. reflexivity.
  - exfalso. revert Run. unfold analyze_seo.
    destruct (SeoFacts.density_value_total content (keyword_list_of keywords))
      as [v ->].
    run_analysis.
    destruct (chain_run env (tick s) seo_analysis_chain _) as [answer|e0];
      [|discriminate].
    destruct (json_loads env answer) as [a|].
    + destruct (get a "overall_score" (JStr "N/A")) as [x|e1] eqn:G;
        [|apply SeoFacts.get_raises in G; subst e1; discriminate].
      destruct (add_density a v) as [a'|e1] eqn:D;
        [|apply SeoFacts.add_density_raises in D; subst e1]; discriminate.
    + destruct (json_loads env (Planning.clean_json answer)) as [a|];
        [|discriminate].
      destruct (add_density a v) as [a'|e1] eqn:D;
        [|apply SeoFacts.add_density_raises in D; subst e1]; discriminate.
  - exfalso. revert Run. unfold analyze_seo.
    destruct (SeoFacts.density_value_total content (keyword_list_of keywords))
      as [v ->].
    run_analysis.
    destruct (chain_run env (tick s) seo_analysis_chain _) as [answer|e0];
      [|discriminate].
    destruct (json_loads env answer) as [a|].
    + destruct (get a "overall_score" (JStr "N/A")) as [x|e1] eqn:G;
        [|apply SeoFacts.get_raises in G; subst e1; discriminate].
      destruct (add_density a v) as [a'|e1] eqn:D;
        [|apply SeoFacts.add_density_raises in D; subst e1]; discriminate.
    + destruct (json_loads env (Planning.clean_json answer)) as [a|];
        [|discriminate].
      destruct (add_density a v) as [a'|e1] eqn:D;
        [|apply SeoFacts.add_density_raises in D; subst e1]; discriminate.
Qed.

(** X10.  [analyze_seo] answers on every input after one request: it
    neither raises nor runs on.  When the request raises, the analysis is
    the error record, whose score is 0; when the answer parses neither as
    it is nor cleaned, it is the record of an answer that cannot be
    assessed, whose score is 50. *)
Theorem analyze_seo_always_answers (env : Env)
  (content topic keywords : string) (s : state) :
  exists analysis density,
    analyze_seo env content topic keywords s
    = Ret analysis
        (record (EvChain seo_analysis_chain
                   (Claims.analysis_request content topic keywords)) s)
    /\ density_value content (keyword_list_of keywords) = Ok density
    /\ (forall e,
          chain_run env (tick s) seo_analysis_chain
            (Claims.analysis_request content topic keywords) = Raise e ->
          analysis = failed_analysis density content
          /\ get analysis "overall_score" (JInt 0) = Ok (JInt 0))
    /\ (forall answer,
          chain_run env (tick s) seo_analysis_chain
            (Claims.analysis_request content topic keywords) = Ok answer ->
          json_loads env answer = None ->
          json_loads env (Planning.clean_json answer) = None ->
          analysis = unparsed_analysis density content
          /\ get analysis "overall_score" (JInt 0) = Ok (JInt 50)).
Proof.
  destruct (analyze_seo_returns env content topic keywords s) as [a Run].
  destruct (SeoFacts.density_value_total content (keyword_list_of keywords))
    as [v Hv].
  exists a, v. split; [exact Run|]. split; [exact Hv|].
  revert Run. unfold analyze_seo, Claims.analysis_request. rewrite Hv.
  run_analysis.
  split.
  - intros e He. rewrite He in Run. simpl in Run.
    injection Run as <-. split; reflexivity.
  - intros answer Ha Hraw Hclean. rewrite Ha, Hraw in Run.
    rewrite Hclean in Run. simpl in Run.
    injection Run as <-. split; reflexivity.
Qed.

(** X11.  [optimize_content] returns a document on every input, after at
    most two requests: the content as it came, the content with the two
    local edits, or the answer to the rewrite request, which is sent with
    the original content right after the analysis.  A rewrite request that
    raises leaves the content as it came. *)
Theorem optimize_content_always_returns (env : Env)
  (content topic keywords : string) (s : state) :
  let asked :=
    record (EvChain seo_analysis_chain
              (Claims.analysis_request content topic keywords)) s in
  let rewritten :=
    record (EvChain seo_optimization_chain
              (Claims.analysis_request content topic keywords)) asked in
  exists document s',
    optimize_content env content topic keywords s = Ret document s'
    /\ ((s' = asked
         /\ (document = content
             \/ document
                = _optimize_headings
                    (_add_internal_linking_suggestions content topic)
                    topic keywords))
        \/ (s' = rewritten
            /\ match chain_run env (S (tick s)) seo_optimization_chain
                       (Claims.analysis_request content topic keywords) with
               | Ok answer => document = answer
               | Raise _ => document = content
               end)).
Proof.
  cbv zeta.
  destruct (analyze_seo_returns env content topic keywords s) as [a Run].
  unfold optimize_content, try_except, bind, lift. rewrite Run.
  destruct (get a "overall_score" (JInt 0)) as [score|e];
    [|do 2 eexists; split; [reflexivity|]; left; split; auto].
  simpl.
  destruct (greater score 85) as [[|]|e];
    [| |do 2 eexists; split; [reflexivity|]; left; split; auto].
  - do 2 eexists. split; [reflexivity|]. left. split; auto.
  - unfold run, request, ret, raise, Claims.analysis_request. simpl.
    destruct (chain_run env (S (tick s)) seo_optimization_chain _)
      as [answer|e]; do 2 eexists; (split; [reflexivity|]); right;
      split; reflexivity.
Qed.

(** X12.  [_optimize_headings] changes nothing in a content without [#],
    and nothing at all when there is neither a keyword nor a topic. *)
Theorem optimize_headings_leaves_plain_text (content topic keywords : string) :
  Py.contains "#" content = false \/ (keywords = "" /\ topic = "") ->
  _optimize_headings content topic keywords = content.
Proof.
  intros [H|[-> ->]]; [|reflexivity].
  unfold _optimize_headings, headings.
  rewrite (SeoFacts.headings_scan_without_hash content H).
  destruct (keyword_list_of keywords); [destruct (Py.truthy topic)|];
    reflexivity.
Qed.

Lemma optimize_headings_leaves_plain_text_witness :
  _optimize_headings "Remote work is here to stay." "Remote Work" "remote, hybrid"
  = "Remote work is here to stay.".
Proof.
  apply (optimize_headings_leaves_plain_text
           "Remote work is here to stay." "Remote Work" "remote, hybrid").
  left. reflexivity.
Defined.

(** What [read_literal] reads is the literal, up to case. *)
Lemma read_literal_split (lit : string) :
  forall (s rest : string) (prev last : option ascii),
    Py.read_literal true lit s prev = Some (rest, last) ->
    exists mention,
      s = mention ++ rest
      /\ String.length mention = String.length lit
      /\ Py.lower mention = Py.lower lit.
Proof.
  induction lit as [|a lit IH]; intros s rest prev last H; simpl in H.
  - injection H as <- _. exists "". repeat split.
  - destruct s as [|c s]; [discriminate|].
    destruct (Py.eqb_ci a c) eqn:E; [|discriminate].
    destruct (IH _ _ _ _ H) as (m & -> & Hlen & Hlow).
    exists (String c m). split; [reflexivity|]. split; [simpl; congruence|].
    simpl. f_equal; [|exact Hlow].
    symmetry. apply Ascii.eqb_eq. exact E.
Qed.

Lemma take_app (a b : string) : substring 0 (String.length a) (a ++ b) = a.
Proof.
  induction a as [|c a IH]; simpl; [apply SliceFacts.take_zero|].
  rewrite IH. reflexivity.
Qed.

Lemma drop_app (a b : string) : Py.drop (String.length a) (a ++ b) = b.
Proof. induction a as [|c a IH]; simpl; [reflexivity | exact IH]. Qed.

Lemma length_append (a b : string) :
  String.length (a ++ b) = (String.length a + String.length b)%nat.
Proof. induction a as [|c a IH]; simpl; [reflexivity | rewrite IH; reflexivity]. Qed.

(** The span [re.search] reports frames an occurrence of the literal. *)
Lemma search_word_span (lit : string) (s : string) :
  forall (i : Z) (prev : option ascii) (start stop : Z),
    Py.search_word true lit i prev s = Some (start, stop) ->
    exists before mention after,
      s = before ++ mention ++ after
      /\ start = i + Py.len before
      /\ stop = start + Py.len mention
      /\ Py.lower mention = Py.lower lit.
Proof.
  induction s as [|c s IH]; intros i prev start stop H.
  - simpl in H. destruct (Py.match_word true lit prev "") eqn:M; [|discriminate].
    injection H as <- <-. unfold Py.match_word in M.
    apply andb_prop in M. destruct M as [_ M].
    destruct (Py.read_literal true lit "" prev) as [[rest last]|] eqn:R;
      [|discriminate].
    destruct (read_literal_split _ _ _ _ _ R) as (m & Hs & Hlen & Hlow).
    exists "", m, rest. split; [exact Hs|]. unfold Py.len. simpl.
    split; [lia|]. split; [lia | exact Hlow].
  - simpl in H. destruct (Py.match_word true lit prev (String c s)) eqn:M.
    + injection H as <- <-. unfold Py.match_word in M.
      apply andb_prop in M. destruct M as [_ M].
      destruct (Py.read_literal true lit (String c s) prev)
        as [[rest last]|] eqn:R; [|discriminate].
      destruct (read_literal_split _ _ _ _ _ R) as (m & Hs & Hlen & Hlow).
      exists "", m, rest. split; [exact Hs|]. unfold Py.len. simpl.
      split; [lia|]. split; [lia | exact Hlow].
    + destruct (IH _ _ _ _ H) as (b & m & a & -> & Hstart & Hstop & Hlow).
      exists (String c b), m, a. split; [reflexivity|].
      unfold Py.len in *. simpl String.length. split; [lia|].
      split; [lia | exact Hlow].
Qed.

Lemma regroup (b m x1 x2 x3 x4 x5 a : string) :
  b ++ (m ++ x1 ++ x2 ++ x3 ++ x4 ++ x5) ++ a
  = b ++ m ++ x1 ++ x2 ++ x3 ++ x4 ++ x5 ++ a.
Proof. rewrite !StringFacts.append_assoc. reflexivity. Qed.

(** One turn of the loop inserts a suggestion after a mention of the
    topic and keeps every character of the content. *)
Lemma link_step_keeps_the_text (topic link_text link_topic c edited : string) :
  link_step topic (link_text, link_topic) c = Some edited ->
  exists before mention after,
    c = before ++ mention ++ after
    /\ Py.lower mention = Py.lower link_text
    /\ edited
       = before ++ mention ++ " [INTERNAL LINK SUGGESTION: " ++ link_text
           ++ " | " ++ link_topic ++ "]" ++ after.
Proof.
  unfold link_step.
  destruct (Py.contains (Py.lower link_text) (Py.lower topic)); [discriminate|].
  destruct (Py.search_word true link_text 0 None c) as [[start stop]|] eqn:S;
    [|discriminate].
  destruct (negb (Py.contains marker c)); [|discriminate].
  intros H. injection H as <-.
  destruct (search_word_span _ _ _ _ _ _ S) as (b & m & a & -> & -> & -> & Hlow).
  exists b, m, a. split; [reflexivity|]. split; [exact Hlow|].
  assert (Py.len (b ++ m ++ a) = Py.len b + Py.len m + Py.len a) as Hlen
    by (unfold Py.len; rewrite !length_append; lia).
  assert (0 <= Py.len b /\ 0 <= Py.len m /\ 0 <= Py.len a) as Hpos
    by (unfold Py.len; lia).
  rewrite SliceFacts.slice_upto, SliceFacts.slice_inside, SliceFacts.slice_from
    by lia.
  replace (Z.to_nat (0 + Py.len b)) with (String.length b)
    by (unfold Py.len; lia).
  replace (Z.to_nat (0 + Py.len b + Py.len m - (0 + Py.len b)))
    with (String.length m) by (unfold Py.len; lia).
  replace (Z.to_nat (0 + Py.len b + Py.len m))
    with (String.length (b ++ m)) by (unfold Py.len; rewrite length_append; lia).
  rewrite take_app, drop_app, take_app.
  rewrite <- (StringFacts.append_assoc b m a), drop_app.
  exact (regroup b m " [INTERNAL LINK SUGGESTION: " link_text " | "
           link_topic "]" a).
Qed.

(** X13.  [_add_internal_linking_suggestions] leaves the content as it is,
    or inserts one suggestion right after a mention of a related topic: the
    text before the mention, the mention in its own spelling and the text
    after it are those of the content, which held no marker, and the
    related topic is not the topic of the document. *)
Theorem link_suggestion_keeps_the_text (content topic : string) :
  _add_internal_linking_suggestions content topic = content
  \/ exists link_text link_topic before mention after,
       In (link_text, link_topic) related_topics
       /\ content = before ++ mention ++ after
       /\ Py.lower mention = Py.lower link_text
       /\ Py.contains marker content = false
       /\ Py.contains (Py.lower link_text) (Py.lower topic) = false
       /\ _add_internal_linking_suggestions content topic
          = before ++ mention ++ " [INTERNAL LINK SUGGESTION: " ++ link_text
              ++ " | " ++ link_topic ++ "]" ++ after.
Proof.
  destruct (SeoFacts.add_links_one_edit related_topics topic content)
    as [H|(entry & edited & Hin & Hstep & Hres)]; [left; exact H|].
  right. destruct entry as [link_text link_topic].
  destruct (link_step_keeps_the_text _ _ _ _ _ Hstep)
    as (b & m & a & Hc & Hlow & He).
  exists link_text, link_topic, b, m, a.
  split; [exact Hin|]. split; [exact Hc|]. split; [exact Hlow|].
  split; [|split].
  - unfold link_step in Hstep.
    destruct (Py.contains (Py.lower link_text) (Py.lower topic)); [discriminate|].
    destruct (Py.search_word true link_text 0 None content) as [[i j]|];
      [|discriminate].
    destruct (Py.contains marker content);
      [cbn [negb] in Hstep; discriminate | reflexivity].
  - unfold link_step in Hstep.
    destruct (Py.contains (Py.lower link_text) (Py.lower topic));
      [discriminate | reflexivity].
  - unfold _add_internal_linking_suggestions.
    fold (add_links_over related_topics topic content) in Hres.
    rewrite <- He. exact Hres.
Qed.

End SeoMore.

Module PlanningMore.
Import Runtime Json Planning.

Lemma rev_string_app (a b : string) :
  Py.rev_string (a ++ b) = Py.rev_string b ++ Py.rev_string a.
Proof.
  induction a as [|c a IH]; simpl.
  - symmetry. apply StringFacts.append_nil_r.
  - rewrite IH. apply StringFacts.append_assoc.
Qed.

Lemma rev_string_involutive (a : string) : Py.rev_string (Py.rev_string a) = a.
Proof.
  induction a as [|c a IH]; [reflexivity|].
  simpl. rewrite rev_string_app, IH. reflexivity.
Qed.

(** [clean_json] takes the fence off a fenced answer. *)
Lemma clean_json_strips_fence (body : string) :
  clean_json ("```json" ++ body ++ "```") = Py.strip body.
Proof.
  unfold clean_json.
  assert (Py.strip ("```json" ++ body ++ "```") = "```json" ++ body ++ "```")
    as ->.
  { unfold Py.strip, Py.rstrip.
    change (Py.lstrip ("```json" ++ body ++ "```"))
      with ("```json" ++ body ++ "```").
    rewrite (rev_string_app "```json"), (rev_string_app body).
    rewrite StringFacts.append_assoc.
    change (Py.lstrip (Py.rev_string "```" ++ Py.rev_string body
                         ++ Py.rev_string "```json"))
      with (Py.rev_string "```" ++ Py.rev_string body
              ++ Py.rev_string "```json").
    rewrite <- StringFacts.append_assoc, <- rev_string_app, <- rev_string_app.
    apply rev_string_involutive. }
  cbv zeta. rewrite StringFacts.startswith_app.
  assert (Py.slice ("```json" ++ body ++ "```") (Some 7) None = body ++ "```")
    as ->.
  { rewrite SliceFacts.slice_from;
      [| lia
       | unfold Py.len; rewrite SeoMore.length_append, Nat2Z.inj_add;
         change (Z.of_nat (String.length "```json")) with 7; lia].
    apply (SeoMore.drop_app "```json"). }
  assert (Py.endswith (body ++ "```") "```" = true) as ->.
  { unfold Py.endswith. rewrite rev_string_app.
    apply (StringFacts.startswith_app (Py.rev_string "```")). }
  f_equal. unfold Py.slice, Py.clamp. cbv zeta.
  replace (-3 <? 0) with true by reflexivity.
  replace (-3 + Py.len (body ++ "```")) with (Py.len body)
    by (unfold Py.len; rewrite SeoMore.length_append, Nat2Z.inj_add;
        change (Z.of_nat (String.length "```")) with 3; lia).
  rewrite Z.max_r by (unfold Py.len; lia).
  destruct (Z.leb_spec (Py.len body) 0) as [H0|Hpos].
  - destruct body; [reflexivity | unfold Py.len in H0; simpl in H0; lia].
  - rewrite Z.sub_0_r. unfold Py.len. rewrite Nat2Z.id.
    apply SeoMore.take_app.
Qed.

(** X14.  An answer that does not parse as it is, but is a fenced block
    whose body parses, is read without its fence: [create_outline] returns
    what the body parses to. *)
Theorem create_outline_reads_fenced_answer (env : Env) (topic : string)
  (research : Research.research_data) (keywords : string) (s : state)
  (body : string) (outline : json) :
  chain_run env (tick s) outline_chain
    (Claims.outline_request topic research keywords)
  = Ok ("```json" ++ body ++ "```") ->
  json_loads env ("```json" ++ body ++ "```") = None ->
  json_loads env (Py.strip body) = Some outline ->
  create_outline env topic research keywords s
  = Ret outline
      (record (EvChain outline_chain
                 (Claims.outline_request topic research keywords)) s).
Proof.
  intros Hrun Hraw Hclean.
  unfold create_outline, try_except, try_except_json, bind, run, request, loads.
  unfold Claims.outline_request in Hrun. rewrite Hrun.
  rewrite Hraw. unfold raise. rewrite clean_json_strips_fence, Hclean.
  reflexivity.
Qed.

Lemma create_outline_reads_fenced_answer_witness :
  create_outline
    (Stubs.stub_env Notions.fenced_answer Notions.reads_empty_object)
    "Remote Work Best Practices" Stubs.bare_research "" initial_state
  = Ret (JObj [])
      (record (EvChain outline_chain
                 (Claims.outline_request "Remote Work Best Practices"
                    Stubs.bare_research "")) initial_state).
Proof.
  apply (create_outline_reads_fenced_answer
           (Stubs.stub_env Notions.fenced_answer Notions.reads_empty_object)
           "Remote Work Best Practices" Stubs.bare_research "" initial_state
           (Py.nl ++ "{}" ++ Py.nl) (JObj []));
    reflexivity.
Defined.

(** X15.  [create_outline] does not fall back on a failure other than an
    answer that is not JSON: it raises what the Completion Service raised,
    and it raises when the answer parses to a value that is not an object,
    or to an object whose sections have no length. *)
Theorem create_outline_propagates (env : Env) (topic : string)
  (research : Research.research_data) (keywords : string) (s : state)
  (e : exn) :
  chain_run env (tick s) outline_chain
    (Claims.outline_request topic research keywords) = Raise e
  \/ (exists answer outline,
        chain_run env (tick s) outline_chain
          (Claims.outline_request topic research keywords) = Ok answer
        /\ json_loads env answer = Some outline
        /\ ((forall fields, outline <> JObj fields) /\ e = AttributeError
            \/ exists fields sections,
                 outline = JObj fields
                 /\ lookup "sections" fields = Some sections
                 /\ Json.length sections = Raise TypeError
                 /\ e = TypeError)) ->
  create_outline env topic research keywords s
  = Exc e
      (record (EvChain outline_chain
                 (Claims.outline_request topic research keywords)) s).
Proof.
  unfold create_outline, try_except, try_except_json, bind, run, request, loads,
    Claims.outline_request.
  intros [Hrun|(answer & outline & Hrun & Hparse & Hbad)]; rewrite Hrun;
    [reflexivity|].
  rewrite Hparse.
  destruct Hbad as [[Hobj ->]|(fields & sections & -> & Hsec & Hlen & ->)].
  - destruct outline; try reflexivity. exfalso. eapply Hobj. reflexivity.
  - simpl. rewrite Hsec. simpl. rewrite Hlen. reflexivity.
Qed.

Lemma create_outline_propagates_witness :
  create_outline (Stubs.stub_env Stubs.service_down Stubs.no_json)
    "Remote Work Best Practices" Stubs.bare_research "" initial_state
  = Exc (External "service unavailable")
      (record (EvChain outline_chain
                 (Claims.outline_request "Remote Work Best Practices"
                    Stubs.bare_research "")) initial_state).
Proof.
  apply (create_outline_propagates
           (Stubs.stub_env Stubs.service_down Stubs.no_json)
           "Remote Work Best Practices" Stubs.bare_research "" initial_state
           (External "service unavailable")).
  left. reflexivity.
Defined.

End PlanningMore.

(* ===================================================================== *)
(** * utils.py: [create_markdown_blog]; main.py: the session routes      *)
(* ===================================================================== *)

Module MarkdownFacts.
Import Markdown.

Lemma fold_md_from {A : Type} (f : A -> string) (l : list A) (init : string) :
  fold_left (fun blog_md x => blog_md ++ f x) l init
  = init ++ fold_left (fun blog_md x => blog_md ++ f x) l "".
Proof.
  revert init. induction l as [|x l IH]; intros init; simpl.
  - symmetry. apply StringFacts.append_nil_r.
  - rewrite IH, (IH (f x)). apply StringFacts.append_assoc.
Qed.

Lemma fold_md_contains {A : Type} (f : A -> string) (l : list A) (x : A)
  (p init : string) :
  In x l -> Py.contains p (f x) = true ->
  Py.contains p (fold_left (fun blog_md x => blog_md ++ f x) l init) = true.
Proof.
  revert init. induction l as [|y l IH]; intros init Hin Hp; [destruct Hin|].
  simpl. destruct Hin as [->|Hin].
  - rewrite fold_md_from. apply StringFacts.contains_app_l.
    apply StringFacts.contains_app_r. exact Hp.
  - apply IH; assumption.
Qed.

Lemma contains_self_app (p y : string) : Py.contains p (p ++ y) = true.
Proof.
  rewrite StringFacts.contains_unfold.
  pose proof (StringFacts.startswith_app p y) as H.
  unfold Py.startswith in H. rewrite H. reflexivity.
Qed.

(** X16.  The document of [create_markdown_blog] begins with the title
    line; a section added at the end adds its text at the end and changes
    nothing before; and the heading of every section that has one is in
    the document, on a line of its own followed by a blank line. *)
Theorem create_markdown_blog_layout (title : string) (sections : list section) :
  Py.startswith (create_markdown_blog title sections)
    ("# " ++ title ++ Py.nl ++ Py.nl) = true
  /\ (forall sec,
        create_markdown_blog title (sections ++ [sec])
        = create_markdown_blog title sections ++ section_md sec)
  /\ (forall sec h,
        In sec sections -> heading sec = Some h -> h <> "" ->
        Py.contains ("## " ++ h ++ Py.nl ++ Py.nl)
          (create_markdown_blog title sections) = true).
Proof.
  unfold create_markdown_blog. split; [|split].
  - rewrite fold_md_from.
    exact (StringFacts.startswith_app ("# " ++ title ++ Py.nl ++ Py.nl) _).
  - intros sec. rewrite fold_left_app. reflexivity.
  - intros sec h Hin Hh Hne.
    apply (fold_md_contains section_md sections sec _ _ Hin).
    unfold section_md, present, field_text. rewrite Hh.
    destruct h as [|c h]; [congruence|].
    cbn [Py.truthy].
    exact (contains_self_app ("## " ++ String c h ++ Py.nl ++ Py.nl) _).
Qed.

End MarkdownFacts.

Module RoutesFacts.
Import Runtime Routes Notions.

Lemma all_chars_app (p : ascii -> bool) (a b : string) :
  all_chars p (a ++ b) = (all_chars p a && all_chars p b)%bool.
Proof.
  induction a as [|c a IH]; simpl; [reflexivity|].
  rewrite IH. apply andb_assoc.
Qed.

Lemma all_chars_rev (p : ascii -> bool) (s : string) :
  all_chars p (Py.rev_string s) = all_chars p s.
Proof.
  induction s as [|c s IH]; simpl; [reflexivity|].
  rewrite all_chars_app, IH. simpl. rewrite andb_true_r. apply andb_comm.
Qed.

Lemma all_chars_lstrip (p : ascii -> bool) (s : string) :
  all_chars p s = true -> all_chars p (lstrip_underscores s) = true.
Proof.
  induction s as [|c s IH]; intros H; [reflexivity|].
  simpl. destruct (Ascii.eqb c "_"); [|exact H].
  apply IH. simpl in H. apply andb_prop in H. tauto.
Qed.

Lemma last_char_app (s : string) (c : ascii) :
  last_char (s ++ String c "") = Some c.
Proof.
  induction s as [|d s IH]; [reflexivity|].
  change (String d s ++ String c "") with (String d (s ++ String c "")).
  simpl. rewrite IH. destruct (s ++ String c "") eqn:E; [|reflexivity].
  destruct s; discriminate.
Qed.

Lemma last_char_rev (s : string) : last_char (Py.rev_string s) = Py.head s.
Proof.
  destruct s as [|c s]; [reflexivity|]. simpl. apply last_char_app.
Qed.

Lemma head_lstrip (s : string) :
  Py.head (lstrip_underscores s) <> Some "_"%char.
Proof.
  induction s as [|c s IH]; [discriminate|].
  simpl. destruct (Ascii.eqb c "_") eqn:E; [exact IH|].
  simpl. intros H. injection H as ->. discriminate.
Qed.

Lemma underscored_chars (topic : string) :
  all_chars (fun c => (is_alnum c || Ascii.eqb c "_")%bool) (underscored topic)
  = true.
Proof.
  induction topic as [|c s IH]; [reflexivity|].
  simpl. rewrite IH, andb_true_r.
  destruct (is_alnum c) eqn:E; [rewrite E|]; reflexivity.
Qed.

Lemma underscored_alnum (topic : string) :
  all_chars is_alnum topic = true -> underscored topic = topic.
Proof.
  induction topic as [|c s IH]; intros H; [reflexivity|].
  simpl in *. apply andb_prop in H. destruct H as [Hc Hs].
  rewrite Hc, IH by exact Hs. reflexivity.
Qed.

Lemma lstrip_clean (s : string) :
  Py.head s <> Some "_"%char -> lstrip_underscores s = s.
Proof.
  destruct s as [|c s]; intros H; [reflexivity|].
  simpl. destruct (Ascii.eqb c "_") eqn:E; [|reflexivity].
  apply Ascii.eqb_eq in E. subst c. exfalso. apply H. reflexivity.
Qed.

(** X17.  The file name [save_blog] derives from a topic holds letters,
    digits and underscores only and does not end with an underscore; a
    topic of letters and digits is its own file name. *)
Theorem safe_filename_is_safe (topic : string) :
  all_chars (fun c => (is_alnum c || Ascii.eqb c "_")%bool)
    (safe_filename topic) = true
  /\ last_char (safe_filename topic) <> Some "_"%char
  /\ (all_chars is_alnum topic = true -> safe_filename topic = topic).
Proof.
  unfold safe_filename, rstrip_underscores. split; [|split].
  - rewrite all_chars_rev. apply all_chars_lstrip.
    rewrite all_chars_rev. apply underscored_chars.
  - rewrite last_char_rev. apply head_lstrip.
  - intros H. rewrite (underscored_alnum topic H).
    rewrite lstrip_clean; [apply PlanningMore.rev_string_involutive|].
    rewrite <- last_char_rev, PlanningMore.rev_string_involutive.
    intros Hlast.
    assert (forall s, all_chars is_alnum s = true ->
                      last_char s <> Some "_"%char) as Hno.
    { induction s as [|c s IHs]; [discriminate|].
      intros Hs. simpl in Hs. apply andb_prop in Hs. destruct Hs as [Hc Hs].
      destruct s as [|d s]; [|exact (IHs Hs)].
      simpl. intros E. injection E as ->. discriminate. }
    exact (Hno topic H Hlast).
Qed.

(** X18.  After [generate_blog], whatever the collaborators do and
    whatever the session held: the results page shows the posted topic and
    the sample document, the progress is complete at 100, and [save_blog]
    answers with that same document unchanged, in a file named after the
    topic whose extension follows the posted format: [.md] for markdown and
    for no format, [.html] for html, [.txt] for anything else. *)
Theorem routes_after_generate_blog (env : Env) (request : Main.form)
  (s : state) :
  exists s',
    Main.generate_blog env request s = Ret "results" s'
    /\ results s'
       = ResultsPage (Claims.posted_topic request)
           (Claims.sample_document request)
           (strftime env (tick s) "%Y-%m-%d %H:%M:%S")
    /\ completion (progress_route s') = 100
    /\ forall format,
         save_blog format s'
         = let name := safe_filename (Claims.posted_topic request) in
           let document := Claims.sample_document request in
           match format with
           | None => Saved (name ++ ".md") document "text/markdown"
           | Some f =>
               if String.eqb f "markdown"
               then Saved (name ++ ".md") document "text/markdown"
               else if String.eqb f "html"
               then Saved (name ++ ".html") document "text/html"
               else Saved (name ++ ".txt") document "text/plain"
           end.
Proof.
  eexists. split; [apply MainFacts.generate_blog_run|].
  split; [reflexivity|]. split; [reflexivity|].
  intros [f|]; reflexivity.
Qed.

End RoutesFacts.

(* ===================================================================== *)
(** * utils.py: the growth of the waits                                  *)
(* ===================================================================== *)

Module BackoffFacts.
Import Runtime Retry Notions.

Lemma recomputed_bounds (env : Env) (base : Q) (jitter : bool) (t : nat)
  (delay : Q) :
  unit_interval env -> (0 <= delay)%Q -> (0 <= base)%Q ->
  let wait := Claims.recomputed env base jitter t delay in
  (delay * base <= wait)%Q /\ (wait <= delay * base * 2)%Q /\ (0 <= wait)%Q.
Proof.
  intros Hu Hd Hb. cbv zeta. unfold Claims.recomputed.
  destruct (Hu t) as [H0 H1].
  assert (0 <= delay * base)%Q as Hdb by (apply Qmult_le_0_compat; assumption).
  destruct jitter.
  - set (r := random_random env t) in *. set (x := (delay * base)%Q) in *.
    assert (0 <= x * r)%Q as Hxr by (apply Qmult_le_0_compat; assumption).
    assert (x * r <= x * 1)%Q as Hx1
      by (rewrite !(Qmult_comm x); apply Qmult_le_compat_r;
          [apply Qlt_le_weak; exact H1 | exact Hdb]).
    repeat split; lra.
  - repeat split; lra.
Qed.

Lemma waits_back_off (env : Env) (base : Q) (jitter : bool) (n : nat) :
  unit_interval env -> (0 <= base)%Q ->
  forall (t : nat) (delay : Q),
    (0 <= delay)%Q ->
    backing_off base delay (Claims.waits env base jitter n t delay).
Proof.
  intros Hu Hb. induction n as [|n IH]; intros t delay Hd; [exact I|].
  destruct (recomputed_bounds env base jitter (S t) delay Hu Hd Hb)
    as (H1 & H2 & H3).
  simpl. split; [exact H1|]. split; [exact H2|]. apply IH. exact H3.
Qed.

(** X19.  With a generator of numbers in [0, 1), a delay and a base that
    are not negative, the waits of the wrapper back off: every wait is at
    least [exponential_base] times the delay before it (the initial delay
    for the first wait) and at most twice that, the products being taken
    as exact numbers. *)
Theorem retry_waits_back_off {A : Type} (env : Env)
  (operation : nat -> result A) (max_retries : Z)
  (initial_delay exponential_base : Q) (jitter : bool) (fuel : nat)
  (s : state) :
  unit_interval env ->
  (0 <= initial_delay)%Q -> (0 <= exponential_base)%Q ->
  (Z.to_nat max_retries < fuel)%nat ->
  backing_off exponential_base initial_delay
    (Claims.sleeps_of
       (Claims.new_events s
          (wrapper env (Claims.attempt operation) max_retries initial_delay
             exponential_base jitter fuel s))).
Proof.
  intros Hu Hd Hb Hfuel.
  destruct (RetryBound.retry_loop_ends env operation max_retries
              exponential_base jitter (Z.to_nat max_retries) fuel 0
              initial_delay s)
    as [k [Hk [Hnd Htr]]]; [f_equal; lia | exact Hfuel |].
  cbv zeta in Hnd, Htr.
  unfold wrapper.
  rewrite (RetryFacts.new_events_app _ _ _ Htr).
  rewrite RetryFacts.sleeps_of_retry_events.
  apply waits_back_off; assumption.
Qed.

Lemma retry_waits_back_off_witness :
  backing_off 2 1
    (Claims.sleeps_of
       (Claims.new_events initial_state
          (wrapper Stubs.refusing_env (Claims.attempt Stubs.third_time_lucky)
             5 1%Q 2%Q true 6 initial_state))).
Proof.
  apply (retry_waits_back_off Stubs.refusing_env Stubs.third_time_lucky
           5 1%Q 2%Q true 6 initial_state).
  - intros t. split; [unfold Qle; simpl; lia | reflexivity].
  - unfold Qle; simpl; lia.
  - unfold Qle; simpl; lia.
  - simpl. lia.
Defined.

End BackoffFacts.

(* ===================================================================== *)
(** * agents/research_agent.py: the two loops of [research_topic]        *)
(* ===================================================================== *)

Module ResearchLoops.
Import Runtime Research Notions.

Lemma combine_research_from (scraped_data : list (string * string)) :
  forall (combined : string) (metadata : list source),
    snd (combine_research scraped_data combined metadata)
    = (metadata
         ++ map (fun page =>
                   {| url := fst page; content_length := Py.len (snd page);
                      extracted_keywords :=
                        Some (Utils.extract_keywords_from_text (snd page) 5) |})
              (filter has_text scraped_data))%list
    /\ (filter has_text scraped_data = [] ->
        fst (combine_research scraped_data combined metadata) = combined).
Proof.
  induction scraped_data as [|[u content] rest IH]; intros combined metadata.
  - simpl. rewrite app_nil_r. split; reflexivity.
  - cbn [combine_research filter].
    change (has_text (u, content)) with (Py.truthy content).
    destruct (Py.truthy content) eqn:T.
    + destruct (IH (combined ++ Py.nl ++ Py.nl ++ "SOURCE: " ++ u ++ Py.nl
                      ++ Py.slice content None (Some 5000) ++ Py.nl)
                  (metadata ++
                     [ {| url := u; content_length := Py.len content;
                          extracted_keywords :=
                            Some (Utils.extract_keywords_from_text content 5) |} ])%list)
        as [H1 _].
      split; [|discriminate].
      rewrite H1, <- app_assoc. reflexivity.
    + apply IH.
Qed.

(** X20.  The metadata [research_topic] compiles has one record for each
    scraped page that has a text, in the order of the pages, with the
    address of the page, the length of its whole text (not of the 5000
    characters kept) and at most five keywords; without such a page the
    combined research is empty. *)
Theorem combine_research_records_pages (scraped_data : list (string * string)) :
  let pages := filter has_text scraped_data in
  let metadata := snd (combine_research scraped_data "" []) in
  map url metadata = map fst pages
  /\ map content_length metadata = map (fun page => Py.len (snd page)) pages
  /\ Forall (fun record =>
               1 <= content_length record
               /\ exists found,
                    extracted_keywords record = Some found
                    /\ (List.length found <= 5)%nat) metadata
  /\ (pages = [] -> fst (combine_research scraped_data "" []) = "").
Proof.
  cbv zeta. destruct (combine_research_from scraped_data "" []) as [-> Hempty].
  simpl app. rewrite !map_map. simpl.
  split; [reflexivity|]. split; [reflexivity|]. split; [|exact Hempty].
  apply Forall_forall. intros record Hin.
  apply in_map_iff in Hin. destruct Hin as ([u content] & <- & Hin).
  apply filter_In in Hin. destruct Hin as [_ Htext].
  unfold has_text in Htext. simpl in Htext. simpl. split.
  - destruct content; [discriminate|]. unfold Py.len. simpl String.length. lia.
  - eexists. split; [reflexivity|].
    unfold Utils.extract_keywords_from_text. rewrite length_map.
    pose proof (WordFacts.list_prefix_length
                  (Utils.sorted_desc
                     (Utils.count_frequencies
                        (Py.word_runs "" (Py.lower content)))) 5
                  ltac:(lia)).
    lia.
Qed.

Lemma prefix_trans (p : string) :
  forall mid out,
    String.prefix p mid = true -> String.prefix mid out = true ->
    String.prefix p out = true.
Proof.
  induction p as [|a p IH]; intros mid out H1 H2;
    [apply StringFacts.prefix_nil|].
  destruct mid as [|b mid]; [discriminate|].
  destruct out as [|c out]; [discriminate|].
  rewrite StringFacts.prefix_cons in *.
  destruct (ascii_dec a b) as [Hab|]; [|discriminate].
  destruct (ascii_dec b c) as [Hbc|]; [|discriminate].
  destruct (ascii_dec a c) as [_|Hac]; [|congruence].
  exact (IH _ _ H1 H2).
Qed.

Lemma concat_cons (x : string) (l : list string) :
  String.concat "" (x :: l) = x ++ String.concat "" l.
Proof.
  destruct l as [|y l]; [symmetry; apply StringFacts.append_nil_r|].
  reflexivity.
Qed.

(** X21.  The synthesis loop asks about every chunk in order and waits one
    second after each answer; the text it returns is the text it started
    from followed by every answer, in order, each with two line feeds after
    it; when a request raises, the loop raises that failure at once, with
    the chunks before it asked and waited for; the loop does not run on. *)
Theorem synthesize_asks_every_chunk (env : Env) (topic keywords : string)
  (chunks : list string) :
  forall (synthesized : string) (s : state),
    match synthesize env topic keywords chunks synthesized s with
    | Ret out s' =>
        trace s' = (trace s ++ synthesis_events topic keywords chunks)%list
        /\ tick s' = (tick s + List.length chunks)%nat
        /\ Py.startswith out synthesized = true
        /\ exists answers,
             List.length answers = List.length chunks
             /\ (forall i chunk answer,
                   nth_error chunks i = Some chunk ->
                   nth_error answers i = Some answer ->
                   chain_run env (tick s + i) research_synthesis_chain
                     [("topic", topic); ("research_data", chunk);
                      ("keywords", keywords)] = Ok answer)
             /\ out
                = synthesized
                    ++ String.concat ""
                         (map (fun answer => answer ++ Py.nl ++ Py.nl) answers)
    | Exc e s' =>
        exists asked chunk rest,
          chunks = (asked ++ chunk :: rest)%list
          /\ trace s'
             = (trace s ++ synthesis_events topic keywords asked
                  ++ [ EvChain research_synthesis_chain
                         [("topic", topic); ("research_data", chunk);
                          ("keywords", keywords)] ])%list
          /\ chain_run env (tick s + List.length asked)
               research_synthesis_chain
               [("topic", topic); ("research_data", chunk);
                ("keywords", keywords)] = Raise e
    | Diverge => False
    end.
Proof.
  induction chunks as [|chunk rest IH]; intros synthesized s.
  - simpl. rewrite app_nil_r, Nat.add_0_r.
    split; [reflexivity|]. split; [reflexivity|]. split.
    + pose proof (StringFacts.startswith_app synthesized "") as H.
      rewrite StringFacts.append_nil_r in H. exact H.
    + exists []. split; [reflexivity|]. split.
      * intros [|i] c a H; discriminate.
      * simpl. symmetry. apply StringFacts.append_nil_r.
  - simpl synthesize. unfold bind, run, request, sleep.
    destruct (chain_run env (tick s) research_synthesis_chain
                [("topic", topic); ("research_data", chunk);
                 ("keywords", keywords)]) as [answer|e] eqn:Hrun.
    + specialize (IH (synthesized ++ answer ++ Py.nl ++ Py.nl)
                    (slept 1 (record (EvChain research_synthesis_chain
                                        [("topic", topic);
                                         ("research_data", chunk);
                                         ("keywords", keywords)]) s))).
      destruct (synthesize env topic keywords rest _ _) as [out s'|e s'|].
      * destruct IH as (Htrace & Htick & Hstart & answers & Hlen & Hans & Hout).
        split; [|split; [|split]].
        -- rewrite Htrace. simpl. rewrite <- !app_assoc. reflexivity.
        -- rewrite Htick. simpl. lia.
        -- unfold Py.startswith in *.
           pose proof (StringFacts.startswith_app synthesized
                         (answer ++ Py.nl ++ Py.nl)) as Hp.
           unfold Py.startswith in Hp.
           exact (prefix_trans _ _ _ Hp Hstart).
        -- exists (answer :: answers). split; [simpl; rewrite Hlen; reflexivity|].
           split.
           ++ intros [|i] c a Hc Ha.
              ** injection Hc as <-. injection Ha as <-.
                 rewrite Nat.add_0_r. exact Hrun.
              ** simpl in Hc, Ha.
                 pose proof (Hans i c a Hc Ha) as H. simpl in H.
                 replace (tick s + S i)%nat with (S (tick s + i)) by lia.
                 exact H.
           ++ rewrite Hout. cbn [map]. rewrite concat_cons.
              rewrite !StringFacts.append_assoc. reflexivity.
      * destruct IH as (asked & c & more & -> & Htrace & Hfail).
        exists (chunk :: asked), c, more. split; [reflexivity|].
        split.
        -- rewrite Htrace. simpl. rewrite <- !app_assoc. reflexivity.
        -- simpl in Hfail. simpl List.length.
           rewrite <- Hfail. f_equal. lia.
      * exact IH.
    + exists [], chunk, rest. split; [reflexivity|]. split.
      * reflexivity.
      * simpl. rewrite Nat.add_0_r. exact Hrun.
Qed.

End ResearchLoops.

(* ===================================================================== *)
(** * agents/review_agent.py: what [_fix_basic_issues] leaves            *)
(* ===================================================================== *)

Module TidyFacts.
Import Review.

Lemma contains_cons_iff (p : string) (c : ascii) (s : string) :
  Py.contains p (String c s) = true
  <-> String.prefix p (String c s) = true \/ Py.contains p s = true.
Proof.
  rewrite StringFacts.contains_unfold.
  destruct (String.prefix p (String c s)); intuition congruence.
Qed.

Lemma contains_nil_iff (a : ascii) (p : string) :
  Py.contains (String a p) "" = true <-> False.
Proof. simpl. intuition congruence. Qed.

Lemma prefix1_iff (a : ascii) (s : string) :
  String.prefix (String a "") s = true <-> exists rest, s = String a rest.
Proof.
  destruct s as [|c s]; [simpl; split; [discriminate | intros [r H]; discriminate]|].
  rewrite StringFacts.prefix_cons, StringFacts.prefix_nil.
  destruct (ascii_dec a c) as [->|Hn].
  - split; [intros _; eexists; reflexivity | reflexivity].
  - split; [discriminate | intros [r H]; congruence].
Qed.

Lemma prefix2_iff (a b : ascii) (s : string) :
  String.prefix (String a (String b "")) s = true
  <-> exists rest, s = String a (String b rest).
Proof.
  destruct s as [|c s]; [simpl; split; [discriminate | intros [r H]; discriminate]|].
  rewrite StringFacts.prefix_cons.
  destruct (ascii_dec a c) as [->|Hn].
  - rewrite prefix1_iff. split; intros [r H]; exists r; congruence.
  - split; [discriminate | intros [r H]; congruence].
Qed.

Lemma prefix3_iff (a b c : ascii) (s : string) :
  String.prefix (String a (String b (String c ""))) s = true
  <-> exists rest, s = String a (String b (String c rest)).
Proof.
  destruct s as [|d s]; [simpl; split; [discriminate | intros [r H]; discriminate]|].
  rewrite StringFacts.prefix_cons.
  destruct (ascii_dec a d) as [->|Hn].
  - rewrite prefix2_iff. split; intros [r H]; exists r; congruence.
  - split; [discriminate | intros [r H]; congruence].
Qed.

(** After [collapse_spaces] no space follows a space. *)
Lemma collapse_spaces_tidy (s : string) :
  forall after_space,
    Py.contains "  " (Py.collapse_spaces after_space s) <> true
    /\ (after_space = true ->
        forall rest, Py.collapse_spaces after_space s <> String " " rest).
Proof.
  induction s as [|c s IH]; intros b.
  - simpl. split; [discriminate | intros _ r; discriminate].
  - simpl. destruct (Ascii.eqb_spec c " ") as [->|Hc].
    + destruct b; [apply IH|].
      destruct (IH true) as [H1 H2].
      split; [|discriminate].
      rewrite contains_cons_iff, prefix2_iff.
      intros [[r H]|H]; [|exact (H1 H)].
      injection H as H. exact (H2 eq_refl r H).
    + destruct (IH false) as [H1 _]. split.
      * rewrite contains_cons_iff, prefix2_iff.
        intros [[r H]|H]; [|exact (H1 H)]. injection H as H _. congruence.
      * intros _ r H. injection H as H _. congruence.
Qed.

(** [collapse_newlines] takes out line feeds that follow a line feed: it
    brings no two spaces together. *)
Lemma collapse_newlines_keeps_spaces (s : string) :
  forall (seen : nat) (before : ascii),
    ((1 <= seen)%nat -> before = Py.newline) ->
    Py.contains "  " (String before s) <> true ->
    Py.contains "  " (String before (Py.collapse_newlines seen s)) <> true.
Proof.
  induction s as [|c s IH]; intros seen c0 Hseen H; [exact H|].
  cbn [Py.collapse_newlines]. rewrite contains_cons_iff, prefix2_iff in H.
  destruct (Ascii.eqb_spec c Py.newline) as [->|Hc].
  - destruct (Nat.leb_spec 2 seen) as [H2|H2].
    + rewrite (Hseen ltac:(lia)). apply IH; [reflexivity|]. tauto.
    + rewrite contains_cons_iff, prefix2_iff.
      intros [[r Hr]|Hr]; [discriminate|].
      revert Hr. apply IH; [reflexivity|]. tauto.
  - rewrite contains_cons_iff, prefix2_iff.
    intros [[r Hr]|Hr].
    + injection Hr as -> ->. apply H. left. eexists. reflexivity.
    + revert Hr. apply IH; [lia|]. tauto.
Qed.

Lemma space_after_period_unfold (c : ascii) (s : string) :
  Py.space_after_period (String c s)
  = if (Ascii.eqb c "."
        && match Py.head s with Some d => Py.is_alpha d | None => false end)%bool
    then String c (String " " (Py.space_after_period s))
    else String c (Py.space_after_period s).
Proof. destruct s; reflexivity. Qed.

Lemma letter_is_no_space (d : ascii) (s : string) :
  match Py.head s with Some d => Py.is_alpha d | None => false end = true ->
  forall rest, s <> String " " rest.
Proof.
  intros H rest ->. simpl in H. discriminate.
Qed.

(** [space_after_period] puts a space between a period and a letter: it
    brings no two spaces together. *)
Lemma space_after_period_keeps_spaces (s : string) :
  forall before : ascii,
    Py.contains "  " (String before s) <> true ->
    Py.contains "  " (String before (Py.space_after_period s)) <> true.
Proof.
  induction s as [|c s IH]; intros c0 H; [exact H|].
  rewrite space_after_period_unfold.
  rewrite contains_cons_iff, prefix2_iff in H.
  destruct (Ascii.eqb_spec c ".") as [->|Hc]; cbn [andb].
  - destruct (match Py.head s with Some d => Py.is_alpha d | None => false end)
      eqn:Ed.
    + do 2 (rewrite contains_cons_iff, prefix2_iff).
      intros [[r Hr]|[[r Hr]|Hr]]; [discriminate | discriminate |].
      revert Hr. apply IH.
      rewrite contains_cons_iff, prefix2_iff.
      intros [[r Hr]|Hr].
      * injection Hr as Hr. exact (letter_is_no_space " " s Ed r Hr).
      * apply H. right. apply contains_cons_iff. right. exact Hr.
    + rewrite contains_cons_iff, prefix2_iff.
      intros [[r Hr]|Hr]; [discriminate|].
      revert Hr. apply IH. tauto.
  - rewrite contains_cons_iff, prefix2_iff.
    intros [[r Hr]|Hr].
    + injection Hr as -> ->. apply H. left. eexists. reflexivity.
    + revert Hr. apply IH. tauto.
Qed.

(** After [collapse_newlines] no line feed follows two line feeds. *)
Lemma collapse_newlines_tidy (s : string) :
  forall seen,
    let out := Py.collapse_newlines seen s in
    Py.contains (String Py.newline (String Py.newline (String Py.newline ""))) out
    <> true
    /\ ((1 <= seen)%nat ->
        forall rest, out <> String Py.newline (String Py.newline rest))
    /\ ((2 <= seen)%nat -> forall rest, out <> String Py.newline rest).
Proof.
  induction s as [|c s IH]; intros seen; cbv zeta.
  - simpl. repeat split; [discriminate | intros _ r; discriminate
                          | intros _ r; discriminate].
  - cbn [Py.collapse_newlines].
    destruct (Ascii.eqb_spec c Py.newline) as [->|Hc].
    + destruct (Nat.leb_spec 2 seen) as [H2|H2].
      * destruct (IH (S seen)) as (I1 & I2 & I3). cbv zeta in *.
        split; [exact I1|]. split; intros _; [apply I2 | apply I3]; lia.
      * destruct (IH (S seen)) as (I1 & I2 & I3). cbv zeta in *.
        split; [|split].
        -- rewrite contains_cons_iff, prefix3_iff.
           intros [[r Hr]|Hr]; [|exact (I1 Hr)].
           injection Hr as Hr. exact (I2 ltac:(lia) r Hr).
        -- intros H1 r Hr. injection Hr as Hr. exact (I3 ltac:(lia) r Hr).
        -- lia.
    + destruct (IH O) as (I1 & _ & _). cbv zeta in *.
      split; [|split].
      * rewrite contains_cons_iff, prefix3_iff.
        intros [[r Hr]|Hr]; [|exact (I1 Hr)]. injection Hr as Hr _. congruence.
      * intros _ r Hr. injection Hr as Hr _. congruence.
      * intros _ r Hr. injection Hr as Hr _. congruence.
Qed.

(** [space_after_period] brings no three line feeds together. *)
Lemma space_after_period_keeps_newlines (s : string) :
  forall c0 c1 : ascii,
    Py.contains (String Py.newline (String Py.newline (String Py.newline "")))
      (String c0 (String c1 s)) <> true ->
    Py.contains (String Py.newline (String Py.newline (String Py.newline "")))
      (String c0 (String c1 (Py.space_after_period s))) <> true.
Proof.
  induction s as [|c s IH]; intros c0 c1 H; [exact H|].
  rewrite space_after_period_unfold.
  rewrite contains_cons_iff, prefix3_iff in H.
  destruct (Ascii.eqb c "."
            && match Py.head s with Some d => Py.is_alpha d | None => false end)%bool
    eqn:E.
  - apply andb_prop in E. destruct E as [Ec Ed].
    apply Ascii.eqb_eq in Ec. subst c.
    do 3 (rewrite contains_cons_iff, prefix3_iff).
    intros [[r Hr]|[[r Hr]|[[r Hr]|Hr]]]; try discriminate.
    revert Hr. change (Py.contains
                         (String Py.newline (String Py.newline (String Py.newline "")))
                         (String " " (Py.space_after_period s)) <> true).
    assert (Py.contains
              (String Py.newline (String Py.newline (String Py.newline "")))
              (String "." (String " " (Py.space_after_period s))) <> true) as Hk.
    { apply IH. do 2 (rewrite contains_cons_iff, prefix3_iff).
      intros [[r Hr]|[[r Hr]|Hr]]; try discriminate.
      apply H. right. apply contains_cons_iff. right.
      apply contains_cons_iff. right. exact Hr. }
    intros Hr. apply Hk. apply contains_cons_iff. right. exact Hr.
  - rewrite contains_cons_iff, prefix3_iff.
    intros [[r Hr]|Hr].
    + injection Hr as -> -> ->. apply H. left. eexists. reflexivity.
    + revert Hr. apply IH. tauto.
Qed.

Lemma space_after_period_head (s : string) :
  Py.head (Py.space_after_period s) = Py.head s.
Proof.
  destruct s as [|c s]; [reflexivity|].
  rewrite space_after_period_unfold.
  destruct (_ && _)%bool; reflexivity.
Qed.

(** After [space_after_period] no letter follows a period. *)
Lemma space_after_period_tidy (d : ascii) (s : string) :
  Py.is_alpha d = true ->
  Py.contains (String "." (String d "")) (Py.space_after_period s) <> true.
Proof.
  intros Hd. induction s as [|c s IH]; [simpl; discriminate|].
  rewrite space_after_period_unfold.
  destruct (Ascii.eqb_spec c ".") as [->|Hc]; cbn [andb].
  - destruct (match Py.head s with Some d => Py.is_alpha d | None => false end)
      eqn:Ed.
    + do 2 (rewrite contains_cons_iff, prefix2_iff).
      intros [[r Hr]|[[r Hr]|Hr]]; [|discriminate | exact (IH Hr)].
      injection Hr as <-. discriminate.
    + rewrite contains_cons_iff, prefix2_iff.
      intros [[r Hr]|Hr]; [|exact (IH Hr)].
      injection Hr as Hr.
      pose proof (space_after_period_head s) as Hh. rewrite Hr in Hh.
      rewrite <- Hh in Ed. simpl in Ed. congruence.
  - rewrite contains_cons_iff, prefix2_iff.
    intros [[r Hr]|Hr]; [|exact (IH Hr)].
    injection Hr as Hr _. congruence.
Qed.

Lemma contains_tail (p : string) (c : ascii) (s : string) :
  Py.contains p (String c s) <> true -> Py.contains p s <> true.
Proof.
  intros H Hs. apply H. apply contains_cons_iff. right. exact Hs.
Qed.

(** X22.  What [_fix_basic_issues] returns, whatever the content: no
    space follows a space, no line feed follows two line feeds, and no
    letter follows a period. *)
Theorem fix_basic_issues_is_tidy (content : string) :
  let fixed := _fix_basic_issues content in
  Py.contains "  " fixed = false
  /\ Py.contains (Py.nl ++ Py.nl ++ Py.nl) fixed = false
  /\ forall letter,
       Py.is_alpha letter = true ->
       Py.contains (String "." (String letter "")) fixed = false.
Proof.
  cbv zeta. unfold _fix_basic_issues. cbv zeta.
  set (typed := fold_left _ typos content).
  split; [|split].
  - apply not_true_is_false.
    apply (contains_tail _ "x"), space_after_period_keeps_spaces.
    apply collapse_newlines_keeps_spaces; [lia|].
    rewrite contains_cons_iff, prefix2_iff.
    intros [[r Hr]|Hr]; [discriminate|].
    exact (proj1 (collapse_spaces_tidy typed false) Hr).
  - apply not_true_is_false.
    change (Py.nl ++ Py.nl ++ Py.nl)
      with (String Py.newline (String Py.newline (String Py.newline ""))).
    apply (contains_tail _ "x"), (contains_tail _ "x").
    apply space_after_period_keeps_newlines.
    do 2 (rewrite contains_cons_iff, prefix3_iff).
    intros [[r Hr]|[[r Hr]|Hr]]; try discriminate.
    exact (proj1 (collapse_newlines_tidy _ O) Hr).
  - intros letter Hl. apply not_true_is_false.
    apply space_after_period_tidy. exact Hl.
Qed.

End TidyFacts.

Module DensityFacts.
Import Runtime Json Seo.

Lemma lookup_store_same (k : string) (v : json) (l : list (string * json)) :
  lookup k (store k v l) = Some v.
Proof.
  induction l as [|[k' v'] l IH]; simpl.
  - rewrite String.eqb_refl. reflexivity.
  - destruct (String.eqb k' k) eqn:E; simpl; rewrite E; [reflexivity | exact IH].
Qed.

Lemma lookup_store_other (k k0 : string) (v : json) (l : list (string * json)) :
  k0 <> k -> lookup k0 (store k v l) = lookup k0 l.
Proof.
  intros Hne. induction l as [|[k' v'] l IH]; simpl.
  - destruct (String.eqb_spec k k0); [congruence | reflexivity].
  - destruct (String.eqb_spec k' k) as [->|Hk]; simpl.
    + destruct (String.eqb_spec k k0); [congruence | reflexivity].
    + destruct (String.eqb k' k0); [reflexivity | exact IH].
Qed.

(** X23.  When the answer parses to an object that has a keyword
    analysis, [analyze_seo] returns that object with the calculated
    density stored in its keyword analysis; every other entry of the
    keyword analysis and of the object, the score among them, is as the
    answer had it. *)
Theorem analyze_seo_adds_density (env : Env)
  (content topic keywords : string) (s : state) (answer : string)
  (fields inner : list (string * json)) :
  chain_run env (tick s) seo_analysis_chain
    (Claims.analysis_request content topic keywords) = Ok answer ->
  json_loads env answer = Some (JObj fields) ->
  lookup "keyword_analysis" fields = Some (JObj inner) ->
  exists fields' inner' density,
    analyze_seo env content topic keywords s
    = Ret (JObj fields')
        (record (EvChain seo_analysis_chain
                   (Claims.analysis_request content topic keywords)) s)
    /\ density_value content (keyword_list_of keywords) = Ok density
    /\ lookup "keyword_analysis" fields' = Some (JObj inner')
    /\ lookup "calculated_keyword_density" inner' = Some density
    /\ (forall k, k <> "calculated_keyword_density" ->
                  lookup k inner' = lookup k inner)
    /\ (forall k, k <> "keyword_analysis" -> lookup k fields' = lookup k fields).
Proof.
  intros Hrun Hparse Hinner.
  destruct (SeoFacts.density_value_total content (keyword_list_of keywords))
    as [v Hv].
  exists (store "keyword_analysis"
            (JObj (store "calculated_keyword_density" v inner)) fields),
    (store "calculated_keyword_density" v inner), v.
  split; [|split; [exact Hv|]; split; [apply lookup_store_same|];
           split; [apply lookup_store_same|]; split;
           intros k Hk; apply lookup_store_other; exact Hk].
  unfold analyze_seo. rewrite Hv.
  unfold try_except, try_except_json, bind, lift, run, request,
    Planning.loads, ret, raise.
  unfold Claims.analysis_request in Hrun. rewrite Hrun, Hparse.
  cbn [get]. unfold add_density, has, store_nested. rewrite Hinner.
  reflexivity.
Qed.

Lemma analyze_seo_adds_density_witness :
  exists fields' inner' density,
    analyze_seo
      (Stubs.stub_env Stubs.canned
         (fun _ => Some (JObj [("keyword_analysis", JObj []);
                               ("overall_score", JInt 90)])))
      "Remote work works." "Remote Work" "remote" initial_state
    = Ret (JObj fields')
        (record (EvChain seo_analysis_chain
                   (Claims.analysis_request "Remote work works." "Remote Work"
                      "remote")) initial_state)
    /\ density_value "Remote work works." (keyword_list_of "remote")
       = Ok density
    /\ lookup "keyword_analysis" fields' = Some (JObj inner')
    /\ lookup "calculated_keyword_density" inner' = Some density
    /\ (forall k, k <> "calculated_keyword_density" ->
                  lookup k inner' = lookup k [])
    /\ (forall k, k <> "keyword_analysis" ->
                  lookup k fields'
                  = lookup k [("keyword_analysis", JObj []);
                              ("overall_score", JInt 90)]).
Proof.
  apply (analyze_seo_adds_density
           (Stubs.stub_env Stubs.canned
              (fun _ => Some (JObj [("keyword_analysis", JObj []);
                                    ("overall_score", JInt 90)])))
           "Remote work works." "Remote Work" "remote" initial_state
           Stubs.score_answer);
    reflexivity.
Defined.

End DensityFacts.

(* ===================================================================== *)
(** * web_scraper.py: redirect links; main.py: the posted keywords       *)
(* ===================================================================== *)

Module LinkFacts.
Import Runtime WebScraper.

(** A text without the separator is one piece. *)
Lemma split_scan_without (sep : string) (s : string) :
  forall cur,
    Py.contains sep s = false ->
    Py.split_scan sep O cur s = [Py.rev_string cur ++ s].
Proof.
  induction s as [|c s IH]; intros cur H.
  - simpl. rewrite StringFacts.append_nil_r. reflexivity.
  - rewrite StringFacts.contains_unfold in H.
    cbn [Py.split_scan].
    destruct (String.prefix sep (String c s)); [discriminate|].
    rewrite IH by exact H. simpl. rewrite StringFacts.append_assoc. reflexivity.
Qed.

(** The first piece ends at the first separator. *)
Lemma split_scan_first (c : ascii) (s rest : string) :
  forall cur,
    Py.contains (String c "") s = false ->
    exists more,
      Py.split_scan (String c "") O cur (s ++ String c rest)
      = (Py.rev_string cur ++ s) :: more.
Proof.
  induction s as [|d s IH]; intros cur H.
  - cbn [append Py.split_scan]. rewrite StringFacts.prefix_cons.
    destruct (ascii_dec c c); [|congruence].
    rewrite StringFacts.prefix_nil, StringFacts.append_nil_r.
    eexists. reflexivity.
  - rewrite StringFacts.contains_unfold in H.
    change (String d s ++ String c rest) with (String d (s ++ String c rest)).
    cbn [Py.split_scan].
    rewrite StringFacts.prefix_cons in *.
    destruct (ascii_dec c d) as [_|_];
      [rewrite StringFacts.prefix_nil in *; discriminate|].
    destruct (IH (String d cur) H) as [more ->].
    exists more. simpl. rewrite StringFacts.append_assoc. reflexivity.
Qed.

(** X24.  A result whose address is a redirect [/url?q=<target>&<rest>]
    is listed under the target, when the target holds no [&] and nothing
    after the prefix holds [/url?q=] again. *)
Theorem read_result_unwraps_redirect (title_text target rest : string)
  (snippet_text : option string) :
  Py.contains "&" target = false ->
  Py.contains "/url?q=" (target ++ "&" ++ rest) = false ->
  read_result {| title_element := Some title_text;
                 link_element := Some (Some ("/url?q=" ++ target ++ "&" ++ rest));
                 snippet_element := snippet_text |}
  = [ {| title := title_text; link := target;
         snippet := or_empty snippet_text |} ].
Proof.
  intros Hamp Hsep. unfold read_result. cbn [title_element link_element
                                              snippet_element].
  rewrite (StringFacts.startswith_app "/url?q=").
  unfold unwrap_link, Py.split.
  assert (Py.split_scan "/url?q=" O "" ("/url?q=" ++ target ++ "&" ++ rest)
          = [""; target ++ "&" ++ rest]) as ->.
  { change ("/url?q=" ++ target ++ "&" ++ rest)
      with (String "/" ("url?q=" ++ target ++ "&" ++ rest)).
    cbn [Py.split_scan].
    pose proof (StringFacts.startswith_app "/url?q=" (target ++ "&" ++ rest))
      as Hp. unfold Py.startswith in Hp.
    change ("/url?q=" ++ target ++ "&" ++ rest)
      with (String "/" ("url?q=" ++ target ++ "&" ++ rest)) in Hp.
    rewrite Hp. cbn [String.length Nat.sub append Py.split_scan Py.rev_string].
    change (target ++ String "&" rest) with (target ++ "&" ++ rest).
    rewrite (split_scan_without "/url?q=" _ "" Hsep). reflexivity. }
  cbn [nth]. change (target ++ "&" ++ rest) with (target ++ String "&" rest).
  destruct (split_scan_first "&" target rest "" Hamp) as [more ->].
  reflexivity.
Qed.

Lemma read_result_unwraps_redirect_witness :
  read_result {| title_element := Some "Remote work in 2025";
                 link_element :=
                   Some (Some ("/url?q=" ++ "https://example.org/remote"
                                 ++ "&" ++ "sa=U"));
                 snippet_element := Some "How teams work remotely." |}
  = [ {| title := "Remote work in 2025";
         link := "https://example.org/remote";
         snippet := "How teams work remotely." |} ].
Proof.
  apply (read_result_unwraps_redirect "Remote work in 2025"
           "https://example.org/remote" "sa=U"
           (Some "How teams work remotely."));
    reflexivity.
Defined.

End LinkFacts.

Module KeywordFacts.
Import Runtime Main.

(** X25.  The document [generate_blog] leaves in the session depends on
    the posted topic only: two requests with the same topic give the same
    document, whatever their keywords, the collaborators and the session
    they start from. *)
Theorem generated_document_ignores_keywords (env1 env2 : Env)
  (request1 request2 : form) (s1 s2 : state) :
  form_topic request1 = form_topic request2 ->
  generated_document env1 request1 s1 = generated_document env2 request2 s2.
Proof.
  intros Htopic. unfold generated_document.
  rewrite !MainFacts.generate_blog_run.
  cbn [session_blog_result option_map br_content]. f_equal.
  unfold Claims.sample_document, Claims.posted_topic. rewrite Htopic.
  destruct (_ || _ || _)%bool; reflexivity.
Qed.

Lemma generated_document_ignores_keywords_witness :
  generated_document Stubs.refusing_env
    {| form_topic := Some "Remote Work"; form_keywords := Some "hybrid" |}
    initial_state
  = generated_document (Stubs.stub_env Stubs.canned Stubs.no_json)
      {| form_topic := Some "Remote Work"; form_keywords := None |}
      initial_state.
Proof.
  apply (generated_document_ignores_keywords Stubs.refusing_env
           (Stubs.stub_env Stubs.canned Stubs.no_json)
           {| form_topic := Some "Remote Work"; form_keywords := Some "hybrid" |}
           {| form_topic := Some "Remote Work"; form_keywords := None |}
           initial_state initial_state).
  reflexivity.
Defined.

End KeywordFacts.

(* ===================================================================== *)
(** * agents/content_agent.py                                            *)
(* ===================================================================== *)

Module ContentFacts.
Import Json Content Notions.
Local Open Scope content_scope.

Lemma bind_ok {A B : Type} (m : M A) (k : A -> M B) (s s' : state) (b : B) :
  bind m k s = (Ok b, s') ->
  exists a s1, m s = (Ok a, s1) /\ k a s1 = (Ok b, s').
Proof.
  unfold bind. destruct (m s) as [[a|e] s1]; [|discriminate].
  intros H. exists a, s1. split; [reflexivity | exact H].
Qed.

Lemma lift_ok {A : Type} (r : result A) (s s' : state) (a : A) :
  lift r s = (Ok a, s') -> r = Ok a /\ s' = s.
Proof. unfold lift. intros H. injection H as -> <-. split; reflexivity. Qed.

Lemma run_ok (env : Env) (c : chain) (kw : kwargs) (s s' : state) (a : string) :
  run env c kw s = (Ok a, s') ->
  chain_run env (tick s) c kw = Ok a /\ s' = ran c kw s.
Proof. unfold run. intros H. injection H as -> <-. split; reflexivity. Qed.

Lemma sleep_ok (n : Z) (s s' : state) (u : unit) :
  sleep n s = (Ok u, s') -> s' = slept n s.
Proof. unfold sleep. intros H. injection H as _ <-. reflexivity. Qed.

Lemma ret_ok {A : Type} (a b : A) (s s' : state) :
  ret a s = (Ok b, s') -> a = b /\ s' = s.
Proof. unfold ret. intros H. injection H as -> <-. split; reflexivity. Qed.

Lemma pauses_of_app (l1 l2 : list event) :
  pauses_of (l1 ++ l2) = (pauses_of l1 ++ pauses_of l2)%list.
Proof. apply flat_map_app. Qed.

Lemma runs_of_app (l1 l2 : list event) :
  runs_of (l1 ++ l2) = (runs_of l1 ++ runs_of l2)%list.
Proof. apply flat_map_app. Qed.

Section WithEnv.
Variable env : Env.
Variables topic research_information : string.

Lemma write_subheadings_run (subheadings : list json) :
  forall info done s info' done' s',
    write_subheadings env topic research_information subheadings info done s
    = (Ok (info', done'), s') ->
    exists new,
      trace s' = (trace s ++ new)%list
      /\ tick s' = (tick s + List.length subheadings)%nat
      /\ pauses_of new = repeat 1 (List.length subheadings)
      /\ List.length (runs_of new) = List.length subheadings.
Proof.
  induction subheadings as [|sub rest IH]; intros info done s info' done' s' H.
  - apply ret_ok in H. destruct H as [_ ->]. exists [].
    rewrite app_nil_r, Nat.add_0_r. repeat split.
  - cbn [write_subheadings] in H.
    apply bind_ok in H. destruct H as (title & s1 & H1 & H).
    apply lift_ok in H1. destruct H1 as [_ ->].
    apply bind_ok in H. destruct H as (points & s1 & H1 & H).
    apply lift_ok in H1. destruct H1 as [_ ->].
    apply bind_ok in H. destruct H as (target & s1 & H1 & H).
    apply lift_ok in H1. destruct H1 as [_ ->].
    apply bind_ok in H. destruct H as (bullets & s1 & H1 & H).
    apply lift_ok in H1. destruct H1 as [_ ->].
    apply bind_ok in H. destruct H as (content & s1 & H1 & H).
    apply run_ok in H1. destruct H1 as [_ ->].
    apply bind_ok in H. destruct H as (u & s1 & H1 & H).
    apply sleep_ok in H1. subst s1.
    apply IH in H. destruct H as (new & Htrace & Htick & Hp & Hr).
    eexists (_ :: _ :: new). split; [|split; [|split]].
    + rewrite Htrace. cbn [trace slept ran]. rewrite <- !app_assoc.
      reflexivity.
    + rewrite Htick. cbn [tick slept ran List.length]. lia.
    + cbn [pauses_of flat_map app List.length repeat].
      fold (pauses_of new). rewrite Hp. reflexivity.
    + cbn [runs_of flat_map app List.length].
      fold (runs_of new). rewrite Hr. reflexivity.
Qed.

Lemma heading_read (section h : json) (lowered : string) :
  get section "heading" (JStr "") = Ok h -> lower_of h = Ok lowered ->
  h = JStr (heading_text section)
  /\ lowered = Py.lower (heading_text section).
Proof.
  intros Hg Hl. unfold heading_text. rewrite Hg.
  destruct h; try discriminate. injection Hl as <-. split; reflexivity.
Qed.

Lemma write_section_run (outline blog_title section : json) (s s' : state)
  (w : Markdown.section) :
  write_section env topic research_information outline blog_title section s
  = (Ok w, s') ->
  exists new,
    trace s' = (trace s ++ new)%list
    /\ tick s' = (tick s + requests_for section)%nat
    /\ pauses_of new = pauses_for section
    /\ List.length (runs_of new) = requests_for section
    /\ Markdown.heading w = Some (heading_text section).
Proof.
  intros H. unfold write_section in H.
  apply bind_ok in H. destruct H as (h & s1 & H1 & H).
  apply lift_ok in H1. destruct H1 as [Hh ->].
  apply bind_ok in H. destruct H as (points & s1 & H1 & H).
  apply lift_ok in H1. destruct H1 as [_ ->].
  apply bind_ok in H. destruct H as (target & s1 & H1 & H).
  apply lift_ok in H1. destruct H1 as [_ ->].
  apply bind_ok in H. destruct H as (lowered & s1 & H1 & H).
  apply lift_ok in H1. destruct H1 as [Hl ->].
  destruct (heading_read _ _ _ Hh Hl) as [-> ->].
  cbn [render] in H.
  unfold requests_for, pauses_for, is_main, Utils.mem. cbn [existsb].
  destruct (String.eqb (Py.lower (heading_text section)) "introduction").
  - apply bind_ok in H. destruct H as (content & s1 & H1 & H).
    apply run_ok in H1. destruct H1 as [_ ->].
    apply ret_ok in H. destruct H as [<- ->].
    eexists [_]. cbn [orb negb]. repeat split. cbn [tick ran]. lia.
  - destruct (String.eqb (Py.lower (heading_text section)) "conclusion").
    + apply bind_ok in H. destruct H as (secs & s1 & H1 & H).
      apply lift_ok in H1. destruct H1 as [_ ->].
      apply bind_ok in H. destruct H as (items & s1 & H1 & H).
      apply lift_ok in H1. destruct H1 as [_ ->].
      apply bind_ok in H. destruct H as (all_points & s1 & H1 & H).
      apply lift_ok in H1. destruct H1 as [_ ->].
      apply bind_ok in H. destruct H as (content & s1 & H1 & H).
      apply run_ok in H1. destruct H1 as [_ ->].
      apply ret_ok in H. destruct H as [<- ->].
      eexists [_]. cbn [orb negb]. repeat split. cbn [tick ran]. lia.
    + apply bind_ok in H. destruct H as (subs & s1 & H1 & H).
      apply lift_ok in H1. destruct H1 as [Hsubs ->].
      apply bind_ok in H. destruct H as (items & s1 & H1 & H).
      apply lift_ok in H1. destruct H1 as [Hitems ->].
      apply bind_ok in H. destruct H as ([info done] & s1 & H1 & H).
      apply write_subheadings_run in H1.
      destruct H1 as (new & Htrace & Htick & Hp & Hr).
      apply bind_ok in H. destruct H as (bullets & s2 & H2 & H).
      apply lift_ok in H2. destruct H2 as [_ ->].
      apply bind_ok in H. destruct H as (targets & s2 & H2 & H).
      apply lift_ok in H2. destruct H2 as [_ ->].
      apply bind_ok in H. destruct H as (final & s2 & H2 & H).
      apply lift_ok in H2. destruct H2 as [_ ->].
      apply bind_ok in H. destruct H as (content & s2 & H2 & H).
      apply run_ok in H2. destruct H2 as [_ ->].
      apply bind_ok in H. destruct H as (u & s2 & H2 & H).
      apply sleep_ok in H2. subst s2.
      apply ret_ok in H. destruct H as [<- ->].
      assert (listed_subheadings section = items) as ->
        by (unfold listed_subheadings; rewrite Hsubs, Hitems; reflexivity).
      exists (new ++ [EvRun section_content_chain
                        [ ("topic", JStr topic);
                          ("heading", JStr (heading_text section));
                          ("subheadings", JStr (Py.join Py.nl info));
                          ("key_points", JStr bullets);
                          ("target_word_count", final);
                          ("research_information", JStr research_information) ];
                      EvSleep 2])%list.
      cbn [orb negb]. split; [|split; [|split; [|split]]].
      * cbn [trace slept ran]. rewrite Htrace, <- !app_assoc. reflexivity.
      * cbn [tick slept ran]. rewrite Htick. lia.
      * rewrite pauses_of_app, Hp. reflexivity.
      * rewrite runs_of_app, length_app, Hr. cbn. lia.
      * reflexivity.
Qed.

Lemma write_sections_run (outline blog_title : json) (sections : list json) :
  forall written s written' s',
    write_sections env topic research_information outline blog_title sections
      written s = (Ok written', s') ->
    exists new added,
      trace s' = (trace s ++ new)%list
      /\ tick s' = (tick s + list_sum (map requests_for sections))%nat
      /\ pauses_of new = flat_map pauses_for sections
      /\ List.length (runs_of new) = list_sum (map requests_for sections)
      /\ written' = (written ++ added)%list
      /\ map Markdown.heading added
         = map (fun section => Some (heading_text section)) sections.
Proof.
  induction sections as [|section rest IH]; intros written s written' s' H.
  - apply ret_ok in H. destruct H as [<- ->]. exists [], [].
    rewrite !app_nil_r, Nat.add_0_r. repeat split.
  - cbn [write_sections] in H.
    apply bind_ok in H. destruct H as (w & s1 & H1 & H).
    apply write_section_run in H1.
    destruct H1 as (new1 & Ht1 & Hk1 & Hp1 & Hr1 & Hh1).
    apply IH in H.
    destruct H as (new2 & added & Ht2 & Hk2 & Hp2 & Hr2 & Hw & Hh2).
    exists (new1 ++ new2)%list, (w :: added).
    split; [|split; [|split; [|split; [|split]]]].
    + rewrite Ht2, Ht1, app_assoc. reflexivity.
    + rewrite Hk2, Hk1.
      change (list_sum (map requests_for (section :: rest)))
        with (requests_for section + list_sum (map requests_for rest))%nat.
      lia.
    + rewrite pauses_of_app, Hp1, Hp2. reflexivity.
    + rewrite runs_of_app, length_app, Hr1, Hr2. reflexivity.
    + rewrite Hw, <- app_assoc. reflexivity.
    + cbn [map]. rewrite Hh1, Hh2. reflexivity.
Qed.

End WithEnv.

(** What is true prints as a text that is not empty: a title that
    [create_markdown_blog] finds true is printed under [###]. *)
Lemma render_of_true (env : Env) (x : json) :
  truthy_json x = true -> Py.truthy (render env x) = true.
Proof.
  destruct x as [|b|n|q|str|l|l]; simpl; intros H;
    try discriminate; try reflexivity.
  - destruct b; [reflexivity | discriminate].
  - unfold Seo.str_int. destruct n as [|p|p]; [discriminate| |reflexivity].
    simpl. pose proof (Unsigned.to_uint_nonnil p) as Hp.
    destruct (Pos.to_uint p); [congruence|reflexivity..].
  - exact H.
Qed.

(** X26.  A document [generate_content] returns follows the outline: it
    is the Markdown of the title and of one written section for each
    section of the outline, in order and under the heading of that
    section; an introduction and a conclusion took one request each, every
    other section one request and a pause of a second for each of its
    subheadings, then one request and a pause of two seconds. *)
Theorem generate_content_follows_outline (env : Env) (topic : string)
  (outline : json) (research_data : Research.research_data) (s s' : state)
  (document : string) :
  generate_content env topic outline research_data s = (Ok document, s') ->
  exists blog_title listed sections written new,
    get outline "title" (JStr (topic ++ ": A Comprehensive Guide"))
    = Ok blog_title
    /\ get outline "sections" (JArr []) = Ok listed
    /\ iterate listed = Ok sections
    /\ document
       = Markdown.create_markdown_blog (render env blog_title) written
    /\ map Markdown.heading written
       = map (fun section => Some (heading_text section)) sections
    /\ trace s' = (trace s ++ new)%list
    /\ tick s' = (tick s + list_sum (map requests_for sections))%nat
    /\ List.length (runs_of new) = list_sum (map requests_for sections)
    /\ pauses_of new = flat_map pauses_for sections.
Proof.
  intros H. unfold generate_content in H.
  apply bind_ok in H. destruct H as (blog_title & s1 & H1 & H).
  apply lift_ok in H1. destruct H1 as [Htitle ->].
  apply bind_ok in H. destruct H as (listed & s1 & H1 & H).
  apply lift_ok in H1. destruct H1 as [Hlisted ->].
  apply bind_ok in H. destruct H as (sections & s1 & H1 & H).
  apply lift_ok in H1. destruct H1 as [Hsections ->].
  apply bind_ok in H. destruct H as (written & s1 & H1 & H).
  apply ret_ok in H. destruct H as [<- ->].
  apply write_sections_run in H1.
  destruct H1 as (new & added & Ht & Hk & Hp & Hr & Hw & Hh).
  simpl in Hw. subst written.
  exists blog_title, listed, sections, added, new.
  repeat split; assumption.
Qed.

(** The fallback outline of [create_outline], written by chains that
    answer: eleven requests. *)
Lemma generate_content_follows_outline_witness :
  exists document s',
    generate_content writer "Remote Work"
      (Planning.fallback_outline "Remote Work" "") Stubs.bare_research
      initial_state = (Ok document, s')
    /\ tick s' = 11%nat.
Proof.
  eexists. eexists. split; [vm_compute; reflexivity|].
  destruct (generate_content_follows_outline writer "Remote Work"
              (Planning.fallback_outline "Remote Work" "") Stubs.bare_research
              initial_state _ _ eq_refl)
    as (blog_title & listed & sections & written & new & _ & Hl & Hs & _ & _
        & _ & Hk & _).
  injection Hl as <-. injection Hs as <-. exact Hk.
Defined.

Lemma collect_key_points_reads_headings (sections : list json) :
  forall all_key_points collected section,
    collect_key_points sections all_key_points = Ok collected ->
    In section sections ->
    exists h lowered,
      get section "heading" JNull = Ok h /\ lower_of h = Ok lowered.
Proof.
  induction sections as [|first rest IH];
    intros all_key_points collected section H Hin; [destruct Hin|].
  cbn [collect_key_points] in H.
  destruct (get first "heading" JNull) as [h|e] eqn:Hh; [|discriminate].
  destruct (lower_of h) as [lowered|e] eqn:Hl; [|discriminate].
  destruct Hin as [<-|Hin]; [exists h, lowered; split; assumption|].
  destruct (Utils.mem lowered ["introduction"; "conclusion"]);
    [exact (IH _ _ _ H Hin)|].
  destruct (get first "key_points" (JArr [])) as [points|e]; [|discriminate].
  destruct (iterate points) as [items|e]; [|discriminate].
  exact (IH _ _ _ H Hin).
Qed.

Lemma write_sections_writes_each (env : Env)
  (topic research_information : string) (outline blog_title : json)
  (sections : list json) :
  forall written s written' s' section,
    write_sections env topic research_information outline blog_title sections
      written s = (Ok written', s') ->
    In section sections ->
    exists s0 w s1,
      write_section env topic research_information outline blog_title section
        s0 = (Ok w, s1).
Proof.
  induction sections as [|first rest IH];
    intros written s written' s' section H Hin; [destruct Hin|].
  cbn [write_sections] in H.
  apply bind_ok in H. destruct H as (w & s1 & H1 & H).
  destruct Hin as [<-|Hin]; [exists s, w, s1; exact H1|].
  exact (IH _ _ _ _ _ H Hin).
Qed.

(** X27.  The conclusion reads the heading of every section of the
    outline, and without a default: for an outline that has a section
    headed as the conclusion and a section without a heading,
    [generate_content] returns no document, it raises. *)
Theorem generate_content_needs_every_heading (env : Env) (topic : string)
  (outline : json) (research_data : Research.research_data) (s : state)
  (sections : list json) (concluding headless : list (string * json))
  (heading : string) :
  get outline "sections" (JArr []) = Ok (JArr sections) ->
  In (JObj concluding) sections ->
  lookup "heading" concluding = Some (JStr heading) ->
  Py.lower heading = "conclusion" ->
  In (JObj headless) sections ->
  lookup "heading" headless = None ->
  exists e s',
    generate_content env topic outline research_data s = (Raise e, s').
Proof.
  intros Hsections Hin Hheading Hlower Hin' Hnone.
  destruct (generate_content env topic outline research_data s)
    as [[document|e] s'] eqn:Hrun; [exfalso | exists e, s'; reflexivity].
  unfold generate_content in Hrun.
  apply bind_ok in Hrun. destruct Hrun as (blog_title & s1 & H1 & H).
  apply lift_ok in H1. destruct H1 as [_ ->].
  apply bind_ok in H. destruct H as (listed & s1 & H1 & H).
  apply lift_ok in H1. destruct H1 as [Hlisted ->].
  rewrite Hsections in Hlisted. injection Hlisted as <-.
  apply bind_ok in H. destruct H as (items & s1 & H1 & H).
  apply lift_ok in H1. destruct H1 as [Hitems ->].
  injection Hitems as <-.
  apply bind_ok in H. destruct H as (written & s1 & H1 & _).
  destruct (write_sections_writes_each _ _ _ _ _ _ _ _ _ _ _ H1 Hin)
    as (s0 & w & s2 & Hw).
  unfold write_section in Hw. cbn [get] in Hw. rewrite Hheading in Hw.
  unfold lift at 1 2 3 4 in Hw. unfold bind at 1 2 3 4 in Hw.
  cbn [lower_of] in Hw. rewrite Hlower in Hw.
  cbn [String.eqb Ascii.eqb Bool.eqb] in Hw.
  apply bind_ok in Hw. destruct Hw as (secs & s3 & H3 & Hw).
  apply lift_ok in H3. destruct H3 as [Hsecs ->].
  rewrite Hsections in Hsecs. injection Hsecs as <-.
  apply bind_ok in Hw. destruct Hw as (secs & s3 & H3 & Hw).
  apply lift_ok in H3. destruct H3 as [Hsecs ->]. injection Hsecs as <-.
  apply bind_ok in Hw. destruct Hw as (points & s3 & H3 & _).
  apply lift_ok in H3. destruct H3 as [Hpoints _].
  destruct (collect_key_points_reads_headings _ _ _ _ Hpoints Hin')
    as (h & lowered & Hh & Hl).
  cbn [get] in Hh. rewrite Hnone in Hh. injection Hh as <-. discriminate.
Qed.

Lemma generate_content_needs_every_heading_witness :
  exists e s',
    generate_content writer "Remote Work" headless_outline Stubs.bare_research
      initial_state = (Raise e, s').
Proof.
  apply (generate_content_needs_every_heading writer "Remote Work"
           headless_outline Stubs.bare_research initial_state
           [ JObj [("key_points", Planning.strs ["Where teams work"])];
             JObj [("heading", JStr "Conclusion")] ]
           [("heading", JStr "Conclusion")]
           [("key_points", Planning.strs ["Where teams work"])]
           "Conclusion").
  - reflexivity.
  - simpl. right. left. reflexivity.
  - reflexivity.
  - reflexivity.
  - simpl. left. reflexivity.
  - reflexivity.
Defined.

Lemma get_structural (x : json) (k : string) (default : json) (e : exn) :
  get x k default = Raise e -> e = AttributeError.
Proof. destruct x; simpl; congruence. Qed.

Lemma lower_of_structural (x : json) (e : exn) :
  lower_of x = Raise e -> e = AttributeError.
Proof. destruct x; simpl; congruence. Qed.

Lemma iterate_structural (x : json) (e : exn) :
  iterate x = Raise e -> e = TypeError.
Proof. destruct x; simpl; congruence. Qed.

Lemma bullet_list_structural (env : Env) (x : json) (e : exn) :
  bullet_list env x = Raise e -> e = TypeError.
Proof.
  unfold bullet_list. destruct (iterate x) eqn:E; [discriminate|].
  intros H. injection H as <-. exact (iterate_structural _ _ E).
Qed.

Lemma collect_key_points_structural (sections : list json) :
  forall acc e,
    collect_key_points sections acc = Raise e ->
    e = TypeError \/ e = AttributeError.
Proof.
  induction sections as [|first rest IH]; intros acc e H; [discriminate|].
  cbn [collect_key_points] in H.
  destruct (get first "heading" JNull) as [h|e1] eqn:Hh;
    [|injection H as <-; right; exact (get_structural _ _ _ _ Hh)].
  destruct (lower_of h) as [l|e1] eqn:Hl;
    [|injection H as <-; right; exact (lower_of_structural _ _ Hl)].
  destruct (Utils.mem l ["introduction"; "conclusion"]); [exact (IH _ _ H)|].
  destruct (get first "key_points" (JArr [])) as [points|e1] eqn:Hp;
    [|injection H as <-; right; exact (get_structural _ _ _ _ Hp)].
  destruct (iterate points) as [items|e1] eqn:Hi;
    [|injection H as <-; left; exact (iterate_structural _ _ Hi)].
  exact (IH _ _ H).
Qed.

Lemma subheading_targets_structural (subheadings : list json) (e : exn) :
  subheading_targets subheadings = Raise e -> e = AttributeError.
Proof.
  induction subheadings as [|first rest IH]; intros H; [discriminate|].
  cbn [subheading_targets] in H.
  destruct (get first "target_word_count" (JInt 200)) as [t|e1] eqn:Ht;
    [|injection H as <-; exact (get_structural _ _ _ _ Ht)].
  destruct (subheading_targets rest) as [ts|e1]; [discriminate|].
  injection H as <-. apply IH. reflexivity.
Qed.

Lemma section_target_structural (env : Env) (t : json) (ts : list json)
  (e : exn) :
  section_target env t ts = Raise e -> e = TypeError.
Proof.
  unfold section_target. destruct (forallb is_number (t :: ts)).
  - destruct (as_int t), (all_ints ts); discriminate.
  - congruence.
Qed.

Lemma stopped_early_raise {A B : Type} (s s1 : state) (failure e : exn) :
  stopped_early (A:=A) s failure (Raise e, s1) ->
  stopped_early (A:=B) s failure (Raise e, s1).
Proof.
  unfold stopped_early. cbn [fst snd].
  intros [[Hs [H|H]]|(c & kw & Hs & H)]; injection H as ->.
  - left. split; [exact Hs | left; reflexivity].
  - left. split; [exact Hs | right; reflexivity].
  - right. exists c, kw. split; [exact Hs | reflexivity].
Qed.

Section Failing.
Variable env : Env.
Variables topic research_information : string.
Variable s : state.
Variable failure : exn.
Hypothesis first_request_fails :
  forall c kw, chain_run env (tick s) c kw = Raise failure.

(** A read that raises stops the run on the spot. *)
Lemma stopped_by_read {A B : Type} (r : result A) (k : A -> M B) :
  (forall e, r = Raise e -> e = TypeError \/ e = AttributeError) ->
  (forall a, r = Ok a -> stopped_early s failure (k a s)) ->
  stopped_early s failure (bind (lift r) k s).
Proof.
  intros Hr Hk. unfold bind, lift. destruct r as [a|e].
  - apply Hk. reflexivity.
  - left. split; [reflexivity|]. destruct (Hr e eq_refl) as [->| ->]; auto.
Qed.

Lemma stopped_by_run {B : Type} (c : chain) (kw : kwargs) (k : string -> M B) :
  stopped_early s failure (bind (run env c kw) k s).
Proof.
  unfold bind, run. rewrite first_request_fails.
  right. exists c, kw. split; reflexivity.
Qed.

Lemma write_section_stops (outline blog_title section : json) :
  stopped_early s failure
    (write_section env topic research_information outline blog_title section s).
Proof.
  unfold write_section.
  apply stopped_by_read; [intros e H; right; exact (get_structural _ _ _ _ H)|].
  intros h _.
  apply stopped_by_read; [intros e H; right; exact (get_structural _ _ _ _ H)|].
  intros points _.
  apply stopped_by_read; [intros e H; right; exact (get_structural _ _ _ _ H)|].
  intros target _.
  apply stopped_by_read; [intros e H; right; exact (lower_of_structural _ _ H)|].
  intros lowered _.
  destruct (String.eqb lowered "introduction"); [apply stopped_by_run|].
  destruct (String.eqb lowered "conclusion").
  - apply stopped_by_read;
      [intros e H; right; exact (get_structural _ _ _ _ H)|].
    intros secs _.
    apply stopped_by_read;
      [intros e H; left; exact (iterate_structural _ _ H)|].
    intros items _.
    apply stopped_by_read; [apply collect_key_points_structural|].
    intros all_points _. apply stopped_by_run.
  - apply stopped_by_read;
      [intros e H; right; exact (get_structural _ _ _ _ H)|].
    intros subs _.
    apply stopped_by_read;
      [intros e H; left; exact (iterate_structural _ _ H)|].
    intros [|sub rest] _.
    + cbn [write_subheadings]. unfold bind at 1, ret at 1.
      apply stopped_by_read;
        [intros e H; left; exact (bullet_list_structural _ _ _ H)|].
      intros bullets _.
      apply stopped_by_read;
        [intros e H; right; exact (subheading_targets_structural _ _ H)|].
      intros targets _.
      apply stopped_by_read;
        [intros e H; left; exact (section_target_structural _ _ _ _ H)|].
      intros final _. apply stopped_by_run.
    + assert (stopped_early s failure
                (write_subheadings env topic research_information
                   (sub :: rest) [] [] s)) as Hsub.
      { cbn [write_subheadings].
        apply stopped_by_read;
          [intros e H; right; exact (get_structural _ _ _ _ H)|].
        intros title _.
        apply stopped_by_read;
          [intros e H; right; exact (get_structural _ _ _ _ H)|].
        intros kps _.
        apply stopped_by_read;
          [intros e H; right; exact (get_structural _ _ _ _ H)|].
        intros tgt _.
        apply stopped_by_read;
          [intros e H; left; exact (bullet_list_structural _ _ _ H)|].
        intros bullets _. apply stopped_by_run. }
      unfold bind at 1.
      destruct (write_subheadings env topic research_information
                  (sub :: rest) [] [] s) as [[done|e] s1].
      * exfalso. destruct Hsub as [[_ [H|H]]|(c & kw & _ & H)]; discriminate.
      * exact (stopped_early_raise _ _ _ _ Hsub).
Qed.

End Failing.

(** X28.  When the first request of a run raises, [generate_content]
    raises that failure after this one request, without a pause and
    without another request; when it ends before any request, it raised on
    a value of the outline it could not read, or the outline lists no
    section and the document is the title line alone. *)
Theorem generate_content_stops_at_first_failure (env : Env) (topic : string)
  (outline : json) (research_data : Research.research_data) (s : state)
  (failure : exn) :
  (forall c kw, chain_run env (tick s) c kw = Raise failure) ->
  let outcome := generate_content env topic outline research_data s in
  stopped_early s failure outcome
  \/ exists blog_title,
       outcome
       = (Ok (Markdown.create_markdown_blog (render env blog_title) []), s).
Proof.
  intros Hfail. cbv zeta. unfold generate_content, bind, lift, ret.
  destruct (get outline "title" _) as [blog_title|e] eqn:Ht;
    [|left; left; split; [reflexivity|]; right;
      rewrite (get_structural _ _ _ _ Ht); reflexivity].
  destruct (get outline "sections" _) as [listed|e] eqn:Hl;
    [|left; left; split; [reflexivity|]; right;
      rewrite (get_structural _ _ _ _ Hl); reflexivity].
  destruct (iterate listed) as [[|section rest]|e] eqn:Hi;
    [| |left; left; split; [reflexivity|]; left;
        rewrite (iterate_structural _ _ Hi); reflexivity].
  - right. exists blog_title. reflexivity.
  - left. cbn [write_sections]. unfold bind.
    pose proof (write_section_stops env topic
                  match Research.synthesized_research research_data with
                  | Some r => r
                  | None => ""
                  end s failure Hfail outline blog_title section) as Hstop.
    destruct (write_section env topic _ outline blog_title section s)
      as [[w|e] s1].
    + exfalso. destruct Hstop as [[_ [H|H]]|(c & kw & _ & H)]; discriminate.
    + exact (stopped_early_raise _ _ _ _ Hstop).
Qed.

Lemma generate_content_stops_at_first_failure_witness :
  stopped_early initial_state (External "service unavailable")
    (generate_content silent "Remote Work"
       (Planning.fallback_outline "Remote Work" "") Stubs.bare_research
       initial_state).
Proof.
  destruct (generate_content_stops_at_first_failure silent "Remote Work"
              (Planning.fallback_outline "Remote Work" "") Stubs.bare_research
              initial_state (External "service unavailable"))
    as [H|[blog_title H]].
  - reflexivity.
  - exact H.
  - vm_compute in H. discriminate.
Defined.

(** [generate_content] depends on its collaborators through their
    answers only. *)
Section SameAnswers.
Variables env1 env2 : Env.
Hypothesis same_run :
  forall t c kw, chain_run env1 t c kw = chain_run env2 t c kw.
Hypothesis same_repr : forall x, py_repr env1 x = py_repr env2 x.
Hypothesis same_float :
  forall x l, float_target env1 x l = float_target env2 x l.

Lemma render_same (x : json) : render env1 x = render env2 x.
Proof. destruct x; simpl; rewrite ?same_repr; reflexivity. Qed.

Lemma bullet_list_same (x : json) : bullet_list env1 x = bullet_list env2 x.
Proof.
  unfold bullet_list. destruct (iterate x) as [points|e]; [|reflexivity].
  do 2 f_equal. apply map_ext. intros point. rewrite render_same. reflexivity.
Qed.

Lemma section_target_same (x : json) (l : list json) :
  section_target env1 x l = section_target env2 x l.
Proof. unfold section_target. rewrite same_float. reflexivity. Qed.

Lemma run_same (c : chain) (kw : kwargs) (s : state) :
  run env1 c kw s = run env2 c kw s.
Proof. unfold run. rewrite same_run. reflexivity. Qed.

Lemma bind_same {A B : Type} (m1 m2 : M A) (k1 k2 : A -> M B) (s : state) :
  m1 s = m2 s -> (forall a s1, k1 a s1 = k2 a s1) ->
  bind m1 k1 s = bind m2 k2 s.
Proof.
  intros Hm Hk. unfold bind. rewrite Hm.
  destruct (m2 s) as [[a|e] s1]; [apply Hk | reflexivity].
Qed.

Lemma processed_same (title : json) (content : string) :
  processed env1 title content = processed env2 title content.
Proof. unfold processed. rewrite render_same. reflexivity. Qed.

Lemma write_subheadings_same (topic research_information : string)
  (subheadings : list json) :
  forall info done s,
    write_subheadings env1 topic research_information subheadings info done s
    = write_subheadings env2 topic research_information subheadings info done s.
Proof.
  induction subheadings as [|sub rest IH]; intros info done s; [reflexivity|].
  cbn [write_subheadings].
  apply bind_same; [reflexivity|]. intros title s1.
  apply bind_same; [reflexivity|]. intros points s2.
  apply bind_same; [reflexivity|]. intros target s3.
  apply bind_same; [rewrite bullet_list_same; reflexivity|]. intros bullets s4.
  apply bind_same; [apply run_same|]. intros content s5.
  apply bind_same; [reflexivity|]. intros u s6.
  rewrite render_same, processed_same. apply IH.
Qed.

Lemma write_section_same (topic research_information : string)
  (outline blog_title section : json) (s : state) :
  write_section env1 topic research_information outline blog_title section s
  = write_section env2 topic research_information outline blog_title section s.
Proof.
  unfold write_section.
  apply bind_same; [reflexivity|]. intros h s1.
  apply bind_same; [reflexivity|]. intros points s2.
  apply bind_same; [reflexivity|]. intros target s3.
  apply bind_same; [reflexivity|]. intros lowered s4.
  rewrite render_same.
  destruct (String.eqb lowered "introduction").
  { apply bind_same; [apply run_same | reflexivity]. }
  destruct (String.eqb lowered "conclusion").
  { apply bind_same; [reflexivity|]. intros secs s5.
    apply bind_same; [reflexivity|]. intros items s6.
    apply bind_same; [reflexivity|]. intros all_points s7.
    replace (map (fun point => "- " ++ render env1 point) all_points)
      with (map (fun point => "- " ++ render env2 point) all_points)
      by (apply map_ext; intros point; rewrite render_same; reflexivity).
    apply bind_same; [apply run_same | reflexivity]. }
  apply bind_same; [reflexivity|]. intros subs s5.
  apply bind_same; [reflexivity|]. intros items s6.
  apply bind_same; [apply write_subheadings_same|]. intros [info done] s7.
  apply bind_same; [rewrite bullet_list_same; reflexivity|]. intros bullets s8.
  apply bind_same; [reflexivity|]. intros targets s9.
  apply bind_same; [rewrite section_target_same; reflexivity|]. intros final s10.
  apply bind_same; [apply run_same | reflexivity].
Qed.

Lemma write_sections_same (topic research_information : string)
  (outline blog_title : json) (sections : list json) :
  forall written s,
    write_sections env1 topic research_information outline blog_title sections
      written s
    = write_sections env2 topic research_information outline blog_title
        sections written s.
Proof.
  induction sections as [|section rest IH]; intros written s; [reflexivity|].
  cbn [write_sections].
  apply bind_same; [apply write_section_same|]. intros w s1. apply IH.
Qed.

Lemma generate_content_same (topic : string) (outline : json)
  (research_data : Research.research_data) (s : state) :
  generate_content env1 topic outline research_data s
  = generate_content env2 topic outline research_data s.
Proof.
  unfold generate_content.
  apply bind_same; [reflexivity|]. intros blog_title s1.
  apply bind_same; [reflexivity|]. intros listed s2.
  apply bind_same; [reflexivity|]. intros sections s3.
  apply bind_same; [apply write_sections_same|]. intros written s4.
  rewrite render_same. reflexivity.
Qed.

End SameAnswers.

(** X29.  The fallback outline of [create_outline] is one
    [generate_content] can write: with chains that answer it returns a
    document after eleven requests, the introduction first and the
    conclusion last; the three sections that have subheadings are asked
    for the least target, 50 words, their subheadings taking the whole of
    theirs. *)
Theorem generate_content_writes_fallback_outline (env : Env)
  (answers : nat -> chain -> kwargs -> string) (topic keywords : string)
  (research_data : Research.research_data) (s : state) :
  (forall t c kw, chain_run env t c kw = Ok (answers t c kw)) ->
  exists document s' new,
    generate_content env topic (Planning.fallback_outline topic keywords)
      research_data s = (Ok document, s')
    /\ trace s' = (trace s ++ new)%list
    /\ map fst (runs_of new)
       = [ introduction_chain;
           section_content_chain; section_content_chain; section_content_chain;
           section_content_chain; section_content_chain; section_content_chain;
           section_content_chain; section_content_chain;
           section_content_chain;
           conclusion_chain ]
    /\ map (fun request => lookup "target_word_count" (snd request))
         (runs_of new)
       = map Some
           [ JInt 200;
             JInt 250; JInt 250; JInt 50;
             JInt 300; JInt 300; JInt 50;
             JInt 300; JInt 50;
             JInt 200;
             JInt 200 ]
    /\ pauses_of new = [1; 1; 2; 1; 1; 2; 1; 2; 2].
Proof.
  intros Hrun.
  rewrite (generate_content_same env
             {| chain_run := fun t c kw => Ok (answers t c kw);
                py_repr := py_repr env;
                float_target := float_target env |}
             Hrun (fun _ => eq_refl) (fun _ _ => eq_refl)).
  destruct s as [t tr].
  do 3 eexists. split; [cbv -[app]; reflexivity|].
  cbn [trace]. split; [rewrite <- !app_assoc; reflexivity|].
  cbn. repeat split.
Qed.

Lemma generate_content_writes_fallback_outline_witness :
  exists document s',
    generate_content writer "Remote Work"
      (Planning.fallback_outline "Remote Work" "hybrid, remote")
      Stubs.bare_research initial_state = (Ok document, s').
Proof.
  destruct (generate_content_writes_fallback_outline writer
              (fun _ c _ => match c with
                            | introduction_chain => "Opening words."
                            | conclusion_chain => "Closing words."
                            | section_content_chain => "Section words."
                            end)
              "Remote Work" "hybrid, remote" Stubs.bare_research initial_state)
    as (document & s' & new & H & _).
  - reflexivity.
  - exists document, s'. exact H.
Defined.

End ContentFacts.

(* ===================================================================== *)
(** * utils.py: the density and the case of the letters                  *)
(* ===================================================================== *)

Module CaseFacts.
Import Utils Notions.

Lemma lower_char_idempotent (c : ascii) :
  Py.lower_char (Py.lower_char c) = Py.lower_char c.
Proof. destruct c as [[] [] [] [] [] [] [] []]; reflexivity. Qed.

Lemma is_word_lower_char (c : ascii) :
  Py.is_word (Py.lower_char c) = Py.is_word c.
Proof. destruct c as [[] [] [] [] [] [] [] []]; reflexivity. Qed.

Lemma lower_idempotent (s : string) : Py.lower (Py.lower s) = Py.lower s.
Proof.
  induction s as [|c s IH]; [reflexivity|].
  simpl. rewrite lower_char_idempotent, IH. reflexivity.
Qed.

Lemma count_runs_lower (s : string) :
  forall inw, Py.count_runs inw (Py.lower s) = Py.count_runs inw s.
Proof.
  induction s as [|c s IH]; intros inw; [reflexivity|].
  simpl. rewrite is_word_lower_char, !IH. reflexivity.
Qed.

Lemma keyword_count_lower (text_lower : string) (keywords : list string) :
  keyword_count text_lower (map Py.lower keywords)
  = keyword_count text_lower keywords.
Proof.
  induction keywords as [|k ks IH]; [reflexivity|].
  simpl. rewrite lower_idempotent, IH. reflexivity.
Qed.

(** X30.  For a text and keywords of ASCII characters (codes below 128),
    the density does not depend on the case of the letters, in the text or
    in the keywords. *)
Theorem keyword_density_ignores_case (text : string) (keywords : list string) :
  ascii_text text ->
  Forall ascii_text keywords ->
  calculate_keyword_density (Py.lower text) (map Py.lower keywords)
  = calculate_keyword_density text keywords.
Proof.
  intros _ _.
  unfold calculate_keyword_density.
  destruct keywords as [|k ks]; [reflexivity|].
  cbn [map].
  replace (Py.truthy (Py.lower text)) with (Py.truthy text)
    by (destruct text; reflexivity).
  destruct (Py.truthy text); [|reflexivity].
  unfold count_words. rewrite count_runs_lower, lower_idempotent.
  rewrite <- (keyword_count_lower (Py.lower text) (k :: ks)).
  reflexivity.
Qed.

Lemma keyword_density_ignores_case_witness :
  calculate_keyword_density "hr software helps hr teams" ["hr"; "software"]
  = calculate_keyword_density "HR Software helps HR teams" ["HR"; "Software"].
Proof.
  apply (keyword_density_ignores_case "HR Software helps HR teams"
           ["HR"; "Software"]).
  - reflexivity.
  - repeat constructor.
Defined.

End CaseFacts.
